(** * pyroute2: the netlink client core ([pyroute2/netlink/client.py]) and the
      [IPRoute.link] / [IPRoute.addr] request builders
      ([pyroute2/netlink/iproute.py]).

    The Python code is embedded shallowly: every method of [Netlink] becomes a
    computation in a small state-and-exception monad over the fields of the
    object that the method reads or writes.  Collaborators that live outside
    the two source files (the [Marshal], the [envmsg] / [mgmtmsg] codecs and
    the numeric constants of [pyroute2.netlink]) are interfaces, given as type
    classes. *)

From Stdlib Require Import ZArith List Lia Bool Ascii String.
From Stdlib Require Import Strings.Byte.
From stdpp Require Import gmap strings list fin_maps.

Local Open Scope Z_scope.

(** ** Python values, exceptions *)

Module Py.

(** The exceptions that the modelled code raises or lets through. *)
Inductive exn : Type :=
| AttributeError
| KeyError
| TypeError
| IndexError
| AssertionError
| StructError                 (* struct.error *)
| QueueEmpty                  (* Queue.Empty *)
| QueueFull                   (* Queue.Full *)
| NetlinkError (code : Z)     (* the error object a header carries *)
| UserError (tag : string).   (* anything a user callback raises *)

(** The values that travel through keyword arguments and attributes. *)
#[warnings="-register-all"] Inductive value : Type :=
| VNone
| VInt (n : Z)
| VStr (s : string)
| VBytes (b : list byte)
| VDict (items : list (string * value)).

(** Python truthiness, as used by [x or y]. *)
Definition truthy (v : value) : bool :=
  match v with
  | VNone => false
  | VInt n => negb (n =? 0)
  | VStr s => negb (String.eqb s EmptyString)
  | VBytes b => match b with [] => false | _ => true end
  | VDict d => match d with [] => false | _ => true end
  end.

(** [x or y] *)
Definition por (x y : value) : value := if truthy x then x else y.

(** A call that either returns or raises. *)
Inductive result (A : Type) : Type :=
| Returns (a : A)
| Raises (e : exn).
Arguments Returns {A} a.
Arguments Raises {A} e.

End Py.
Export Py.

(** ** Messages, queues and the client object *)

(** [msg['header']]: the fields the client reads. [h_error] is
    [msg['header'].get('error', None)]. *)
Record nlhdr : Type := mk_nlhdr {
  h_type : Z;
  h_flags : Z;
  h_sequence_number : Z;
  h_error : option exn
}.

(** A message ([nlmsg] and its subclasses, [mgmtmsg] included): a dict of
    fields, the header, the attribute list and the bytes it was parsed from.
    [header] is [None] once [del msg['header']] has run. *)
Record nlmsg : Type := mk_nlmsg {
  header : option nlhdr;
  fields : gmap string value;
  attrs : list (string * value);
  raw : option (list byte)
}.

(** A fresh message object: [mgmtmsg(io.BytesIO())], [ifinfmsg()], ... *)
Definition new_msg : nlmsg :=
  {| header := Some (mk_nlhdr 0 0 0 None); fields := ∅; attrs := [];
     raw := None |}.

(** [msg[key] = v] *)
Definition set_field (key : string) (v : value) (m : nlmsg) : nlmsg :=
  {| header := header m; fields := <[key := v]> (fields m); attrs := attrs m;
     raw := raw m |}.

(** [msg['attrs'] = a] *)
Definition set_attrs (a : list (string * value)) (m : nlmsg) : nlmsg :=
  {| header := header m; fields := fields m; attrs := a; raw := raw m |}.

(** [Queue.Queue(maxsize)]; the items of a listener are messages or the
    terminator [None].  [q_persist] is [hasattr(queue, 'persist')]. *)
Record queue : Type := mk_queue {
  q_items : list (option nlmsg);
  q_maxsize : Z;
  q_persist : bool
}.

Definition _QUEUE_MAXSIZE : Z := 4096.

(** [Queue.Queue(maxsize=_QUEUE_MAXSIZE)] *)
Definition new_queue : queue :=
  {| q_items := []; q_maxsize := _QUEUE_MAXSIZE; q_persist := false |}.

(** [Queue.full()]: a non-positive [maxsize] means unbounded. *)
Definition q_full (q : queue) : bool :=
  (0 <? q_maxsize q) && (q_maxsize q <=? Z.of_nat (length (q_items q))).

Definition q_push (m : option nlmsg) (q : queue) : queue :=
  {| q_items := q_items q ++ [m]; q_maxsize := q_maxsize q;
     q_persist := q_persist q |}.

Definition q_with_items (l : list (option nlmsg)) (q : queue) : queue :=
  {| q_items := l; q_maxsize := q_maxsize q; q_persist := q_persist q |}.

(** An entry of [self.callbacks]: [(predicate, callback, args)].  [cb_id]
    stands for the identity of the callback function. *)
Record cb_entry : Type := mk_cb {
  cb_id : Z;
  cb_predicate : nlmsg -> result bool;
  cb_callback : nlmsg -> list value -> result unit;
  cb_args : list value
}.

(** What the outside world observes of a run. *)
Inductive event : Type :=
| EvEnvelope (data : list byte)          (* envmsg(data) built from a slice *)
| EvPredicate (id : Z) (m : nlmsg)       (* cr[0](msg) called *)
| EvCallback (id : Z) (m : nlmsg)        (* cr[1](msg, *cr[2]) called *)
| EvSend (seq : Z) (eflags : value) (dst : value)
         (mtype mflags : value)
         (inner : nlmsg)                 (* bridge.send(envelope) *).

(** The fields of a [Netlink] object that the modelled methods touch, and the
    trace of observable events. *)
Record state : Type := mk_state {
  listeners : gmap Z queue;
  callbacks : list cb_entry;
  cid : value;
  _nonce : Z;
  _mirror : bool;
  default_realm : Z;
  debug : bool;
  trace : list event
}.

Definition set_listeners (f : gmap Z queue -> gmap Z queue) (st : state) : state :=
  {| listeners := f (listeners st); callbacks := callbacks st; cid := cid st;
     _nonce := _nonce st; _mirror := _mirror st;
     default_realm := default_realm st; debug := debug st;
     trace := trace st |}.

Definition set_callbacks (f : list cb_entry -> list cb_entry) (st : state) : state :=
  {| listeners := listeners st; callbacks := f (callbacks st); cid := cid st;
     _nonce := _nonce st; _mirror := _mirror st;
     default_realm := default_realm st; debug := debug st;
     trace := trace st |}.

Definition set_cid (c : value) (st : state) : state :=
  {| listeners := listeners st; callbacks := callbacks st; cid := c;
     _nonce := _nonce st; _mirror := _mirror st;
     default_realm := default_realm st; debug := debug st;
     trace := trace st |}.

Definition set_nonce (n : Z) (st : state) : state :=
  {| listeners := listeners st; callbacks := callbacks st; cid := cid st;
     _nonce := n; _mirror := _mirror st;
     default_realm := default_realm st; debug := debug st;
     trace := trace st |}.

Definition set_mirror (b : bool) (st : state) : state :=
  {| listeners := listeners st; callbacks := callbacks st; cid := cid st;
     _nonce := _nonce st; _mirror := b;
     default_realm := default_realm st; debug := debug st;
     trace := trace st |}.

Definition emit (e : event) (st : state) : state :=
  {| listeners := listeners st; callbacks := callbacks st; cid := cid st;
     _nonce := _nonce st; _mirror := _mirror st;
     default_realm := default_realm st; debug := debug st;
     trace := trace st ++ [e] |}.

(** [Netlink.__init__], the fields above. *)
Definition init_state (dbg : bool) : state :=
  {| listeners := ∅; callbacks := []; cid := VNone; _nonce := 0;
     _mirror := false; default_realm := 0; debug := dbg; trace := [] |}.

(** ** The monad of method calls *)

(** A call returns, raises, or never comes back (a blocking [Queue] call that
    nothing will ever release). *)
Inductive outcome (A : Type) : Type :=
| Ok (a : A) (st : state)
| Err (e : exn) (st : state)
| Hang.
Arguments Ok {A} a st.
Arguments Err {A} e st.
Arguments Hang {A}.

Definition M (A : Type) : Type := state -> outcome A.

Definition ret {A} (a : A) : M A := fun st => Ok a st.
Definition raise {A} (e : exn) : M A := fun st => Err e st.
Definition bind {A B} (c : M A) (k : A -> M B) : M B :=
  fun st => match c st with
            | Ok a st' => k a st'
            | Err e st' => Err e st'
            | Hang => Hang
            end.
Definition modify (f : state -> state) : M unit := fun st => Ok tt (f st).
Definition gets {A} (f : state -> A) : M A := fun st => Ok (f st) st.

(** [try: c  except e if handles e: h] *)
Definition try_except {A} (c : M A) (handles : exn -> bool) (h : M A) : M A :=
  fun st => match c st with
            | Err e st' => if handles e then h st' else Err e st'
            | o => o
            end.

(** A call into user or collaborator code that returns or raises. *)
Definition lift {A} (r : result A) : M A :=
  match r with Returns a => ret a | Raises e => raise e end.

Declare Scope py_scope.
Delimit Scope py_scope with py.
Notation "'let*' x := c 'in' k" := (bind c (fun x => k))
  (at level 10, x name, c at level 100, k at level 200) : py_scope.
Notation "'let*' ' pat := c 'in' k" :=
  (bind c (fun x => match x with pat => k end))
  (at level 10, pat pattern, c at level 100, k at level 200) : py_scope.
Notation "c ;; k" := (bind c (fun _ => k))
  (at level 100, k at level 200, right associativity) : py_scope.
Local Open Scope py_scope.

(** ** The sequence allocator: [Netlink.nonce] *)

Definition nonce_next (n : Z) : Z :=
  if n =? 0xffffffff then 1 else n + 1.

(** [nonce()]: the lock only serialises callers; one call is one step. *)
Definition nonce : M Z :=
  modify (fun st => set_nonce (nonce_next (_nonce st)) st) ;;
  gets _nonce.

(** The values returned by [k] successive calls of [nonce()]. *)
Fixpoint nonce_calls (k : nat) : M (list Z) :=
  match k with
  | O => ret []
  | S k' => let* v := nonce in
            let* vs := nonce_calls k' in
            ret (v :: vs)
  end.

(** The allocator states that calls of [nonce()] reach from a fresh object. *)
Inductive nonce_reachable : Z -> Prop :=
| nonce_reach_init : nonce_reachable 0
| nonce_reach_step n : nonce_reachable n -> nonce_reachable (nonce_next n).

(** The allocator walks the cycle 1, 2, ..., 2^32-1, 1, ...: closed form of
    the value that the [k]-th call returns when the counter was [c]. *)
Definition nonce_at (c : Z) (k : Z) : Z := (c + k - 1) mod 0xffffffff + 1.


(** ** Collaborators outside the two source files *)

(** The constants imported from [pyroute2.netlink]. *)
Class NetlinkConstants : Type := {
  NLMSG_DONE : Z;
  NLMSG_CONTROL : Z;
  NLMSG_TRANSPORT : Z;
  NLM_F_MULTI : Z;
  NLM_F_REQUEST : Z;
  NLM_F_ACK : Z;
  NLM_F_CREATE : Z;
  NLM_F_EXCL : Z;
  IPRCMD_ACK : Z;
  IPRCMD_SUBSCRIBE : Z;
  IPRCMD_UNSUBSCRIBE : Z
}.

(** [self.marshal.parse(data)] *)
Class Marshal : Type := {
  marshal_parse : list byte -> result (list nlmsg)
}.

(** What the client uses of a decoded [envmsg]:
    [envelope['header']['sequence_number']] and the outcome of
    [envelope.get_attr('IPR_ATTR_CDATA')]. *)
Record envelope : Type := mk_envelope {
  e_sequence_number : Z;
  e_get_cdata : result value
}.

(** [envmsg(data).decode()] and [mgmtmsg(buf).decode()] *)
Class Codec : Type := {
  envmsg_decode : list byte -> result envelope;
  mgmtmsg_decode : list byte -> result nlmsg
}.

(** ** Small Python helpers *)

Definition is_AttributeError (e : exn) : bool :=
  match e with AttributeError => true | _ => false end.

Definition is_QueueFull (e : exn) : bool :=
  match e with QueueFull => true | _ => false end.

(** [v == n] for an integer [n] *)
Definition is_int (n : Z) (v : value) : bool :=
  match v with VInt k => k =? n | _ => false end.

(** [v is None] *)
Definition is_None (v : value) : bool :=
  match v with VNone => true | _ => false end.

(** [msg['header']] *)
Definition get_header (m : nlmsg) : M nlhdr :=
  match header m with
  | Some h => ret h
  | None => raise KeyError
  end.

(** [msg.get_attr(name)]: the first attribute of that name, else [None]. *)
Fixpoint get_attr (name : string) (l : list (string * value)) : value :=
  match l with
  | [] => VNone
  | (k, v) :: l' => if String.eqb k name then v else get_attr name l'
  end.

(** [self.listeners[key]] *)
Definition listener (key : Z) : M queue :=
  fun st => match listeners st !! key with
            | Some q => Ok q st
            | None => Err KeyError st
            end.

(** [self.listeners[key].put_nowait(msg)] *)
Definition put_nowait (key : Z) (m : option nlmsg) : M unit :=
  let* q := listener key in
  if q_full q then raise QueueFull
  else modify (set_listeners (insert key (q_push m q))).

(** ** The listener registry: [_remove_queue] and [get] *)

(** The loop of [_remove_queue]: [queue.get()] each remaining message and
    [self.listeners[0].put(msg)] it when the default queue exists.  [put]
    blocks on a full queue. *)
Fixpoint reroute (items : list (option nlmsg)) : M unit :=
  match items with
  | [] => ret tt
  | m :: rest =>
      fun st =>
        match listeners st !! 0 with
        | Some q0 =>
            if q_full q0 then Hang
            else reroute rest (set_listeners (insert 0 (q_push m q0)) st)
        | None => reroute rest st
        end
  end.

Definition _remove_queue (key : Z) : M unit :=
  let* queue := listener key in
  if negb (key =? 0) then
    modify (set_listeners (delete key)) ;;
    reroute (q_items queue)
  else ret tt.

(** One [queue.get(block=True, timeout=timeout)] has taken the head of the
    queue object: the object stored under [key] keeps the rest. *)
Definition popped_state (key : Z) (queue : queue) (rest : list (option nlmsg))
  : state -> state :=
  set_listeners (alter (fun _ => q_with_items rest queue) key).

Definition popped (key : Z) (queue : queue) (rest : list (option nlmsg)) : M unit :=
  modify (popped_state key queue rest).

(** The blocking [put] of [reroute] finds room for [items] in the default
    queue, or there is no default queue, or nothing to re-route. *)
Definition reroute_room (st : state) (items : list (option nlmsg)) : Prop :=
  match listeners st !! 0 with
  | None => True
  | Some q0 =>
      items = [] \/ q_maxsize q0 <= 0 \/
      Z.of_nat (length (q_items q0)) + Z.of_nat (length items) <= q_maxsize q0
  end.

Section Get.
Context `{NC : NetlinkConstants}.

(** The [while True] loop of [get]; [items] is what the queue object holds.
    With nothing left to pop the blocking [get] times out, and the loop
    spins for ever on the default queue and on persistent ones. *)
Fixpoint get_loop (key : Z) (raw : bool) (queue : queue)
         (items : list (option nlmsg)) (result : list nlmsg) : M (list nlmsg) :=
  match items with
  | [] =>
      if (key =? 0) || q_persist queue then (fun _ => Hang)
      else _remove_queue key ;; raise QueueEmpty
  | item :: rest =>
      popped key queue rest ;;
      match item with
      | None => _remove_queue key ;; raise QueueEmpty
      | Some msg =>
          let* hdr := get_header msg in
          match h_error hdr, raw with
          | Some e, false => _remove_queue key ;; raise e
          | _, _ =>
              let result' :=
                if negb (h_type hdr =? NLMSG_DONE) || raw
                then result ++ [msg] else result in
              if (h_type hdr =? NLMSG_DONE)
                 || (Z.land (h_flags hdr) NLM_F_MULTI =? 0)
              then ret result'
              else if raw then ret result'
              else get_loop key raw queue rest result'
          end
      end
  end.

(** A part of a multi-part reply: no error in the header, a type other
    than DONE, and the MULTI flag. *)
Definition multi_part (m : nlmsg) : Prop :=
  exists hdr, header m = Some hdr /\ h_error hdr = None /\
              h_type hdr <> NLMSG_DONE /\
              Z.land (h_flags hdr) NLM_F_MULTI <> 0.

(** The sentinel that ends a multi-part reply. *)
Definition done_part (m : nlmsg) : Prop :=
  exists hdr, header m = Some hdr /\ h_error hdr = None /\
              h_type hdr = NLMSG_DONE.

(** [get(key, raw, timeout)] *)
Definition get (key : Z) (raw : bool) : M (list nlmsg) :=
  let* queue := listener key in
  let* result := get_loop key raw queue (q_items queue) [] in
  (if negb (q_persist queue) then _remove_queue key else ret tt) ;;
  ret result.

(** ** The request dispatcher: [nlm_push], [nlm_request], [command] *)

(** [nlm_push]: fill the header of the inner message and hand the envelope
    to the bridge.  The header gets the sequence number, and the type and
    the flags of the call whenever these are not [None], whatever they are;
    the event shows them beside the message as the caller gave it.  The
    process id and the encoding to bytes, which is the message classes',
    are left out. *)
Definition nlm_push (msg : nlmsg) (msg_type msg_flags env_flags : value)
           (realm : value) (nonce : Z) : M unit :=
  let* hdr := get_header msg in
  let mtype := if is_None msg_type then VInt (h_type hdr) else msg_type in
  let mflags := if is_None msg_flags then VInt (h_flags hdr) else msg_flags in
  modify (emit (EvSend nonce env_flags realm mtype mflags msg)).

(** [del msg['header']] *)
Definition del_header (m : nlmsg) : nlmsg :=
  {| header := None; fields := fields m; attrs := attrs m; raw := raw m |}.

(** [nlm_request].  [concurrent] is what the reassembly thread does to the
    object between the send and the collection of the reply. *)
Definition nlm_request (msg : nlmsg)
           (msg_type msg_flags env_flags realm : value)
           (concurrent : state -> state) : M (list nlmsg) :=
  let* dflt := gets default_realm in
  let realm := por realm (VInt dflt) in
  let* nonce := nonce in
  modify (set_listeners (insert nonce new_queue)) ;;
  nlm_push msg msg_type msg_flags env_flags realm nonce ;;
  modify concurrent ;;
  let* result := get nonce false in
  let* dbg := gets debug in
  ret (if dbg then result else map del_header result).

(** [mgmtmsg(io.BytesIO())] with [cmd] and [attrs] set *)
Definition mgmtmsg_new (c : Z) (a : list (string * value)) : nlmsg :=
  set_attrs a (set_field "cmd" (VInt c) new_msg).

(** [command(cmd, attrs, expect)] *)
Definition command (c : Z) (a : list (string * value))
           (expect : option string)
           (concurrent : state -> state) : M value :=
  let* rsps := nlm_request (mgmtmsg_new c a)
                           (VInt NLMSG_CONTROL) (VInt 0) (VInt 1) VNone
                           concurrent in
  match rsps with
  | [] => raise IndexError
  | rsp :: _ =>
      match fields rsp !! "cmd"%string with
      | None => raise KeyError
      | Some c =>
          if is_int IPRCMD_ACK c then
            match expect with
            | Some name => ret (get_attr name (attrs rsp))
            | None => ret VNone
            end
          else raise AssertionError
      end
  end.

(** ** [monitor] and [mirror] *)

Definition monitor (operate : bool) (concurrent : state -> state) : M unit :=
  let* c := gets cid in
  if operate && is_None c then
    modify (set_listeners (insert 0 new_queue)) ;;
    let* v := command IPRCMD_SUBSCRIBE
                      [("IPR_ATTR_KEY"%string,
                        VDict [("offset"%string, VInt 8);
                               ("key"%string, VInt 0);
                               ("mask"%string, VInt 0)])]
                      (Some "IPR_ATTR_CID"%string) concurrent in
    modify (set_cid v)
  else
    command IPRCMD_UNSUBSCRIBE [("IPR_ATTR_CID"%string, c)] None
            concurrent ;;
    modify (set_cid VNone) ;;
    listener 0 ;;
    modify (set_listeners (delete 0)).

Definition mirror (operate : bool) (concurrent : state -> state) : M unit :=
  monitor operate concurrent ;;
  modify (set_mirror operate).

End Get.


(** ** The callback chain and the demultiplexer: [parse] *)

(** [register_callback(callback, predicate, args)] *)
Definition register_callback (cr : cb_entry) : M unit :=
  modify (set_callbacks (fun chain => chain ++ [cr])).

Section Parse.
Context `{MA : Marshal}.

(** The loop [for cr in self.callbacks] on one message. *)
Fixpoint run_callbacks (msg : nlmsg) (chain : list cb_entry) : M unit :=
  match chain with
  | [] => ret tt
  | cr :: chain' =>
      modify (emit (EvPredicate (cb_id cr) msg)) ;;
      let* hit := lift (cb_predicate cr msg) in
      (if hit then
         modify (emit (EvCallback (cb_id cr) msg)) ;;
         lift (cb_callback cr msg (cb_args cr))
       else ret tt) ;;
      run_callbacks msg chain'
  end.

(** The body of [for msg in self.marshal.parse(data)]. *)
Definition parse_msg (msg : nlmsg) : M unit :=
  let* hdr := get_header msg in
  let key := h_sequence_number hdr in
  let* chain := gets callbacks in
  run_callbacks msg chain ;;
  let* ls := gets listeners in
  let key := if decide (is_Some (ls !! key)) then key else 0 in
  let* mirror_on := gets _mirror in
  (if mirror_on && negb (key =? 0) then
     match raw msg with
     | Some bytes =>
         try_except
           (listener 0 ;;
            let* again := lift (marshal_parse bytes) in
            match again with
            | [] => raise IndexError
            | copy :: _ => put_nowait 0 (Some copy)
            end)
           is_QueueFull (ret tt)
     | None => ret tt
     end
   else ret tt) ;;
  let* ls := gets listeners in
  if decide (is_Some (ls !! key)) then
    try_except (put_nowait key (Some msg)) is_QueueFull (ret tt)
  else ret tt.

Fixpoint parse_all (msgs : list nlmsg) : M unit :=
  match msgs with
  | [] => ret tt
  | msg :: msgs' => parse_msg msg ;; parse_all msgs'
  end.

(** [parse(data)] *)
Definition parse (data : list byte) : M unit :=
  let* msgs := lift (marshal_parse data) in
  parse_all msgs.

End Parse.

(** ** The reassembler: [_feed_buffers] *)

(** An [io.BytesIO] with the [length] attribute the code hangs on it;
    [b_length] is [None] while the attribute has not been assigned. *)
Record bytesio : Type := mk_bytesio {
  b_data : list byte;
  b_length : option Z
}.

(** [buf = io.BytesIO(); buf.length = buf.write(data)] *)
Definition bytesio_of (data : list byte) : bytesio :=
  {| b_data := data; b_length := Some (Z.of_nat (length data)) |}.

Definition byte_val (b : byte) : Z := Z.of_N (Byte.to_N b).

(** An unsigned little-endian integer (the byte order of the hosts the
    library runs on, and of the envelope header). *)
Fixpoint le_uint (bs : list byte) : Z :=
  match bs with
  | [] => 0
  | b :: bs' => Z.lor (byte_val b) (Z.shiftl (le_uint bs') 8)
  end.

(** [struct.unpack('IHH', bs)] *)
Definition unpack_IHH (bs : list byte) : result (Z * Z * Z) :=
  if (length bs =? 8)%nat then
    Returns (le_uint (take 4 bs), le_uint (take 2 (drop 4 bs)),
             le_uint (take 2 (drop 6 bs)))
  else Raises StructError.

(** [buf.seek(offset); buf.read(n)] *)
Definition read_at (buf : bytesio) (offset n : Z) : list byte :=
  take (Z.to_nat n) (drop (Z.to_nat offset) (b_data buf)).

(** [buf.seek(offset); buf.read()] *)
Definition read_from (buf : bytesio) (offset : Z) : list byte :=
  drop (Z.to_nat offset) (b_data buf).

(** How the walk over one blob ends: the loop is left with a new [save], or
    the model ran out of steps. *)
Inductive walked : Type :=
| Walked (save : option (list byte))
| OutOfFuel.

Section Reassembler.
Context `{MA : Marshal} `{CO : Codec}.

(** Lines 163-177: the [try] block on one decoded envelope.  The result is
    the object the variable [buf] is bound to afterwards. *)
Definition dispatch (flags : Z) (envelope : envelope) : M bytesio :=
  let nonce := e_sequence_number envelope in
  match e_get_cdata envelope with
  | Raises e =>
      if is_AttributeError e
      then ret {| b_data := []; b_length := None |}
      else raise e
  | Returns (VBytes cdata) =>
      let buf := bytesio_of cdata in
      try_except
        (if flags =? 1 then
           let* msg := lift (mgmtmsg_decode cdata) in
           put_nowait nonce (Some msg)
         else parse cdata)
        is_AttributeError (ret tt) ;;
      ret buf
  | Returns _ => raise TypeError
  end.

(** The loop [while offset < buf.length]. *)
Fixpoint walk (fuel : nat) (buf : bytesio) (offset : Z) : M walked :=
  match fuel with
  | O => ret OutOfFuel
  | S fuel' =>
      match b_length buf with
      | None => raise AttributeError
      | Some buf_length =>
          if offset <? buf_length then
            let* '(length, mtype, flags) :=
              lift (unpack_IHH (read_at buf offset 8)) in
            if offset + length >? buf_length then
              ret (Walked (Some (read_from buf offset)))
            else
              let data := read_at buf offset length in
              modify (emit (EvEnvelope data)) ;;
              let* envelope := lift (envmsg_decode data) in
              let* buf := dispatch flags envelope in
              walk fuel' buf (offset + length)
          else ret (Walked None)
      end
  end.

(** The outer loop, one round per blob taken from [self.buffers]; the end
    of [blobs] is the round that finds [_stop_event] set. *)
Fixpoint _feed_buffers (fuel : nat) (save : option (list byte))
         (blobs : list (list byte)) : M walked :=
  match blobs with
  | [] => ret (Walked save)
  | blob :: blobs' =>
      let buf := match save with
                 | Some carry => bytesio_of (carry ++ blob)
                 | None => bytesio_of blob
                 end in
      let* r := walk fuel buf 0 in
      match r with
      | Walked save' => _feed_buffers fuel save' blobs'
      | OutOfFuel => ret OutOfFuel
      end
  end.

End Reassembler.


(** ** [IPRoute.link] and [IPRoute.addr] *)

Module IPRoute.

Definition RTM_NEWLINK : Z := 16.
Definition RTM_DELLINK : Z := 17.
Definition RTM_SETLINK : Z := 19.
Definition RTM_NEWADDR : Z := 20.
Definition RTM_DELADDR : Z := 21.

(** [socket.AF_INET] and [socket.AF_INET6] (Linux). *)
Definition AF_INET : Z := 2.
Definition AF_INET6 : Z := 10.

(** [ifinfmsg.name2nla] *)
Class Ifinfmsg : Type := {
  name2nla : string -> string
}.

(** [commands.get(command, command)] *)
Fixpoint commands_get (commands : list (string * Z)) (command : value) : value :=
  match commands, command with
  | (k, v) :: commands', VStr c =>
      if String.eqb k c then VInt v else commands_get commands' command
  | _, _ => command
  end.

(** [kwarg.get(key)] *)
Definition dict_get (key : string) (d : gmap string value) : value :=
  default VNone (d !! key).

(** [kwarg.pop(key, dflt)]: the value and the dict that is left. *)
Definition dict_pop (key : string) (dflt : value) (d : gmap string value)
  : value * gmap string value :=
  (default dflt (d !! key), delete key d).

(** [str.lower] on ASCII. *)
Definition lower_ascii (c : ascii) : ascii :=
  let n := nat_of_ascii c in
  if ((65 <=? n) && (n <=? 90))%nat then ascii_of_nat (n + 32) else c.

Fixpoint lower (s : string) : string :=
  match s with
  | EmptyString => EmptyString
  | String c s' => String (lower_ascii c) (lower s')
  end.

(** [str.find] for a one-character needle: the lowest index, or -1. *)
Fixpoint find (needle : ascii) (s : string) : Z :=
  match s with
  | EmptyString => -1
  | String c s' =>
      if Ascii.eqb c needle then 0
      else let r := find needle s' in
           if r <? 0 then -1 else r + 1
  end.


Section Requests.
Context `{NC : NetlinkConstants} `{IF : Ifinfmsg}.

(** The attribute loop of [link]: [for key in kwarg]. *)
Definition link_attrs (kwarg : gmap string value) : list (string * value) :=
  omap (fun '(key, v) => if is_None v then None else Some (name2nla key, v))
       (map_to_list kwarg).

(** [link] up to the call of [nlm_request]: the message, its type and
    its flags. *)
Definition link_msg (command : value) (kwarg : gmap string value)
  : result (nlmsg * value * Z) :=
  let command :=
    commands_get [("set"%string, RTM_SETLINK); ("add"%string, RTM_NEWLINK);
                  ("delete"%string, RTM_DELLINK)] command in
  let msg_flags :=
    Z.lor (Z.lor (Z.lor NLM_F_REQUEST NLM_F_ACK) NLM_F_CREATE) NLM_F_EXCL in
  let msg := set_field "index" (dict_get "index" kwarg) new_msg in
  let '(flags, kwarg) := dict_pop "flags" (VInt 0) kwarg in
  let flags := por flags (VInt 0) in
  let '(mask, kwarg) := dict_pop "mask" (VInt 0) kwarg in
  let '(mask, kwarg) :=
    if truthy mask then (mask, kwarg)
    else let '(change, kwarg) := dict_pop "change" (VInt 0) kwarg in
         (por change (VInt 0), kwarg) in
  let finish (flags mask : value) (kwarg : gmap string value) :=
    let msg := set_field "flags" flags msg in
    let msg := set_field "change" mask msg in
    let msg := set_attrs (attrs msg ++ link_attrs kwarg) msg in
    Returns (msg, command, msg_flags) in
  match kwarg !! "state"%string with
  | Some (VStr state) =>
      let flags := if String.eqb (lower state) "up" then VInt 1 else flags in
      finish flags (VInt 1) (delete "state"%string kwarg)
  | Some (VBytes _) =>
      (* bytes have [lower] too, and no bytes object equals the str 'up' *)
      finish flags (VInt 1) (delete "state"%string kwarg)
  | Some _ => Raises AttributeError
  | None => finish flags mask kwarg
  end.

(** [IPRoute.link(command, **kwarg)] *)
Definition link (command : value) (kwarg : gmap string value)
           (concurrent : state -> state) : M (list nlmsg) :=
  let* '(msg, msg_type, msg_flags) := lift (link_msg command kwarg) in
  nlm_request msg msg_type (VInt msg_flags) (VInt 0) VNone concurrent.

(** [addr] up to the call of [nlm_request]. *)
Definition addr_msg (command : value) (index : value) (address : string)
           (mask : value) (family : value) (scope : value)
  : nlmsg * value * Z :=
  let command :=
    commands_get [("add"%string, RTM_NEWADDR);
                  ("delete"%string, RTM_DELADDR)] command in
  let flags :=
    Z.lor (Z.lor (Z.lor NLM_F_REQUEST NLM_F_ACK) NLM_F_CREATE) NLM_F_EXCL in
  let family :=
    if is_None family && (find ":" address >? -1)
    then AF_INET6 else AF_INET in
  let msg := set_field "index" index new_msg in
  let msg := set_field "family" (VInt family) msg in
  let msg := set_field "prefixlen" mask msg in
  let msg := set_field "scope" scope msg in
  let msg :=
    if family =? AF_INET then
      set_attrs [("IFA_LOCAL"%string, VStr address);
                 ("IFA_ADDRESS"%string, VStr address)] msg
    else if family =? AF_INET6 then
      set_attrs [("IFA_ADDRESS"%string, VStr address)] msg
    else msg in
  (msg, command, flags).

(** [IPRoute.addr(command, index, address, mask, family, scope)] *)
Definition addr (command : value) (index : value) (address : string)
           (mask : value) (family : value) (scope : value)
           (concurrent : state -> state) : M (list nlmsg) :=
  let '(msg, msg_type, msg_flags) :=
    addr_msg command index address mask family scope in
  nlm_request msg msg_type (VInt msg_flags) (VInt 0) VNone concurrent.

End Requests.

End IPRoute.


(** ** Observations on a run *)

(** The envelopes a trace shows, in the order of their emission. *)
Definition envelopes (tr : list event) : list (list byte) :=
  omap (fun ev => match ev with EvEnvelope d => Some d | _ => None end) tr.

(** The messages a trace shows as handed to the bridge, in order. *)
Definition sends (tr : list event) : list event :=
  omap (fun ev => match ev with
                  | EvSend _ _ _ _ _ _ => Some ev
                  | _ => None
                  end) tr.

(** [st] with the events [evs] appended to its trace. *)
Definition emits (evs : list event) (st : state) : state :=
  {| listeners := listeners st; callbacks := callbacks st; cid := cid st;
     _nonce := _nonce st; _mirror := _mirror st;
     default_realm := default_realm st; debug := debug st;
     trace := trace st ++ evs |}.

(** A computation started in [st] comes back, by return or by exception,
    without having emitted an envelope. *)
Definition silent {A} (st : state) (o : outcome A) : Prop :=
  match o with
  | Ok _ st' | Err _ st' => envelopes (trace st') = envelopes (trace st)
  | Hang => False
  end.

(** A computation that is silent from every state. *)
Definition quiet {A} (c : M A) : Prop := forall st, silent st (c st).

(** A run came back having emitted exactly the envelopes [envs]. *)
Definition emitted {A} (envs : list (list byte)) (st : state) (o : outcome A) : Prop :=
  match o with
  | Ok _ st' | Err _ st' => envelopes (trace st') = envelopes (trace st) ++ envs
  | Hang => False
  end.

(** The object [s] differs from [st] at most in the listeners stored under
    [keys]. *)
Definition frame_of (keys : list Z) (st s : state) : Prop :=
  callbacks s = callbacks st /\ cid s = cid st /\ _nonce s = _nonce st /\
  _mirror s = _mirror st /\ default_realm s = default_realm st /\
  debug s = debug st /\ trace s = trace st /\
  forall k, k ∉ keys -> listeners s !! k = listeners st !! k.

(** Whenever the computation comes back, by return or by exception, it has
    changed at most the listeners under [keys]. *)
Definition touches {A} (keys : list Z) (c : M A) : Prop :=
  forall st, match c st with
             | Ok _ s | Err _ s => frame_of keys st s
             | Hang => True
             end.

(** Whenever the computation comes back, the component [proj] of the
    object is what it was. *)
Definition keeps {A B} (proj : state -> B) (c : M A) : Prop :=
  forall st, match c st with
             | Ok _ s | Err _ s => proj s = proj st
             | Hang => True
             end.

(** What the chain shows of one entry on [msg]: the call of the predicate
    and, when it returned true, the call of the action. *)
Definition entry_events (msg : nlmsg) (cr : cb_entry) : list event :=
  EvPredicate (cb_id cr) msg ::
  match cb_predicate cr msg with
  | Returns true => [EvCallback (cb_id cr) msg]
  | _ => []
  end.

(** The entry runs on [msg] without raising. *)
Definition entry_returns (msg : nlmsg) (cr : cb_entry) : Prop :=
  match cb_predicate cr msg with
  | Returns true => cb_callback cr msg (cb_args cr) = Returns tt
  | Returns false => True
  | Raises _ => False
  end.

(** The predicate of the entry, or its action, raises [e] on [msg]. *)
Definition entry_raises (msg : nlmsg) (cr : cb_entry) (e : exn) : Prop :=
  cb_predicate cr msg = Raises e \/
  (cb_predicate cr msg = Returns true /\
   cb_callback cr msg (cb_args cr) = Raises e).

(** ** Sample collaborators *)

Module Sample.

(** Modelled from the spec: the constants of [pyroute2.netlink] are not
    among the sources and the spec names them only symbolically (DONE,
    MULTI, ACK, ...).  The netlink values of the Linux headers are used for
    the message types and flags; the [IPRCMD_*] codes and the two envelope
    types are taken distinct. *)
Definition constants : NetlinkConstants :=
  {| NLMSG_DONE := 3;
     NLMSG_CONTROL := 0xfffe;
     NLMSG_TRANSPORT := 0xffff;
     NLM_F_MULTI := 2;
     NLM_F_REQUEST := 1;
     NLM_F_ACK := 4;
     NLM_F_CREATE := 0x400;
     NLM_F_EXCL := 0x200;
     IPRCMD_ACK := 1;
     IPRCMD_SUBSCRIBE := 6;
     IPRCMD_UNSUBSCRIBE := 7 |}.

Definition byte_of_Z (z : Z) : byte :=
  default x00 (Byte.of_N (Z.to_N (z mod 256))).

(** [n] little-endian bytes of [v]: [struct.pack] of one unsigned field. *)
Fixpoint le_bytes (n : nat) (v : Z) : list byte :=
  match n with
  | O => []
  | S n' => byte_of_Z v :: le_bytes n' (Z.shiftr v 8)
  end.

(** Modelled from the spec: the envelope wire format of section 6, little
    endian: length (4), type (2), flags (2), sequence (4), pid (4), then
    src (4) and dst (4) and one attribute, taken as a 4-byte
    length-and-kind header followed by the CDATA bytes. *)
Definition envelope_bytes (mtype flags seq pid src dst : Z)
           (cdata : list byte) : list byte :=
  le_bytes 4 (28 + Z.of_nat (length cdata)) ++ le_bytes 2 mtype
    ++ le_bytes 2 flags ++ le_bytes 4 seq ++ le_bytes 4 pid
    ++ le_bytes 4 src ++ le_bytes 4 dst
    ++ le_bytes 2 (4 + Z.of_nat (length cdata)) ++ le_bytes 2 1 ++ cdata.

(** Modelled from the spec: [decode] of the envelope above; it fails when
    the 16 header bytes are not all there, and an envelope without
    attribute has no CDATA. *)
Definition envelope_decode (data : list byte) : result envelope :=
  if (length data <? 16)%nat then Raises StructError
  else Returns
         {| e_sequence_number := le_uint (take 4 (drop 8 data));
            e_get_cdata := if (length data <? 28)%nat then Returns VNone
                           else Returns (VBytes (drop 28 data)) |}.

(** Modelled from the spec: an inner message of the wire: a 16-byte header
    (length, type, flags, sequence, pid) and a body the core never looks
    at.  The sample marshal reads one message from a buffer. *)
Definition inner_bytes (mtype flags seq : Z) (body : list byte) : list byte :=
  le_bytes 4 (16 + Z.of_nat (length body)) ++ le_bytes 2 mtype
    ++ le_bytes 2 flags ++ le_bytes 4 seq ++ le_bytes 4 0 ++ body.

Definition inner_decode (data : list byte) : nlmsg :=
  {| header := Some {| h_type := le_uint (take 2 (drop 4 data));
                       h_flags := le_uint (take 2 (drop 6 data));
                       h_sequence_number := le_uint (take 4 (drop 8 data));
                       h_error := None |};
     fields := ∅; attrs := []; raw := Some data |}.

Definition marshal : Marshal :=
  {| marshal_parse data :=
       if (length data <? 16)%nat then Returns []
       else Returns [inner_decode data] |}.

(** A management record: the header, then the command code (4 bytes). *)
Definition codec : Codec :=
  {| envmsg_decode := envelope_decode;
     mgmtmsg_decode data :=
       if (length data <? 20)%nat then Raises StructError
       else Returns (set_field "cmd" (VInt (le_uint (take 4 (drop 16 data))))
                               (inner_decode data)) |}.

Definition ifinfmsg : IPRoute.Ifinfmsg :=
  {| IPRoute.name2nla name := name |}.

(** What a reassembly thread that has received [items] for the listener
    [key] leaves behind. *)
Definition deliver (key : Z) (items : list (option nlmsg)) (st : state) : state :=
  set_listeners
    (alter (fun q => q_with_items (q_items q ++ items) q) key) st.

(** A fresh object on which a listener under [key] already holds
    [items]. *)
Definition waiting (key : Z) (items : list (option nlmsg)) : state :=
  deliver key items (set_listeners (insert key new_queue) (init_state false)).

(** A reply with the given header type and flags. *)
Definition reply (mtype flags seq : Z) : nlmsg :=
  {| header := Some (mk_nlhdr mtype flags seq None); fields := ∅;
     attrs := []; raw := None |}.

(** The management reply ACK to request [seq], with a channel id. *)
Definition ack (seq chan : Z) : nlmsg :=
  set_attrs [("IPR_ATTR_CID"%string, VInt chan)]
            (set_field "cmd" (VInt 1) (reply 0 0 seq)).

(** A callback entry whose predicate raises, and one that takes every
    message. *)
Definition raising : cb_entry :=
  {| cb_id := 1; cb_predicate := fun _ => Raises (UserError "boom");
     cb_callback := fun _ _ => Returns tt; cb_args := [] |}.

Definition accepting : cb_entry :=
  {| cb_id := 2; cb_predicate := fun _ => Returns true;
     cb_callback := fun _ _ => Returns tt; cb_args := [] |}.

(** An object with a listener under [key] and the two entries above
    registered in that order. *)
Definition listening (key : Z) : state :=
  set_callbacks (fun _ => [raising; accepting]) (waiting key []).

(** A 40-byte envelope (12 bytes of CDATA), and a 44-byte one that carries
    one inner message of type 16 for the sequence number 5. *)
Definition envelope40 : list byte :=
  envelope_bytes 0xffff 0 5 0 0 0 (le_bytes 12 0).

Definition envelope44 : list byte :=
  envelope_bytes 0xffff 0 5 0 0 0 (inner_bytes 16 0 5 []).

(** An error reply (type 2 is NLMSG_ERROR) carrying [NetlinkError code]. *)
Definition failed (code seq : Z) : nlmsg :=
  {| header := Some (mk_nlhdr 2 0 seq (Some (NetlinkError code)));
     fields := ∅; attrs := []; raw := None |}.

End Sample.

(** ** [unregister_callback] *)

(** The chain without the first entry whose callback is [id]:
    [self.callbacks.pop(cb.index(cr))] for the first [cr] with
    [cr[1] == callback]. *)
Fixpoint remove_first (id : Z) (chain : list cb_entry) : list cb_entry :=
  match chain with
  | [] => []
  | cr :: chain' =>
      if cb_id cr =? id then chain' else cr :: remove_first id chain'
  end.

(** [unregister_callback(callback)] *)
Definition unregister_callback (id : Z) : M unit :=
  modify (set_callbacks (remove_first id)).

(** ** The reassembly thread seen from a caller *)

(** What a run of [c] on the reassembly thread leaves of the object,
    whether it returned or died of an exception. *)
Definition run_thread (c : M unit) (st : state) : state :=
  match c st with
  | Ok _ st' | Err _ st' => st'
  | Hang => st
  end.

(** The queue [q] after [put_nowait] of each of [msgs] in turn, those that
    find it full being dropped. *)
Fixpoint q_offer (msgs : list nlmsg) (q : queue) : queue :=
  match msgs with
  | [] => q
  | m :: msgs' => q_offer msgs' (if q_full q then q else q_push (Some m) q)
  end.

(** The codec never hands out more CDATA than the envelope holds. *)
Definition cdata_fits `{CO : Codec} : Prop :=
  forall data e cdata,
    envmsg_decode data = Returns e ->
    e_get_cdata e = Returns (VBytes cdata) ->
    (length cdata <= length data)%nat.

(** ** [IPRoute]: the link shortcuts *)

Module Shortcuts.

Section Shortcuts.
Context `{NC : NetlinkConstants} `{IF : IPRoute.Ifinfmsg}.

(** [link_up(index)] *)
Definition link_up (index : value) (concurrent : state -> state) : M unit :=
  IPRoute.link (VStr "set")
               {[ "index"%string := index; "state"%string := VStr "up" ]}
               concurrent ;;
  ret tt.

(** [link_down(index)] *)
Definition link_down (index : value) (concurrent : state -> state) : M unit :=
  IPRoute.link (VStr "set")
               {[ "index"%string := index; "state"%string := VStr "down" ]}
               concurrent ;;
  ret tt.

(** [link_rename(index, name)] *)
Definition link_rename (index name : value) (concurrent : state -> state)
  : M unit :=
  IPRoute.link (VStr "set")
               {[ "index"%string := index; "ifname"%string := name ]}
               concurrent ;;
  ret tt.

(** [link_remove(index)] *)
Definition link_remove (index : value) (concurrent : state -> state) : M unit :=
  IPRoute.link (VStr "delete") {[ "index"%string := index ]} concurrent ;;
  ret tt.

End Shortcuts.

End Shortcuts.

(** ** [IPRoute.route] and [IPRoute.rule] *)

Module Routing.

Definition RTM_NEWROUTE : Z := 24.
Definition RTM_DELROUTE : Z := 25.
Definition RTM_NEWRULE : Z := 32.
Definition RTM_DELRULE : Z := 33.

Definition rtypes : list (string * Z) :=
  [("RTN_UNSPEC", 0); ("RTN_UNICAST", 1); ("RTN_LOCAL", 2);
   ("RTN_BROADCAST", 3); ("RTN_ANYCAST", 4); ("RTN_MULTICAST", 5);
   ("RTN_BLACKHOLE", 6); ("RTN_UNREACHABLE", 7); ("RTN_PROHIBIT", 8);
   ("RTN_THROW", 9); ("RTN_NAT", 10); ("RTN_XRESOLVE", 11)]%string.

Definition rtprotos : list (string * Z) :=
  [("RTPROT_UNSPEC", 0); ("RTPROT_REDIRECT", 1); ("RTPROT_KERNEL", 2);
   ("RTPROT_BOOT", 3); ("RTPROT_STATIC", 4); ("RTPROT_GATED", 8);
   ("RTPROT_RA", 9); ("RTPROT_MRT", 10); ("RTPROT_ZEBRA", 11);
   ("RTPROT_BIRD", 12); ("RTPROT_DNROUTED", 13); ("RTPROT_XORP", 14);
   ("RTPROT_NTK", 15); ("RTPROT_DHCP", 16)]%string.

Definition rtscopes : list (string * Z) :=
  [("RT_SCOPE_UNIVERSE", 0); ("RT_SCOPE_SITE", 200); ("RT_SCOPE_LINK", 253);
   ("RT_SCOPE_HOST", 254); ("RT_SCOPE_NOWHERE", 255)]%string.

(** [table[name]] on one of the dicts above *)
Fixpoint table_get (table : list (string * Z)) (name : string) : result Z :=
  match table with
  | [] => Raises KeyError
  | (k, v) :: table' =>
      if String.eqb k name then Returns v else table_get table' name
  end.

(** [rtmsg.name2nla] *)
Class Rtmsg : Type := {
  name2nla : string -> string
}.

Section Requests.
Context `{NC : NetlinkConstants} `{RT : Rtmsg}.

(** The attribute loop of [route]: [for key in kwarg]. *)
Definition route_attrs (kwarg : gmap string value) : list (string * value) :=
  omap (fun '(key, v) => if is_None v then None else Some (name2nla key, v))
       (map_to_list kwarg).

(** [route] up to the call of [nlm_request].  The parameter [index] is not
    used by the body. *)
Definition route_msg (command prefix mask : value)
           (rtype rtproto rtscope : string) (index family : value)
           (kwarg : gmap string value) : result (nlmsg * value * Z) :=
  let command :=
    IPRoute.commands_get [("add"%string, RTM_NEWROUTE);
                          ("delete"%string, RTM_DELROUTE)] command in
  let flags :=
    Z.lor (Z.lor (Z.lor NLM_F_REQUEST NLM_F_ACK) NLM_F_CREATE) NLM_F_EXCL in
  let table := default (VInt 254) (kwarg !! "table"%string) in
  let kwarg := <["table"%string := table]> kwarg in
  let msg := set_field "table" table new_msg in
  let msg := set_field "family" family msg in
  match table_get rtprotos rtproto with
  | Raises e => Raises e
  | Returns proto =>
      let msg := set_field "proto" (VInt proto) msg in
      match table_get rtypes rtype with
      | Raises e => Raises e
      | Returns type =>
          let msg := set_field "type" (VInt type) msg in
          match table_get rtscopes rtscope with
          | Raises e => Raises e
          | Returns scope =>
              let msg := set_field "scope" (VInt scope) msg in
              let msg := set_field "dst_len" mask msg in
              let msg := set_attrs [("RTA_DST"%string, prefix)] msg in
              let msg := set_attrs (attrs msg ++ route_attrs kwarg) msg in
              Returns (msg, command, flags)
          end
      end
  end.

(** [IPRoute.route(command, prefix, mask, rtype, rtproto, rtscope, index,
    family, **kwarg)] *)
Definition route (command prefix mask : value)
           (rtype rtproto rtscope : string) (index family : value)
           (kwarg : gmap string value) (concurrent : state -> state)
  : M (list nlmsg) :=
  let* '(msg, msg_type, msg_flags) :=
    lift (route_msg command prefix mask rtype rtproto rtscope index family
                    kwarg) in
  nlm_request msg msg_type (VInt msg_flags) (VInt 0) VNone concurrent.

(** [{AF_INET6: 128, AF_INET: 32}[family]] *)
Definition addr_len (family : value) : result Z :=
  match family with
  | VInt f => if f =? IPRoute.AF_INET6 then Returns 128
              else if f =? IPRoute.AF_INET then Returns 32
              else Raises KeyError
  | VDict _ => Raises TypeError
  | _ => Raises KeyError
  end.

(** [rule] up to the call of [nlm_request].  [raise 'unsupported table
    number'] raises a string, which is a [TypeError]. *)
Definition rule_msg (command : value) (table : Z) (priority : value)
           (rtype rtscope : string) (family src : value)
  : result (nlmsg * value * Z) :=
  if (table <? 0) || (table >? 254) then Raises TypeError
  else
    let command :=
      IPRoute.commands_get [("add"%string, RTM_NEWRULE);
                            ("delete"%string, RTM_DELRULE)] command in
    let msg_flags :=
      Z.lor (Z.lor (Z.lor NLM_F_REQUEST NLM_F_ACK) NLM_F_CREATE) NLM_F_EXCL in
    let msg := set_field "table" (VInt table) new_msg in
    let msg := set_field "family" family msg in
    match table_get rtypes rtype with
    | Raises e => Raises e
    | Returns type =>
        let msg := set_field "type" (VInt type) msg in
        match table_get rtscopes rtscope with
        | Raises e => Raises e
        | Returns scope =>
            let msg := set_field "scope" (VInt scope) msg in
            let msg := set_attrs [("RTA_TABLE"%string, VInt table)] msg in
            let msg := set_attrs (attrs msg
                                    ++ [("RTA_PRIORITY"%string, priority)])
                                 msg in
            let msg := set_field "dst_len" (VInt 0) msg in
            let msg := set_field "src_len" (VInt 0) msg in
            if is_None src then Returns (msg, command, msg_flags)
            else
              let msg := set_attrs (attrs msg ++ [("RTA_SRC"%string, src)])
                                   msg in
              match addr_len family with
              | Raises e => Raises e
              | Returns len =>
                  Returns (set_field "src_len" (VInt len) msg,
                           command, msg_flags)
              end
        end
    end.

(** [IPRoute.rule(command, table, priority, rtype, rtscope, family, src)] *)
Definition rule (command : value) (table : Z) (priority : value)
           (rtype rtscope : string) (family src : value)
           (concurrent : state -> state) : M (list nlmsg) :=
  let* '(msg, msg_type, msg_flags) :=
    lift (rule_msg command table priority rtype rtscope family src) in
  nlm_request msg msg_type (VInt msg_flags) (VInt 0) VNone concurrent.

End Requests.

End Routing.

(** ** More sample collaborators *)

Module Doubles.

(** A marshal that takes every payload for a bad packet. *)
Definition marshal : Marshal :=
  {| marshal_parse _ := Raises AttributeError |}.

(** A 48-byte management envelope: flags 1, sequence number 7 and a
    20-byte management record with the command code 1. *)
Definition management48 : list byte :=
  Sample.envelope_bytes 0xfffe 1 7 0 0 0
                        (Sample.inner_bytes 0 0 7 (Sample.le_bytes 4 1)).

(** A marshal that finds in every buffer one part of a dump for the
    sequence number 1 and the DONE that closes it. *)
Definition dump : Marshal :=
  {| marshal_parse _ := Returns [Sample.reply 16 2 1; Sample.reply 3 2 1] |}.

(** An [rtmsg] whose attribute names are the keyword behind [RTA_]. *)
Definition rtmsg : Routing.Rtmsg :=
  {| Routing.name2nla name := ("RTA_" ++ name)%string |}.

End Doubles.

(** * Properties *)

(** ** Sequence allocator *)

Section Nonce.

Lemma nonce_next_range n :
  0 <= n <= 0xffffffff -> 1 <= nonce_next n <= 0xffffffff.
Proof.
  intros Hn. unfold nonce_next.
  destruct (Z.eqb_spec n 0xffffffff); lia.
Qed.

Lemma nonce_reachable_range n :
  nonce_reachable n -> 0 <= n <= 0xffffffff.
Proof.
  induction 1 as [|n _ IH]; [lia|].
  pose proof (nonce_next_range n IH). lia.
Qed.

Lemma nonce_at_first c :
  0 <= c <= 0xffffffff -> nonce_next c = nonce_at c 1.
Proof.
  intros Hc. unfold nonce_next, nonce_at.
  destruct (Z.eqb_spec c 0xffffffff) as [->|Hne].
  - reflexivity.
  - replace (c + 1 - 1) with c by lia. rewrite Z.mod_small; lia.
Qed.

Lemma nonce_at_shift c k :
  0 <= c <= 0xffffffff -> 1 <= k ->
  nonce_at (nonce_next c) k = nonce_at c (k + 1).
Proof.
  intros Hc Hk. unfold nonce_next, nonce_at.
  destruct (Z.eqb_spec c 0xffffffff) as [->|Hne].
  - replace (0xffffffff + (k + 1) - 1) with (1 + k - 1 + 1 * 0xffffffff) by lia.
    now rewrite Z.mod_add by lia.
  - do 2 f_equal. lia.
Qed.

Lemma nonce_calls_closed k : forall st,
  0 <= _nonce st <= 0xffffffff ->
  exists st',
    nonce_calls k st =
      Ok ((fun i => nonce_at (_nonce st) (Z.of_nat i)) <$> seq 1 k) st'.
Proof.
  induction k as [|k IH]; intros st Hst.
  - eexists. reflexivity.
  - cbn [nonce_calls]. unfold bind at 1. unfold nonce at 1, bind, modify, gets.
    set (st1 := set_nonce (nonce_next (_nonce st)) st).
    destruct (IH st1) as [st' Hst'].
    { cbn. pose proof (nonce_next_range _ Hst). lia. }
    rewrite Hst'. eexists. unfold ret. f_equal.
    cbn [seq fmap list_fmap]. f_equal.
    + cbn. now apply nonce_at_first.
    + rewrite <- (fmap_S_seq 1 k), <- list_fmap_compose.
      apply list_fmap_ext. intros i x Hx.
      apply lookup_seq in Hx as [-> _]. cbn [compose].
      change (_nonce st1) with (nonce_next (_nonce st)).
      rewrite nonce_at_shift by lia. f_equal. lia.
Qed.

Lemma nonce_at_inj c i j :
  1 <= i <= 0xffffffff -> 1 <= j <= 0xffffffff ->
  nonce_at c i = nonce_at c j -> i = j.
Proof.
  unfold nonce_at. intros Hi Hj Heq.
  assert (Hm : (c + i - 1) mod 0xffffffff = (c + j - 1) mod 0xffffffff) by lia.
  clear Heq.
  pose proof (Z.div_mod (c + i - 1) 0xffffffff ltac:(lia)) as Ei.
  pose proof (Z.div_mod (c + j - 1) 0xffffffff ltac:(lia)) as Ej.
  pose proof (Z.mod_pos_bound (c + i - 1) 0xffffffff ltac:(lia)).
  pose proof (Z.mod_pos_bound (c + j - 1) 0xffffffff ltac:(lia)).
  nia.
Qed.

(** C4. Every value [nonce()] returns from a reachable allocator state
    lies in [1, 2^32-1]; the call after the one that returned 2^32-1
    returns 1; and the values of N < 2^32 successive calls are pairwise
    distinct. *)
Theorem nonce_allocator (st : state) (Hst : nonce_reachable (_nonce st)) :
  (exists v st', nonce st = Ok v st' /\ 1 <= v <= 2 ^ 32 - 1 /\
                 nonce_reachable (_nonce st')) /\
  (forall st', nonce st = Ok (2 ^ 32 - 1) st' ->
               exists st'', nonce st' = Ok 1 st'') /\
  (forall N : nat, Z.of_nat N < 2 ^ 32 ->
     exists vs st', nonce_calls N st = Ok vs st' /\
                    length vs = N /\ NoDup vs /\
                    Forall (fun v => 1 <= v <= 2 ^ 32 - 1) vs).
Proof.
  pose proof (nonce_reachable_range _ Hst) as Hr.
  repeat split.
  - eexists _, _. split; [reflexivity|]. cbn.
    pose proof (nonce_next_range _ Hr).
    split; [lia | now constructor].
  - intros st' H. unfold nonce, bind, modify, gets in H |- *.
    injection H as Hv Hs. subst st'. cbn in *.
    eexists. rewrite Hv. reflexivity.
  - intros N HN. destruct (nonce_calls_closed N st Hr) as [st' Hst'].
    eexists _, st'. split; [exact Hst'|]. split; [|split].
    + now rewrite length_fmap, length_seq.
    + apply NoDup_fmap_2_strong; [|apply NoDup_seq].
      intros i j Hi Hj Heq.
      apply elem_of_seq in Hi, Hj.
      apply nonce_at_inj in Heq; lia.
    + apply Forall_fmap, Forall_forall. intros i _. cbn. unfold nonce_at.
      pose proof (Z.mod_pos_bound (_nonce st + Z.of_nat i - 1) 0xffffffff
                    ltac:(lia)).
      lia.
Qed.

Lemma nonce_allocator_witness :
  exists vs st', nonce_calls 5 (init_state false) = Ok vs st' /\
                 length vs = 5%nat /\ NoDup vs /\
                 Forall (fun v => 1 <= v <= 2 ^ 32 - 1) vs.
Proof.
  apply (nonce_allocator (init_state false) nonce_reach_init).
  reflexivity.
Defined.

End Nonce.

(** ** The monad *)

Section Monad.
Context {A B : Type}.

Lemma bind_Ok (c : M A) (k : A -> M B) st a st' :
  c st = Ok a st' -> bind c k st = k a st'.
Proof. unfold bind. now intros ->. Qed.

Lemma bind_Err (c : M A) (k : A -> M B) st e st' :
  c st = Err e st' -> bind c k st = Err e st'.
Proof. unfold bind. now intros ->. Qed.

Lemma bind_Ok_inv (c : M A) (k : A -> M B) st b st'' :
  bind c k st = Ok b st'' ->
  exists a st', c st = Ok a st' /\ k a st' = Ok b st''.
Proof.
  unfold bind. destruct (c st) as [a st'| |]; [eauto | discriminate..].
Qed.

End Monad.

(** ** The listener registry *)

Section Registry.

Lemma set_listeners_listeners f st :
  listeners (set_listeners f st) = f (listeners st).
Proof. reflexivity. Qed.

Lemma popped_state_lookup key q rest st :
  is_Some (listeners st !! key) ->
  listeners (popped_state key q rest st) !! key = Some (q_with_items rest q).
Proof.
  intros [q' Hq]. unfold popped_state. cbn.
  now rewrite lookup_alter_eq, Hq.
Qed.

Lemma popped_state_lookup_ne key k q rest st :
  key <> k ->
  listeners (popped_state key q rest st) !! k = listeners st !! k.
Proof. intros Hne. unfold popped_state. cbn. now rewrite lookup_alter_ne. Qed.

Lemma popped_state_twice key q r1 r2 st :
  popped_state key q r2 (popped_state key q r1 st) = popped_state key q r2 st.
Proof.
  unfold popped_state, set_listeners. cbn. f_equal.
  now rewrite alter_alter_eq.
Qed.

Lemma popped_state_id key q st :
  listeners st !! key = Some q ->
  popped_state key q (q_items q) st = st.
Proof.
  intros Hq. destruct st. unfold popped_state, set_listeners. cbn in *.
  f_equal. apply alter_id. intros x Hx.
  rewrite Hq in Hx. injection Hx as <-. now destruct q.
Qed.

(** Re-routing only touches the default queue. *)
Lemma reroute_other items : forall st st' k,
  reroute items st = Ok tt st' -> k <> 0 ->
  listeners st' !! k = listeners st !! k.
Proof.
  induction items as [|m items IH]; intros st st' k Hr Hk; cbn in Hr.
  - now injection Hr as <-.
  - destruct (listeners st !! 0) as [q0|] eqn:E0.
    + destruct (q_full q0); [discriminate|].
      rewrite (IH _ _ _ Hr Hk). cbn. now rewrite lookup_insert_ne.
    + eauto.
Qed.

(** With room in the default queue the re-routing comes back. *)
Lemma reroute_returns items : forall st,
  reroute_room st items -> exists st', reroute items st = Ok tt st'.
Proof.
  induction items as [|m items IH]; intros st Hroom; cbn.
  - eexists. reflexivity.
  - unfold reroute_room in Hroom.
    destruct (listeners st !! 0) as [q0|] eqn:E0.
    + destruct Hroom as [Hnil|Hroom]; [discriminate|].
      assert (Hfull : q_full q0 = false).
      { unfold q_full. cbn [length] in Hroom.
        destruct (Z.ltb_spec 0 (q_maxsize q0)); [|reflexivity].
        cbn. apply Z.leb_gt. lia. }
      rewrite Hfull. apply IH. unfold reroute_room. cbn.
      rewrite lookup_insert_eq. cbn. rewrite length_app. cbn [length] in *.
      lia.
    + apply IH. unfold reroute_room. now rewrite E0.
Qed.

Lemma reroute_default items : forall st st',
  reroute items st = Ok tt st' ->
  is_Some (listeners st !! 0) -> is_Some (listeners st' !! 0).
Proof.
  induction items as [|m items IH]; intros st st' Hr Hs; cbn in Hr.
  - now injection Hr as <-.
  - destruct (listeners st !! 0) as [q0|] eqn:E0.
    + destruct (q_full q0); [discriminate|].
      apply (IH _ _ Hr). cbn. rewrite lookup_insert_eq. eauto.
    + now destruct Hs.
Qed.

Lemma remove_queue_keeps_default key st st' :
  _remove_queue key st = Ok tt st' ->
  is_Some (listeners st !! 0) -> is_Some (listeners st' !! 0).
Proof.
  intros Hr Hs. unfold _remove_queue in Hr.
  apply bind_Ok_inv in Hr as (q & st1 & Hl & Hr).
  unfold listener in Hl. destruct (listeners st !! key); [|discriminate].
  injection Hl as -> ->.
  destruct (Z.eqb_spec key 0); cbn in Hr.
  - now injection Hr as <-.
  - apply (reroute_default _ _ _ Hr). cbn. now rewrite lookup_delete_ne.
Qed.

Lemma remove_queue_default st q :
  listeners st !! 0 = Some q -> _remove_queue 0 st = Ok tt st.
Proof. intros Hq. unfold _remove_queue, bind, listener. now rewrite Hq. Qed.

Lemma remove_queue_removes key st st' :
  key <> 0 -> _remove_queue key st = Ok tt st' ->
  listeners st' !! key = None.
Proof.
  intros Hk Hr. unfold _remove_queue in Hr.
  apply bind_Ok_inv in Hr as (q & st1 & Hl & Hr).
  unfold listener in Hl. destruct (listeners st !! key); [|discriminate].
  injection Hl as -> ->.
  destruct (Z.eqb_spec key 0); [contradiction|]. cbn in Hr.
  rewrite (reroute_other _ _ _ _ Hr Hk). cbn. apply lookup_delete_eq.
Qed.

Lemma remove_queue_returns key q st :
  key <> 0 -> listeners st !! key = Some q ->
  reroute_room st (q_items q) ->
  exists st', _remove_queue key st = Ok tt st' /\ listeners st' !! key = None.
Proof.
  intros Hk Hq Hroom.
  destruct (reroute_returns (q_items q) (set_listeners (delete key) st))
    as [st' Hst'].
  { unfold reroute_room in *. cbn. now rewrite lookup_delete_ne. }
  assert (Hr : _remove_queue key st = Ok tt st').
  { unfold _remove_queue, bind, listener. rewrite Hq.
    destruct (Z.eqb_spec key 0); [contradiction|]. exact Hst'. }
  eauto using remove_queue_removes.
Qed.

End Registry.

(** ** [get]: collection of a reply *)

Section GetProperties.
Context `{NC : NetlinkConstants}.

(** One round of the loop on a message without error, [raw] being false. *)
Lemma get_loop_step key q msg hdr rest result st :
  header msg = Some hdr -> h_error hdr = None ->
  get_loop key false q (Some msg :: rest) result st =
    let st1 := popped_state key q rest st in
    if h_type hdr =? NLMSG_DONE then Ok result st1
    else if Z.land (h_flags hdr) NLM_F_MULTI =? 0
         then Ok (result ++ [msg]) st1
         else get_loop key false q rest (result ++ [msg]) st1.
Proof.
  intros Hh He. cbn [get_loop].
  unfold bind, popped, modify, get_header. rewrite Hh. unfold ret at 1.
  rewrite He. rewrite orb_false_r.
  destruct (h_type hdr =? NLMSG_DONE); cbn [negb orb]; [reflexivity|].
  destruct (Z.land (h_flags hdr) NLM_F_MULTI =? 0); reflexivity.
Qed.

(** The loop takes the parts of a multi-part reply one after the other. *)
Lemma get_loop_multi key q pre : forall rest result st,
  Forall multi_part pre ->
  get_loop key false q ((Some <$> pre) ++ rest) result
           (popped_state key q ((Some <$> pre) ++ rest) st) =
  get_loop key false q rest (result ++ pre) (popped_state key q rest st).
Proof.
  induction pre as [|m pre IH]; intros rest result st Hpre.
  - cbn. now rewrite app_nil_r.
  - apply Forall_cons in Hpre as [(hdr & Hh & He & Ht & Hf) Hpre].
    cbn [fmap list_fmap app]. fold (list_fmap _ _ Some pre).
    rewrite (get_loop_step _ _ _ _ _ _ _ Hh He). cbn zeta.
    apply Z.eqb_neq in Ht, Hf. rewrite Ht, Hf.
    rewrite popped_state_twice.
    change (list_fmap nlmsg (option nlmsg) Some pre) with (Some <$> pre).
    rewrite IH by assumption. now rewrite <- app_assoc.
Qed.

(** Collecting a reply under another key leaves the default queue in the
    registry. *)
Lemma get_loop_keeps_default key raw q items : forall result st r st',
  get_loop key raw q items result st = Ok r st' -> key <> 0 ->
  listeners st' !! 0 = listeners st !! 0.
Proof.
  assert (Hno : forall (e : exn) (s : state) r s',
             (_remove_queue key ;; raise e) s = Ok (A := list nlmsg) r s' -> False).
  { intros e s r s' Hb. apply bind_Ok_inv in Hb as (? & ? & _ & ?).
    discriminate. }
  induction items as [|item items IH]; intros result st r st' Hl Hk;
    cbn [get_loop] in Hl.
  - destruct ((key =? 0) || q_persist q); [discriminate|].
    now apply Hno in Hl.
  - apply bind_Ok_inv in Hl as ([] & s1 & Hp & Hl). injection Hp as <-.
    destruct item as [msg|]; [|now apply Hno in Hl].
    apply bind_Ok_inv in Hl as (hdr & s2 & Hh & Hl).
    unfold get_header in Hh. destruct (header msg); [|discriminate].
    injection Hh as _ <-.
    assert (Hdone : forall res,
               ret res (popped_state key q items st) = Ok r st' ->
               listeners st' !! 0 = listeners st !! 0).
    { intros res Hret. injection Hret as _ <-.
      now apply popped_state_lookup_ne. }
    assert (Hnext : forall res,
               (if (h_type hdr =? NLMSG_DONE)
                   || (Z.land (h_flags hdr) NLM_F_MULTI =? 0)
                then ret res
                else if raw then ret res
                     else get_loop key raw q items res)
                 (popped_state key q items st) = Ok r st' ->
               listeners st' !! 0 = listeners st !! 0).
    { intros res Hn. destruct (_ || _); [eauto|].
      destruct raw; [eauto|].
      rewrite (IH _ _ _ _ Hn Hk). now apply popped_state_lookup_ne. }
    destruct (h_error hdr), raw; eauto. now apply Hno in Hl.
Qed.

Lemma get_keeps_default key raw st result st' :
  get key raw st = Ok result st' -> key <> 0 ->
  is_Some (listeners st !! 0) -> is_Some (listeners st' !! 0).
Proof.
  intros Hget Hk Hs. unfold get in Hget.
  apply bind_Ok_inv in Hget as (q & st0 & Hl & Hget).
  unfold listener in Hl.
  destruct (listeners st !! key) as [q0|] eqn:Hq; [|discriminate].
  injection Hl as -> ->.
  apply bind_Ok_inv in Hget as (res & st1 & Hloop & Hget).
  apply bind_Ok_inv in Hget as ([] & st2 & Hrm & Hget).
  injection Hget as _ <-.
  apply get_loop_keeps_default in Hloop; [|assumption].
  rewrite <- Hloop in Hs.
  destruct (q_persist q); cbn in Hrm.
  - now injection Hrm as <-.
  - eauto using remove_queue_keeps_default.
Qed.

(** A call of [get] that returns leaves no listener behind, unless the
    queue is persistent or the default one. *)
Lemma get_removes key raw st result st' :
  get key raw st = Ok result st' -> key <> 0 ->
  (forall q, listeners st !! key = Some q -> q_persist q = false) ->
  listeners st' !! key = None.
Proof.
  intros Hget Hk Hp. unfold get in Hget.
  apply bind_Ok_inv in Hget as (q & st0 & Hl & Hget).
  unfold listener in Hl.
  destruct (listeners st !! key) as [q0|] eqn:Hq; [|discriminate].
  injection Hl as -> ->.
  apply bind_Ok_inv in Hget as (res & st1 & Hloop & Hget).
  apply bind_Ok_inv in Hget as ([] & st2 & Hrm & Hget).
  injection Hget as _ <-.
  rewrite (Hp q eq_refl) in Hrm. cbn in Hrm.
  eauto using remove_queue_removes.
Qed.

(** The tail of [get] once the loop has left [rest] in the queue. *)
Lemma get_tail key q (res : list nlmsg) rest st :
  listeners st !! key = Some q ->
  (key <> 0 -> q_persist q = false -> reroute_room st rest) ->
  exists st',
    ((if negb (q_persist q) then _remove_queue key else ret tt) ;; ret res)
      (popped_state key q rest st) = Ok res st' /\
    listeners st' !! key =
      if (key =? 0) || q_persist q then Some (q_with_items rest q) else None.
Proof.
  intros Hq Hroom.
  assert (Hpop : listeners (popped_state key q rest st) !! key
                 = Some (q_with_items rest q))
    by (apply popped_state_lookup; eauto).
  destruct (q_persist q) eqn:Hp; cbn [negb].
  - rewrite orb_true_r. eexists. split; [reflexivity | exact Hpop].
  - rewrite orb_false_r. destruct (Z.eqb_spec key 0) as [->|Hk].
    + eexists. erewrite bind_Ok by (eapply remove_queue_default; eauto).
      split; [reflexivity | exact Hpop].
    + destruct (remove_queue_returns key _ _ Hk Hpop) as (st' & Hr & Hnone).
      { cbn [q_with_items q_items]. unfold reroute_room in *.
        rewrite popped_state_lookup_ne by assumption. now apply Hroom. }
      eexists. erewrite bind_Ok by exact Hr. split; [reflexivity | exact Hnone].
Qed.

(** C6 (amended). Multi-part collection with [raw] false.  A popped message
    whose header carries no error is appended unless its type is DONE, and
    it ends the loop exactly when its type is DONE or its flags lack the
    MULTI bit.  A popped message whose header carries an error is not
    appended, whatever its type: the listener goes through [_remove_queue]
    and [get] raises the error.  Hence on a queue that holds MULTI-flagged
    parts without error closed by a DONE without error, [get] returns
    exactly the parts before the DONE. *)
Theorem get_multi_part (st : state) (key : Z) (q : queue)
        (parts : list nlmsg) (done : nlmsg)
        (Hq : listeners st !! key = Some q)
        (Hitems : q_items q = (Some <$> parts) ++ [Some done])
        (Hparts : Forall multi_part parts)
        (Hdone : done_part done) :
  (forall msg hdr rest result s,
      header msg = Some hdr -> h_error hdr = None ->
      get_loop key false q (Some msg :: rest) result s =
        let s1 := popped_state key q rest s in
        if h_type hdr =? NLMSG_DONE then Ok result s1
        else if Z.land (h_flags hdr) NLM_F_MULTI =? 0
             then Ok (result ++ [msg]) s1
             else get_loop key false q rest (result ++ [msg]) s1) /\
  (forall msg hdr e rest result s,
      header msg = Some hdr -> h_error hdr = Some e ->
      get_loop key false q (Some msg :: rest) result s =
        (_remove_queue key ;; raise e) (popped_state key q rest s)) /\
  (exists st', get key false st = Ok parts st' /\
               listeners st' !! key =
                 if (key =? 0) || q_persist q
                 then Some (q_with_items [] q) else None).
Proof.
  split; [intros; now apply get_loop_step|].
  split.
  { intros msg hdr e rest result s Hh He. cbn [get_loop].
    unfold bind at 1, popped, modify. unfold bind at 1, get_header.
    rewrite Hh. unfold ret at 1. now rewrite He. }
  destruct Hdone as (hdr & Hh & He & Ht).
  destruct (get_tail key q parts [] st Hq) as (st' & Htail & Hl).
  { intros _ _. unfold reroute_room.
    destruct (listeners st !! 0); [now left | exact I]. }
  exists st'. split; [|exact Hl].
  unfold get. erewrite bind_Ok by (unfold listener; now rewrite Hq).
  rewrite <- (popped_state_id key q st Hq) at 1. rewrite Hitems.
  erewrite bind_Ok; [exact Htail|].
  rewrite get_loop_multi by assumption.
  rewrite (get_loop_step _ _ _ _ _ _ _ Hh He). cbn zeta.
  apply Z.eqb_eq in Ht. rewrite Ht.
  now rewrite popped_state_twice.
Qed.


(** C5 (amended). [get] pops a message whose header carries an error from a
    listener that is not persistent; the re-routing of the messages left in
    the queue is assumed not to block.  With [raw] false [get] raises that
    error, and the listener is removed when its key is not 0, while the
    default queue (key 0) stays in the registry.  With [raw] true the record
    is returned to the caller instead. *)
Theorem get_error_response (st : state) (key : Z) (q : queue)
        (m : nlmsg) (hdr : nlhdr) (e : exn) (rest : list (option nlmsg))
        (Hq : listeners st !! key = Some q)
        (Hpersist : q_persist q = false)
        (Hheader : header m = Some hdr)
        (Herror : h_error hdr = Some e)
        (Hroom : key <> 0 -> reroute_room st rest) :
  (forall parts,
      q_items q = (Some <$> parts) ++ Some m :: rest ->
      Forall multi_part parts ->
      exists st', get key false st = Err e st' /\
                  listeners st' !! key =
                    if key =? 0 then Some (q_with_items rest q) else None) /\
  (q_items q = Some m :: rest ->
   exists st', get key true st = Ok [m] st' /\
               listeners st' !! key =
                 if key =? 0 then Some (q_with_items rest q) else None).
Proof.
  assert (Hpop : listeners (popped_state key q rest st) !! key
                 = Some (q_with_items rest q))
    by (apply popped_state_lookup; eauto).
  split.
  - intros parts Hitems Hparts.
    assert (Hrm : exists st',
               _remove_queue key (popped_state key q rest st) = Ok tt st' /\
               listeners st' !! key =
                 if key =? 0 then Some (q_with_items rest q) else None).
    { destruct (Z.eqb_spec key 0) as [->|Hk].
      - eexists. split; [eapply remove_queue_default; eauto | exact Hpop].
      - apply (remove_queue_returns key _ _ Hk Hpop).
        cbn [q_with_items q_items]. unfold reroute_room in *.
        rewrite popped_state_lookup_ne by assumption. now apply Hroom. }
    destruct Hrm as (st' & Hrm & Hl). exists st'. split; [|exact Hl].
    unfold get. erewrite bind_Ok by (unfold listener; now rewrite Hq).
    rewrite <- (popped_state_id key q st Hq) at 1. rewrite Hitems.
    apply bind_Err.
    rewrite get_loop_multi by assumption.
    cbn [get_loop]. unfold bind at 1, popped, modify.
    rewrite popped_state_twice.
    unfold bind at 1, get_header. rewrite Hheader. unfold ret at 1.
    rewrite Herror. erewrite bind_Ok by exact Hrm. reflexivity.
  - intros Hitems.
    destruct (get_tail key q [m] rest st Hq) as (st' & Htail & Hl).
    { intros Hk _. now apply Hroom. }
    rewrite Hpersist, orb_false_r in Hl.
    exists st'. split; [|exact Hl].
    unfold get. erewrite bind_Ok by (unfold listener; now rewrite Hq).
    erewrite bind_Ok; [exact Htail|].
    rewrite Hitems. cbn [get_loop].
    unfold bind at 1, popped, modify.
    unfold bind at 1, get_header. rewrite Hheader. unfold ret at 1.
    rewrite Herror. rewrite orb_true_r. cbn [app].
    now destruct (_ || _).
Qed.


(** C7. A request that completes normally leaves no listener under the
    sequence number it allocated, the listener not having been marked
    persist in the meantime. *)
Theorem nlm_request_removes_listener (st st' : state) (msg : nlmsg)
        (msg_type msg_flags env_flags realm : value)
        (concurrent : state -> state) (result : list nlmsg)
        (Hnonce : nonce_reachable (_nonce st))
        (Hpersist : forall s q0 q,
            listeners s !! nonce_next (_nonce st) = Some q0 ->
            q_persist q0 = false ->
            listeners (concurrent s) !! nonce_next (_nonce st) = Some q ->
            q_persist q = false)
        (Hreturns : nlm_request msg msg_type msg_flags env_flags realm
                                concurrent st = Ok result st') :
  listeners st' !! nonce_next (_nonce st) = None.
Proof.
  pose proof (nonce_next_range _ (nonce_reachable_range _ Hnonce)) as Hn.
  unfold nlm_request in Hreturns.
  apply bind_Ok_inv in Hreturns as (dflt & s0 & H0 & Hreturns).
  injection H0 as _ <-.
  apply bind_Ok_inv in Hreturns as (n & s1 & H1 & Hreturns).
  unfold nonce, bind, modify, gets in H1. injection H1 as <- <-.
  apply bind_Ok_inv in Hreturns as ([] & s2 & H2 & Hreturns).
  injection H2 as <-.
  apply bind_Ok_inv in Hreturns as ([] & s3 & H3 & Hreturns).
  apply bind_Ok_inv in Hreturns as ([] & s4 & H4 & Hreturns).
  injection H4 as <-.
  apply bind_Ok_inv in Hreturns as (res & s5 & H5 & Hreturns).
  apply bind_Ok_inv in Hreturns as (dbg & s6 & H6 & Hreturns).
  injection H6 as _ <-. injection Hreturns as _ <-.
  cbn [_nonce set_nonce] in H5.
  eapply get_removes; [exact H5 | lia | ].
  unfold nlm_push in H3.
  apply bind_Ok_inv in H3 as (hdr & s3' & H3a & H3).
  unfold get_header in H3a.
  destruct (header msg); [|discriminate]. injection H3a as _ <-.
  injection H3 as <-.
  intros q. apply (Hpersist _ new_queue); [|reflexivity].
  cbn. apply lookup_insert_eq.
Qed.


End GetProperties.

Lemma get_multi_part_witness :
  exists st',
    get (NC := Sample.constants) 1 false
        (Sample.waiting 1 [Some (Sample.reply 16 2 1);
                           Some (Sample.reply 3 2 1)])
      = Ok [Sample.reply 16 2 1] st' /\
    listeners st' !! 1 = None.
Proof.
  refine (proj2 (proj2 (get_multi_part (NC := Sample.constants)
                   (Sample.waiting 1 [Some (Sample.reply 16 2 1);
                                      Some (Sample.reply 3 2 1)])
                   1 (mk_queue [Some (Sample.reply 16 2 1);
                                Some (Sample.reply 3 2 1)] 4096 false)
                   [Sample.reply 16 2 1] (Sample.reply 3 2 1)
                   _ _ _ _))).
  - vm_compute. reflexivity.
  - reflexivity.
  - repeat constructor. eexists. repeat split; vm_compute; congruence.
  - eexists. repeat split; vm_compute; congruence.
Defined.

Lemma get_error_response_witness :
  exists st',
    get (NC := Sample.constants) 1 false
        (Sample.waiting 1 [Some (Sample.failed 17 1)])
      = Err (NetlinkError 17) st' /\
    listeners st' !! 1 = None.
Proof.
  refine (proj1 (get_error_response (NC := Sample.constants)
                   (Sample.waiting 1 [Some (Sample.failed 17 1)]) 1
                   (mk_queue [Some (Sample.failed 17 1)] 4096 false)
                   (Sample.failed 17 1) (mk_nlhdr 2 0 1 (Some (NetlinkError 17)))
                   (NetlinkError 17) []
                   _ _ _ _ _) [] _ _).
  - vm_compute. reflexivity.
  - reflexivity.
  - reflexivity.
  - reflexivity.
  - intros _. vm_compute. exact I.
  - reflexivity.
  - constructor.
Defined.

Lemma nlm_request_removes_listener_witness :
  exists result st',
    nlm_request (NC := Sample.constants) new_msg (VInt 18) (VInt 1) (VInt 0)
                VNone (Sample.deliver 1 [Some (Sample.reply 16 0 1)])
                (init_state false) = Ok result st' /\
    listeners st' !! 1 = None.
Proof.
  eexists _, _. split; [vm_compute; reflexivity|].
  apply (nlm_request_removes_listener (NC := Sample.constants)
           (init_state false) _ new_msg (VInt 18) (VInt 1) (VInt 0) VNone
           (Sample.deliver 1 [Some (Sample.reply 16 0 1)])
           [del_header (Sample.reply 16 0 1)]).
  - constructor.
  - intros s q0 q Hq0 Hp Hq.
    change (nonce_next (_nonce (init_state false))) with 1 in Hq0, Hq.
    unfold Sample.deliver in Hq. cbn [listeners set_listeners] in Hq.
    rewrite lookup_alter_eq, Hq0 in Hq. injection Hq as <-. exact Hp.
  - vm_compute. reflexivity.
Defined.

(** At key 0 the claim C5 fails as stated: [get] raises the error and the
    default queue is still registered. *)
Lemma get_error_keeps_default_queue :
  exists st',
    get (NC := Sample.constants) 0 false
        (Sample.waiting 0 [Some (Sample.failed 17 0)])
      = Err (NetlinkError 17) st' /\
    listeners st' !! 0 = Some new_queue.
Proof. eexists. split; vm_compute; reflexivity. Qed.

(** On an error reply the claim C6 fails as stated: the popped message is
    not of type DONE, yet it is not appended to the result, and [get] does
    not return it: it raises the error. *)
Lemma get_error_part_not_appended :
  exists hdr st',
    header (Sample.failed 17 1) = Some hdr /\
    h_type hdr <> NLMSG_DONE (NetlinkConstants := Sample.constants) /\
    get (NC := Sample.constants) 1 false
        (Sample.waiting 1 [Some (Sample.failed 17 1)])
      = Err (NetlinkError 17) st' /\
    forall result st'',
      get (NC := Sample.constants) 1 false
          (Sample.waiting 1 [Some (Sample.failed 17 1)])
        <> Ok result st''.
Proof.
  eexists _, _. split; [reflexivity|]. split; [vm_compute; discriminate|].
  split; [vm_compute; reflexivity|].
  intros result st'' Hget. vm_compute in Hget. discriminate.
Qed.

(** ** [monitor] *)

Section MonitorProperties.
Context `{NC : NetlinkConstants}.

(** C3. [monitor(on)] on an object that is already subscribed ([cid] is not
    [None]) takes the branch that unsubscribes: when it returns, key 0 is
    no longer in the registry. *)
Theorem monitor_on_while_enabled (st st' : state)
        (concurrent : state -> state)
        (Hcid : is_None (cid st) = false)
        (Hreturns : monitor true concurrent st = Ok tt st') :
  listeners st' !! 0 = None.
Proof.
  unfold monitor in Hreturns.
  apply bind_Ok_inv in Hreturns as (c & s0 & H0 & Hreturns).
  injection H0 as <- <-. rewrite Hcid in Hreturns. cbn [andb] in Hreturns.
  apply bind_Ok_inv in Hreturns as (v & s1 & _ & Hreturns).
  apply bind_Ok_inv in Hreturns as ([] & s2 & _ & Hreturns).
  apply bind_Ok_inv in Hreturns as (q & s3 & _ & Hreturns).
  injection Hreturns as <-. cbn. apply lookup_delete_eq.
Qed.

(** The first [monitor(on)] of an object does leave the default queue in
    the registry, the reassembly thread not removing it meanwhile. *)
Lemma monitor_on_installs (st st' : state) (concurrent : state -> state) :
  is_None (cid st) = true ->
  (forall s, is_Some (listeners s !! 0) ->
             is_Some (listeners (concurrent s) !! 0)) ->
  monitor true concurrent st = Ok tt st' ->
  nonce_reachable (_nonce st) ->
  is_Some (listeners st' !! 0).
Proof.
  intros Hcid Hkeep Hreturns Hn.
  pose proof (nonce_next_range _ (nonce_reachable_range _ Hn)) as Hr.
  unfold monitor in Hreturns.
  apply bind_Ok_inv in Hreturns as (c & s0 & H0 & Hreturns).
  injection H0 as <- <-. rewrite Hcid in Hreturns. cbn [andb] in Hreturns.
  apply bind_Ok_inv in Hreturns as ([] & s1 & H1 & Hreturns).
  injection H1 as <-.
  apply bind_Ok_inv in Hreturns as (v & s2 & Hcmd & Hreturns).
  injection Hreturns as <-. cbn [listeners set_cid].
  unfold command in Hcmd.
  apply bind_Ok_inv in Hcmd as (rsps & s3 & Hreq & Hack).
  assert (s2 = s3) as ->.
  { destruct rsps as [|rsp rsps]; [discriminate|].
    destruct (fields rsp !! _); [|discriminate].
    destruct (is_int _ _); [|discriminate]. now injection Hack as _ <-. }
  unfold nlm_request in Hreq.
  apply bind_Ok_inv in Hreq as (dflt & t0 & E0 & Hreq). injection E0 as _ <-.
  apply bind_Ok_inv in Hreq as (n & t1 & E1 & Hreq).
  unfold nonce, bind, modify, gets in E1. injection E1 as <- <-.
  apply bind_Ok_inv in Hreq as ([] & t2 & E2 & Hreq). injection E2 as <-.
  apply bind_Ok_inv in Hreq as ([] & t3 & E3 & Hreq).
  apply bind_Ok_inv in Hreq as ([] & t4 & E4 & Hreq). injection E4 as <-.
  apply bind_Ok_inv in Hreq as (res & t5 & Hget & Hreq).
  apply bind_Ok_inv in Hreq as (dbg & t6 & E6 & Hreq).
  injection E6 as _ <-. injection Hreq as _ <-.
  cbn [_nonce set_nonce set_listeners] in Hget.
  set (n := nonce_next (_nonce st)) in *.
  eapply get_keeps_default; [exact Hget | lia |].
  apply Hkeep.
  unfold nlm_push in E3.
  apply bind_Ok_inv in E3 as (hdr & t3' & Eh & E3).
  injection Eh as _ <-. injection E3 as <-.
  cbn [listeners emit set_listeners set_nonce].
  rewrite lookup_insert_ne by lia. rewrite lookup_insert_eq. eauto.
Qed.

End MonitorProperties.

Lemma monitor_on_while_enabled_witness :
  exists st1 st2,
    monitor (NC := Sample.constants) true
            (Sample.deliver 1 [Some (Sample.ack 1 7)]) (init_state false)
      = Ok tt st1 /\
    is_Some (listeners st1 !! 0) /\ cid st1 = VInt 7 /\
    monitor (NC := Sample.constants) true
            (Sample.deliver 2 [Some (Sample.ack 2 7)]) st1 = Ok tt st2 /\
    listeners st2 !! 0 = None.
Proof.
  eexists _, _. split; [vm_compute; reflexivity|].
  split; [vm_compute; eauto|]. split; [reflexivity|].
  match goal with
  | |- monitor _ ?c ?s = _ /\ _ =>
      pose proof (fun st' => monitor_on_while_enabled
                              (NC := Sample.constants) s st' c) as Hrun
  end.
  split; [vm_compute; reflexivity|].
  eapply Hrun; [reflexivity | vm_compute; reflexivity].
Defined.

(** ** Silent computations *)

Section Silent.

Lemma envelopes_app tr tr' :
  envelopes (tr ++ tr') = envelopes tr ++ envelopes tr'.
Proof. apply omap_app. Qed.

Lemma silent_trans {A} st st' (o : outcome A) :
  envelopes (trace st') = envelopes (trace st) -> silent st' o -> silent st o.
Proof. intros E. destruct o; cbn; congruence. Qed.

Lemma emitted_after {A} envs st st' (o : outcome A) :
  envelopes (trace st') = envelopes (trace st) ++ envs ->
  silent st' o -> emitted envs st o.
Proof. intros E. destruct o; cbn; congruence. Qed.

Lemma quiet_ret {A} (a : A) : quiet (ret a).
Proof. intros st. reflexivity. Qed.

Lemma quiet_raise {A} e : quiet (raise (A := A) e).
Proof. intros st. reflexivity. Qed.

Lemma quiet_lift {A} (r : result A) : quiet (lift r).
Proof. destruct r; [apply quiet_ret | apply quiet_raise]. Qed.

Lemma quiet_gets {A} (f : state -> A) : quiet (gets f).
Proof. intros st. reflexivity. Qed.

Lemma quiet_bind {A B} (c : M A) (k : A -> M B) :
  quiet c -> (forall a, quiet (k a)) -> quiet (bind c k).
Proof.
  intros Hc Hk st. unfold bind. specialize (Hc st).
  destruct (c st) as [a st'|e st'|]; cbn in Hc; [|exact Hc|exact Hc].
  eapply silent_trans; [exact Hc | apply Hk].
Qed.

Lemma quiet_try_except {A} (c h : M A) handles :
  quiet c -> quiet h -> quiet (try_except c handles h).
Proof.
  intros Hc Hh st. unfold try_except. specialize (Hc st).
  destruct (c st) as [a st'|e st'|]; cbn in Hc; try exact Hc.
  destruct (handles e); [|exact Hc].
  eapply silent_trans; [exact Hc | apply Hh].
Qed.

Lemma quiet_set_listeners f : quiet (modify (set_listeners f)).
Proof. intros st. reflexivity. Qed.

Lemma quiet_predicate id m : quiet (modify (emit (EvPredicate id m))).
Proof. intros st. cbn. rewrite envelopes_app. cbn. apply app_nil_r. Qed.

Lemma quiet_callback id m : quiet (modify (emit (EvCallback id m))).
Proof. intros st. cbn. rewrite envelopes_app. cbn. apply app_nil_r. Qed.

Lemma quiet_listener key : quiet (listener key).
Proof. intros st. unfold listener. now destruct (listeners st !! key). Qed.

End Silent.

Create HintDb quiet.
#[export] Hint Resolve quiet_ret quiet_raise quiet_lift quiet_gets
  quiet_set_listeners quiet_predicate quiet_callback quiet_listener : quiet.

(** Goes through the binds and the case distinctions of a computation. *)
Ltac quiet_steps :=
  repeat first
    [ progress eauto with quiet
    | apply quiet_bind; [|intros]
    | apply quiet_try_except
    | match goal with
      | |- quiet (if ?b then _ else _) => destruct b
      | |- quiet (match ?x with _ => _ end) => destruct x
      end ].

Section SilentDispatch.
Context `{MA : Marshal} `{CO : Codec}.

Lemma quiet_put_nowait key m : quiet (put_nowait key m).
Proof. unfold put_nowait. quiet_steps. Qed.

Lemma quiet_run_callbacks msg chain : quiet (run_callbacks msg chain).
Proof. induction chain as [|cr chain IH]; cbn [run_callbacks]; quiet_steps. Qed.

Lemma quiet_parse_msg msg : quiet (parse_msg msg).
Proof.
  pose proof quiet_put_nowait. pose proof quiet_run_callbacks.
  unfold parse_msg, get_header. quiet_steps.
Qed.

Lemma quiet_parse data : quiet (parse data).
Proof.
  unfold parse. apply quiet_bind; [apply quiet_lift|].
  intros msgs. induction msgs as [|msg msgs IH]; cbn [parse_all].
  - apply quiet_ret.
  - apply quiet_bind; [apply quiet_parse_msg | auto].
Qed.

Lemma quiet_dispatch flags envelope : quiet (dispatch flags envelope).
Proof.
  pose proof quiet_put_nowait. pose proof quiet_parse.
  unfold dispatch. quiet_steps.
Qed.

(** The object [buf] is bound to after the [try] block: the CDATA buffer,
    or a fresh [BytesIO] that never got its [length]. *)
Lemma dispatch_buf flags envelope st buf st' :
  dispatch flags envelope st = Ok buf st' ->
  b_length buf = None \/
  exists cdata, e_get_cdata envelope = Returns (VBytes cdata) /\
                buf = bytesio_of cdata.
Proof.
  unfold dispatch. destruct (e_get_cdata envelope) as [v|e].
  - destruct v; try discriminate. intros Hd.
    apply bind_Ok_inv in Hd as ([] & s1 & _ & Hd). injection Hd as <- _.
    right. eauto.
  - destruct (is_AttributeError e); [|discriminate].
    intros Hd. injection Hd as <- _. now left.
Qed.

End SilentDispatch.

(** ** The reassembler *)

Section WalkProperties.
Context `{MA : Marshal} `{CO : Codec}.

Lemma walk_unfold fuel buf n offset st :
  b_length buf = Some n -> offset < n ->
  length (read_at buf offset 8) = 8%nat ->
  walk (S fuel) buf offset st =
    let length := le_uint (take 4 (read_at buf offset 8)) in
    let flags := le_uint (take 2 (drop 6 (read_at buf offset 8))) in
    if offset + length >? n
    then Ok (Walked (Some (read_from buf offset))) st
    else (let data := read_at buf offset length in
          modify (emit (EvEnvelope data)) ;;
          let* envelope := lift (envmsg_decode data) in
          let* buf := dispatch flags envelope in
          walk fuel buf (offset + length)) st.
Proof.
  intros Hn Hlt H8. cbn [walk]. rewrite Hn.
  apply Z.ltb_lt in Hlt. rewrite Hlt.
  unfold unpack_IHH. rewrite H8. cbn [Nat.eqb lift].
  unfold bind at 1, ret at 1. cbn zeta.
  now destruct (_ >? _).
Qed.

Lemma walk_carry fuel buf n offset st :
  b_length buf = Some n -> offset < n ->
  length (read_at buf offset 8) = 8%nat ->
  n < offset + le_uint (take 4 (read_at buf offset 8)) ->
  walk (S fuel) buf offset st = Ok (Walked (Some (read_from buf offset))) st.
Proof.
  intros Hn Hlt H8 Hshort. rewrite (walk_unfold _ _ n) by assumption.
  cbn zeta. apply Z.lt_gt, Z.gtb_gt in Hshort. now rewrite Hshort.
Qed.

Lemma read_at_start data k :
  read_at (bytesio_of data) 0 (Z.of_nat k) = take k data.
Proof. unfold read_at. cbn. now rewrite Nat2Z.id. Qed.

Lemma feed_carry fuel save blob blobs st :
  let buffer := match save with Some carry => carry ++ blob
                           | None => blob end in
  (8 <= length buffer)%nat ->
  Z.of_nat (length buffer) < le_uint (take 4 buffer) ->
  _feed_buffers (S fuel) save (blob :: blobs) st
    = _feed_buffers (S fuel) (Some buffer) blobs st.
Proof.
  intros buffer H8 Hshort. cbn [_feed_buffers].
  assert (Hw : walk (S fuel) (bytesio_of buffer) 0 st
               = Ok (Walked (Some buffer)) st).
  { assert (Hread : read_at (bytesio_of buffer) 0 8 = take 8 buffer)
      by apply (read_at_start buffer 8).
    rewrite (walk_carry fuel _ (Z.of_nat (length buffer))).
    - reflexivity.
    - reflexivity.
    - lia.
    - rewrite Hread, length_take. lia.
    - rewrite Hread, take_take. cbn [Nat.min]. lia. }
  subst buffer. destruct save as [carry|]; now rewrite (bind_Ok _ _ _ _ _ Hw).
Qed.

(** The carry at the start of a buffer.  When the object the walk is on
    holds, from the walk offset, a whole 8-byte prefix but fewer bytes than
    the length the prefix declares, the walk ends with the tail as the new
    carry; at offset 0 of a fresh buffer this is the buffer itself, and the
    next blob is concatenated to it.  A 40-byte envelope fed as 24 + 16
    bytes gives no envelope after the first blob and exactly one after the
    second. *)
Lemma reassembler_carry_over (fuel : nat) (st : state) :
  (forall buf n offset,
      b_length buf = Some n -> offset < n ->
      length (read_at buf offset 8) = 8%nat ->
      n < offset + le_uint (take 4 (read_at buf offset 8)) ->
      walk (S fuel) buf offset st
        = Ok (Walked (Some (read_from buf offset))) st) /\
  (forall save blob blobs,
      let buffer := match save with Some carry => carry ++ blob
                               | None => blob end in
      (8 <= length buffer)%nat ->
      Z.of_nat (length buffer) < le_uint (take 4 buffer) ->
      _feed_buffers (S fuel) save (blob :: blobs) st
        = _feed_buffers (S fuel) (Some buffer) blobs st) /\
  (forall env,
      length env = 40%nat -> le_uint (take 4 env) = 40 ->
      (forall data e cdata,
          envmsg_decode data = Returns e ->
          e_get_cdata e = Returns (VBytes cdata) ->
          (length cdata <= length data)%nat) ->
      _feed_buffers (S fuel) None [take 24 env] st
        = Ok (Walked (Some (take 24 env))) st /\
      emitted [env] st
              (_feed_buffers (S (S fuel)) None [take 24 env; drop 24 env] st)).
Proof.
  split; [|split].
  - intros buf n offset. apply walk_carry.
  - intros save blob blobs. apply feed_carry.
  - intros env Hlen Hdecl Hcodec.
    assert (E24 : length (take 24 env) = 24%nat) by (rewrite length_take; lia).
    assert (Hfirst : forall f blobs s,
               _feed_buffers (S f) None (take 24 env :: blobs) s
               = _feed_buffers (S f) (Some (take 24 env)) blobs s).
    { intros f blobs s. apply (feed_carry f None).
      - lia.
      - rewrite take_take. cbn [Nat.min]. lia. }
    split; [now rewrite Hfirst|].
    rewrite Hfirst. cbn [_feed_buffers]. rewrite take_drop.
    assert (Hread8 : read_at (bytesio_of env) 0 8 = take 8 env)
      by apply (read_at_start env 8).
    assert (Hread40 : read_at (bytesio_of env) 0 40 = env).
    { change 40 with (Z.of_nat 40). rewrite read_at_start, <- Hlen.
      apply firstn_all. }
    unfold bind at 1.
    rewrite (walk_unfold _ _ 40 0);
      [ | cbn; now rewrite Hlen | lia | rewrite Hread8, length_take; lia ].
    cbn zeta. rewrite Hread8, take_take. cbn [Nat.min].
    rewrite Hdecl. change (0 + 40 >? 40) with false. cbv iota.
    rewrite Hread40.
    unfold bind at 1, modify.
    set (st1 := emit (EvEnvelope env) st).
    assert (E1 : envelopes (trace st1) = envelopes (trace st) ++ [env]).
    { subst st1. cbn. now rewrite envelopes_app. }
    match goal with
    | |- emitted _ _ (match ?o with _ => _ end) =>
        assert (Ho : emitted [env] st o);
        [|destruct o as [[]| |]; exact Ho]
    end.
    unfold bind at 1.
    destruct (envmsg_decode env) as [envelope|e] eqn:Hdec;
      cbn [lift]; [unfold ret at 1 | exact E1].
    unfold bind at 1.
    pose proof (quiet_dispatch
                  (le_uint (take 2 (drop 6 (take 8 env)))) envelope st1) as Hq.
    destruct (dispatch _ envelope st1) as [buf st2|e st2|] eqn:Hd;
      unfold silent in Hq; [|unfold emitted; congruence|contradiction].
    assert (E2 : envelopes (trace st2) = envelopes (trace st) ++ [env])
      by congruence.
    cbn [walk].
    apply dispatch_buf in Hd as [Hnone|(cdata & Hc & ->)].
    + rewrite Hnone. exact E2.
    + cbn [b_length bytesio_of].
      pose proof (Hcodec _ _ _ Hdec Hc) as Hle.
      destruct (Z.ltb_spec (0 + 40) (Z.of_nat (length cdata))); [lia|].
      exact E2.
Qed.


(** C8. With fewer than 8 bytes left at the walk offset (and at least
    one), [struct.unpack] raises [struct.error]: the tail is not kept as
    carry, the exception leaves [_feed_buffers]. *)
Theorem short_prefix_raises (fuel : nat) (st : state) :
  (forall buf n offset,
      b_length buf = Some n -> offset < n ->
      (length (read_at buf offset 8) < 8)%nat ->
      walk (S fuel) buf offset st = Err StructError st) /\
  (forall save blob blobs,
      let buffer := match save with Some carry => carry ++ blob
                               | None => blob end in
      (0 < length buffer < 8)%nat ->
      _feed_buffers (S fuel) save (blob :: blobs) st = Err StructError st).
Proof.
  assert (Hwalk : forall buf n offset,
             b_length buf = Some n -> offset < n ->
             (length (read_at buf offset 8) < 8)%nat ->
             walk (S fuel) buf offset st = Err StructError st).
  { intros buf n offset Hn Hlt Hshort. cbn [walk]. rewrite Hn.
    apply Z.ltb_lt in Hlt. rewrite Hlt. unfold unpack_IHH.
    destruct (Nat.eqb_spec (length (read_at buf offset 8)) 8); [lia|].
    reflexivity. }
  split; [exact Hwalk|].
  intros save blob blobs buffer Hshort. cbn [_feed_buffers].
  assert (Hw : walk (S fuel) (bytesio_of buffer) 0 st = Err StructError st).
  { apply (Hwalk _ (Z.of_nat (length buffer))); [reflexivity | lia |].
    change 8 with (Z.of_nat 8). rewrite read_at_start, length_take. lia. }
  subst buffer. destruct save as [carry|]; now rewrite (bind_Err _ _ _ _ _ Hw).
Qed.

End WalkProperties.

Lemma reassembler_carry_over_witness :
  _feed_buffers (MA := Sample.marshal) (CO := Sample.codec) 1 None
                [take 24 Sample.envelope40] (init_state false)
    = Ok (Walked (Some (take 24 Sample.envelope40))) (init_state false) /\
  emitted [Sample.envelope40] (init_state false)
          (_feed_buffers (MA := Sample.marshal) (CO := Sample.codec) 2 None
                         [take 24 Sample.envelope40; drop 24 Sample.envelope40]
                         (init_state false)).
Proof.
  apply (proj2 (proj2 (reassembler_carry_over
                         (MA := Sample.marshal) (CO := Sample.codec)
                         0 (init_state false))) Sample.envelope40).
  - reflexivity.
  - reflexivity.
  - intros data e cdata Hdec Hc.
    change (envmsg_decode data) with (Sample.envelope_decode data) in Hdec.
    unfold Sample.envelope_decode in Hdec.
    destruct (length data <? 16)%nat; [discriminate|].
    injection Hdec as <-. cbn [e_get_cdata] in Hc.
    destruct (length data <? 28)%nat; [discriminate|].
    injection Hc as <-. rewrite length_drop. lia.
Defined.

Lemma short_prefix_raises_witness :
  _feed_buffers (MA := Sample.marshal) (CO := Sample.codec) 1 None
                [take 4 Sample.envelope40; drop 4 Sample.envelope40]
                (init_state false)
    = Err StructError (init_state false).
Proof.
  apply (proj2 (short_prefix_raises (MA := Sample.marshal) (CO := Sample.codec)
                                    0 (init_state false)) None).
  vm_compute. lia.
Defined.

(** ** The callback chain *)

Section CallbackProperties.
Context `{MA : Marshal} `{CO : Codec}.

Lemma emits_emits evs evs' st :
  emits evs' (emits evs st) = emits (evs ++ evs') st.
Proof. unfold emits. cbn. now rewrite app_assoc. Qed.

Lemma emits_nil st : emits [] st = st.
Proof. destruct st. unfold emits. cbn. now rewrite app_nil_r. Qed.

(** An entry that does not raise leaves its events and hands over to the
    rest of the chain. *)
Lemma run_callbacks_returns msg cr chain st :
  entry_returns msg cr ->
  run_callbacks msg (cr :: chain) st
    = run_callbacks msg chain (emits (entry_events msg cr) st).
Proof.
  unfold entry_returns, entry_events. intros Hr. cbn [run_callbacks].
  unfold bind at 1, modify. unfold bind at 1.
  destruct (cb_predicate cr msg) as [[]|e]; [| |contradiction]; cbn [lift].
  - unfold ret at 1. unfold bind at 1. unfold bind at 1, modify.
    rewrite Hr. cbn [lift]. unfold ret at 1.
    f_equal. unfold emit, emits. cbn. now rewrite <- app_assoc.
  - reflexivity.
Qed.

(** An entry that raises ends the loop: the entries after it are not
    called. *)
Lemma run_callbacks_raises msg cr chain e st :
  entry_raises msg cr e ->
  run_callbacks msg (cr :: chain) st = Err e (emits (entry_events msg cr) st).
Proof.
  unfold entry_events. intros [Hp|[Hp Hc]]; cbn [run_callbacks];
    unfold bind at 1, modify; unfold bind at 1; rewrite Hp; cbn [lift].
  - reflexivity.
  - unfold ret at 1. unfold bind at 1. unfold bind at 1, modify.
    rewrite Hc. cbn [lift]. unfold raise.
    f_equal. unfold emit, emits. cbn. now rewrite <- app_assoc.
Qed.

Lemma run_callbacks_prefix msg pre : forall chain st,
  Forall (entry_returns msg) pre ->
  run_callbacks msg (pre ++ chain) st
    = run_callbacks msg chain (emits (concat (entry_events msg <$> pre)) st).
Proof.
  induction pre as [|cr pre IH]; intros chain st Hpre.
  - cbn. now rewrite emits_nil.
  - apply Forall_cons in Hpre as [Hcr Hpre]. cbn [app].
    rewrite run_callbacks_returns by assumption.
    rewrite IH by assumption. now rewrite emits_emits.
Qed.

(** C2 (amended). When the predicate or the action of an entry raises while
    [parse] handles a message, the exception leaves [parse] at once: the
    entries registered after it are not called for that message and the
    message is not enqueued.  [_feed_buffers] swallows the exception only
    when it is an [AttributeError], and goes on with the walk; any other
    exception leaves [_feed_buffers]. *)
Theorem callback_exception_leaves_parse
        (st : state) (msg : nlmsg) (hdr : nlhdr)
        (pre post : list cb_entry) (cr : cb_entry) (e : exn)
        (Hheader : header msg = Some hdr)
        (Hchain : callbacks st = pre ++ cr :: post)
        (Hpre : Forall (entry_returns msg) pre)
        (Hraises : entry_raises msg cr e) :
  let st' := emits (concat (entry_events msg <$> pre) ++ entry_events msg cr)
                   st in
  parse_msg msg st = Err e st' /\
  listeners st' = listeners st /\
  (forall flags envelope cdata later,
      flags <> 1 ->
      e_get_cdata envelope = Returns (VBytes cdata) ->
      marshal_parse cdata = Returns (msg :: later) ->
      dispatch flags envelope st
        = if is_AttributeError e then Ok (bytesio_of cdata) st'
          else Err e st') /\
  (forall fuel buf n offset s0 envelope cdata later,
      let length := le_uint (take 4 (read_at buf offset 8)) in
      let flags := le_uint (take 2 (drop 6 (read_at buf offset 8))) in
      let data := read_at buf offset length in
      b_length buf = Some n -> offset < n ->
      List.length (read_at buf offset 8) = 8%nat ->
      offset + length <= n -> flags <> 1 ->
      envmsg_decode data = Returns envelope ->
      e_get_cdata envelope = Returns (VBytes cdata) ->
      marshal_parse cdata = Returns (msg :: later) ->
      st = emit (EvEnvelope data) s0 ->
      walk (S fuel) buf offset s0
        = if is_AttributeError e
          then walk fuel (bytesio_of cdata) (offset + length) st'
          else Err e st').
Proof.
  intros st'.
  assert (Hparse : parse_msg msg st = Err e st').
  { unfold parse_msg. unfold bind at 1, get_header. rewrite Hheader.
    unfold ret at 1. unfold bind at 1, gets. rewrite Hchain.
    apply bind_Err.
    rewrite run_callbacks_prefix by assumption.
    rewrite (run_callbacks_raises _ _ _ e) by assumption.
    now rewrite emits_emits. }
  assert (Hdispatch : forall flags envelope cdata later,
             flags <> 1 ->
             e_get_cdata envelope = Returns (VBytes cdata) ->
             marshal_parse cdata = Returns (msg :: later) ->
             dispatch flags envelope st
             = if is_AttributeError e then Ok (bytesio_of cdata) st'
               else Err e st').
  { intros flags envelope cdata later Hflags Hc Hm.
    assert (Hp : parse cdata st = Err e st').
    { unfold parse. rewrite Hm. cbn [lift].
      change (parse_all (msg :: later) st = Err e st').
      cbn [parse_all]. now apply bind_Err. }
    unfold dispatch. rewrite Hc.
    apply Z.eqb_neq in Hflags. rewrite Hflags.
    unfold bind at 1, try_except. rewrite Hp.
    now destruct (is_AttributeError e). }
  split; [exact Hparse|]. split; [reflexivity|]. split; [exact Hdispatch|].
  intros fuel buf n offset s0 envelope cdata later length flags data
         Hn Hlt H8 Hfit Hflags Hdec Hc Hm Hst.
  rewrite (walk_unfold _ _ n) by assumption. cbn zeta.
  fold length. fold flags. fold data.
  destruct (Z.gtb_spec (offset + length) n) as [|_]; [lia|].
  unfold bind at 1, modify. rewrite <- Hst.
  unfold bind at 1. rewrite Hdec. cbn [lift]. unfold ret at 1.
  unfold bind at 1. rewrite (Hdispatch _ _ _ _ Hflags Hc Hm).
  now destruct (is_AttributeError e).
Qed.

End CallbackProperties.

Lemma callback_exception_leaves_parse_witness :
  parse_msg (MA := Sample.marshal)
            (Sample.inner_decode (Sample.inner_bytes 16 0 5 []))
            (Sample.listening 5)
    = Err (UserError "boom")
          (emits [EvPredicate 1 (Sample.inner_decode
                                   (Sample.inner_bytes 16 0 5 []))]
                 (Sample.listening 5)).
Proof.
  refine (proj1 (callback_exception_leaves_parse
                   (MA := Sample.marshal) (CO := Sample.codec)
                   (Sample.listening 5)
                   (Sample.inner_decode (Sample.inner_bytes 16 0 5 []))
                   (mk_nlhdr 16 0 5 None) [] [Sample.accepting]
                   Sample.raising (UserError "boom") _ _ _ _)).
  - vm_compute. reflexivity.
  - reflexivity.
  - constructor.
  - left. reflexivity.
Defined.

(** On a chain whose first entry raises, the claim C2 fails as stated: the
    exception leaves [_feed_buffers] (the second blob is never looked at),
    the second entry is not called and the message is not enqueued. *)
Lemma callback_exception_stops_reassembler :
  exists st',
    _feed_buffers (MA := Sample.marshal) (CO := Sample.codec) 3 None
                  [Sample.envelope44; Sample.envelope44] (Sample.listening 5)
      = Err (UserError "boom") st' /\
    trace st' = [EvEnvelope Sample.envelope44;
                 EvPredicate 1 (Sample.inner_decode
                                  (Sample.inner_bytes 16 0 5 []))] /\
    listeners st' !! 5 = Some new_queue.
Proof. eexists. repeat split; vm_compute; reflexivity. Qed.

(** ** [IPRoute.link] and [IPRoute.addr] *)

Section IPRouteProperties.
Import IPRoute.
Context `{NC : NetlinkConstants} `{IF : Ifinfmsg}.






End IPRouteProperties.



(** * Further properties *)

(** ** The registry: [_remove_queue] and the ends of [get] *)

Section RegistryMore.

Lemma set_listeners_insert_id key q st :
  listeners st !! key = Some q -> set_listeners (insert key q) st = st.
Proof.
  intros Hq. destruct st. unfold set_listeners. cbn in *. f_equal.
  now apply insert_id.
Qed.

(** With room, the re-routing appends the messages to the default queue in
    the order they had. *)
Lemma reroute_appends items : forall st q0,
  listeners st !! 0 = Some q0 -> reroute_room st items ->
  reroute items st
    = Ok tt (set_listeners
               (insert 0 (q_with_items (q_items q0 ++ items) q0)) st).
Proof.
  induction items as [|m items IH]; intros st q0 H0 Hroom; cbn [reroute].
  - rewrite app_nil_r.
    replace (q_with_items (q_items q0) q0) with q0 by now destruct q0.
    now rewrite set_listeners_insert_id.
  - rewrite H0. unfold reroute_room in Hroom. rewrite H0 in Hroom.
    destruct Hroom as [Hnil|Hroom]; [discriminate|].
    assert (Hfull : q_full q0 = false).
    { unfold q_full. cbn [length] in Hroom.
      destruct (Z.ltb_spec 0 (q_maxsize q0)); [|reflexivity].
      cbn. apply Z.leb_gt. lia. }
    rewrite Hfull.
    rewrite (IH _ (q_push m q0)).
    + unfold set_listeners. cbn. do 2 f_equal.
      rewrite insert_insert_eq. f_equal. unfold q_with_items. cbn.
      now rewrite <- app_assoc.
    + cbn. apply lookup_insert_eq.
    + unfold reroute_room. cbn. rewrite lookup_insert_eq. cbn.
      rewrite length_app. cbn [length] in *. lia.
Qed.

Lemma reroute_dropped items : forall st,
  listeners st !! 0 = None -> reroute items st = Ok tt st.
Proof.
  induction items as [|m items IH]; intros st H0; cbn [reroute];
    [reflexivity|]. rewrite H0. now apply IH.
Qed.

(** X1. [_remove_queue(key)] for a key other than 0 takes the queue out of
    the registry; what the queue still held goes, in order, to the end of
    the default queue when there is one (with room for it), and is dropped
    when there is none.  No other listener changes. *)
Theorem remove_queue_reroutes (st : state) (key : Z) (q : queue)
        (Hkey : key <> 0)
        (Hq : listeners st !! key = Some q)
        (Hroom : reroute_room st (q_items q)) :
  exists st',
    _remove_queue key st = Ok tt st' /\
    trace st' = trace st /\
    listeners st' =
      match listeners st !! 0 with
      | Some q0 => <[0 := q_with_items (q_items q0 ++ q_items q) q0]>
                     (delete key (listeners st))
      | None => delete key (listeners st)
      end.
Proof.
  unfold _remove_queue, bind, listener. rewrite Hq.
  destruct (Z.eqb_spec key 0) as [|_]; [contradiction|]. cbn [negb modify].
  destruct (listeners st !! 0) as [q0|] eqn:H0.
  - erewrite reroute_appends.
    + eexists. split; [reflexivity|]. split; reflexivity.
    + cbn. rewrite lookup_delete_ne by congruence. exact H0.
    + unfold reroute_room in *. cbn. rewrite lookup_delete_ne by congruence.
      now rewrite H0 in *.
  - rewrite reroute_dropped.
    + eexists. split; [reflexivity|]. split; reflexivity.
    + cbn. rewrite lookup_delete_ne by congruence. exact H0.
Qed.

End RegistryMore.

Lemma remove_queue_reroutes_witness :
  exists st',
    _remove_queue 5 (Sample.deliver 5 [Some (Sample.reply 16 0 5)]
                       (set_listeners (insert 5 new_queue)
                                      (Sample.waiting 0 [])))
      = Ok tt st' /\
    listeners st' !! 0
      = Some (q_with_items [Some (Sample.reply 16 0 5)] new_queue) /\
    listeners st' !! 5 = None.
Proof.
  destruct (remove_queue_reroutes
              (Sample.deliver 5 [Some (Sample.reply 16 0 5)]
                 (set_listeners (insert 5 new_queue) (Sample.waiting 0 [])))
              5 (q_with_items [Some (Sample.reply 16 0 5)] new_queue))
    as (st' & Hr & _ & Hl).
  - lia.
  - vm_compute. reflexivity.
  - vm_compute. right. right. discriminate.
  - exists st'. split; [exact Hr|]. rewrite Hl.
    split; vm_compute; reflexivity.
Defined.

Section GetMore.
Context `{NC : NetlinkConstants}.

Lemma bind_Hang {A B} (c : M A) (k : A -> M B) st :
  c st = Hang -> bind c k st = Hang.
Proof. unfold bind. now intros ->. Qed.

(** [_remove_queue] as [get] calls it once the loop has left [rest]. *)
Lemma remove_after_pop key q rest st :
  listeners st !! key = Some q ->
  (key <> 0 -> reroute_room st rest) ->
  exists st',
    _remove_queue key (popped_state key q rest st) = Ok tt st' /\
    listeners st' !! key =
      if key =? 0 then Some (q_with_items rest q) else None.
Proof.
  intros Hq Hroom.
  assert (Hpop : listeners (popped_state key q rest st) !! key
                 = Some (q_with_items rest q))
    by (apply popped_state_lookup; eauto).
  destruct (Z.eqb_spec key 0) as [->|Hk].
  - eexists. split; [eapply remove_queue_default; eauto | exact Hpop].
  - apply (remove_queue_returns key _ _ Hk Hpop).
    cbn [q_with_items q_items]. unfold reroute_room in *.
    rewrite popped_state_lookup_ne by assumption. now apply Hroom.
Qed.

(** X2. A queue that holds MULTI-flagged parts and no DONE: [get] takes
    them all, then the blocking pop times out.  On the default queue and on
    a persistent one the loop goes on waiting and [get] does not come back;
    on any other listener [get] raises [Queue.Empty], the listener is
    removed and the parts collected so far are lost. *)
Theorem get_times_out (st : state) (key : Z) (q : queue) (parts : list nlmsg)
        (Hq : listeners st !! key = Some q)
        (Hitems : q_items q = Some <$> parts)
        (Hparts : Forall multi_part parts) :
  if (key =? 0) || q_persist q
  then get key false st = Hang
  else exists st', get key false st = Err QueueEmpty st' /\
                   listeners st' !! key = None.
Proof.
  assert (Hloop : get_loop key false q (q_items q) [] st
                  = get_loop key false q [] parts (popped_state key q [] st)).
  { rewrite <- (popped_state_id key q st Hq) at 1. rewrite Hitems.
    rewrite <- (app_nil_r (Some <$> parts)).
    now rewrite get_loop_multi. }
  unfold get. erewrite bind_Ok by (unfold listener; now rewrite Hq).
  cbn [get_loop] in Hloop.
  destruct ((key =? 0) || q_persist q) eqn:Hwait.
  - apply bind_Hang. exact Hloop.
  - apply orb_false_elim in Hwait as [Hk Hp].
    destruct (remove_after_pop key q [] st Hq) as (st' & Hrm & Hl).
    { intros _. unfold reroute_room. destruct (listeners st !! 0); auto. }
    rewrite Hk in Hl. exists st'. split; [|exact Hl].
    apply bind_Err. rewrite Hloop.
    erewrite bind_Ok by exact Hrm. reflexivity.
Qed.



End GetMore.

Lemma get_times_out_witness :
  exists st',
    get (NC := Sample.constants) 1 false
        (Sample.waiting 1 [Some (Sample.reply 16 2 1);
                           Some (Sample.reply 16 2 1)])
      = Err QueueEmpty st' /\
    listeners st' !! 1 = None.
Proof.
  refine (get_times_out (NC := Sample.constants)
            (Sample.waiting 1 [Some (Sample.reply 16 2 1);
                               Some (Sample.reply 16 2 1)])
            1 (mk_queue [Some (Sample.reply 16 2 1);
                         Some (Sample.reply 16 2 1)] 4096 false)
            [Sample.reply 16 2 1; Sample.reply 16 2 1] _ _ _).
  - vm_compute. reflexivity.
  - reflexivity.
  - repeat constructor; eexists; repeat split; vm_compute; congruence.
Defined.



(** ** [parse]: routing of a message to the queues *)

Section ParseMore.
Context `{MA : Marshal}.


(** A chain whose entries all return leaves the events of every entry, in
    the order of registration. *)
Lemma run_callbacks_all msg chain st :
  Forall (entry_returns msg) chain ->
  run_callbacks msg chain st
    = Ok tt (emits (concat (entry_events msg <$> chain)) st).
Proof.
  intros Hall. rewrite <- (app_nil_r chain) at 1.
  now rewrite run_callbacks_prefix.
Qed.

(** [try: self.listeners[key].put_nowait(msg) except Queue.Full: pass] *)
Lemma put_or_drop key m q st :
  listeners st !! key = Some q ->
  try_except (put_nowait key (Some m)) is_QueueFull (ret tt) st
    = Ok tt (set_listeners (insert key (q_offer [m] q)) st).
Proof.
  intros Hq. unfold try_except, put_nowait, bind, listener. rewrite Hq.
  cbn [q_offer]. destruct (q_full q); cbn.
  - unfold ret. now rewrite set_listeners_insert_id.
  - reflexivity.
Qed.

(** [parse] on one message when the mirror branch is not taken. *)
Lemma parse_msg_plain msg hdr st :
  header msg = Some hdr ->
  Forall (entry_returns msg) (callbacks st) ->
  let key := if decide (is_Some (listeners st !! h_sequence_number hdr))
             then h_sequence_number hdr else 0 in
  _mirror st = false \/ key = 0 \/ raw msg = None ->
  let st1 := emits (concat (entry_events msg <$> callbacks st)) st in
  parse_msg msg st
    = Ok tt (match listeners st !! key with
             | Some q => set_listeners (insert key (q_offer [msg] q)) st1
             | None => st1
             end).
Proof.
  intros Hh Hall key Hplain st1. unfold parse_msg.
  unfold bind at 1, get_header. rewrite Hh. unfold ret at 1.
  unfold bind at 1, gets.
  unfold bind at 1. rewrite run_callbacks_all by assumption. fold st1.
  unfold bind at 1. change (listeners st1) with (listeners st). fold key.
  unfold bind at 1. change (_mirror st1) with (_mirror st).
  clearbody key. unfold bind at 1.
  assert (Hlast :
            (let* ls := (fun st0 => Ok (listeners st0) st0) in
             if decide (is_Some (ls !! key))
             then try_except (put_nowait key (Some msg)) is_QueueFull (ret tt)
             else ret tt) st1
            = Ok tt (match listeners st !! key with
                     | Some q => set_listeners (insert key (q_offer [msg] q)) st1
                     | None => st1
                     end)).
  { unfold bind at 1. change (listeners st1) with (listeners st).
    case_decide as Hk.
    - destruct Hk as [q Hk]. rewrite Hk. now apply put_or_drop.
    - apply eq_None_not_Some in Hk. now rewrite Hk. }
  destruct Hplain as [Hm | [Hk0 | Hr]].
  - rewrite Hm. cbn [andb]. exact Hlast.
  - subst key. rewrite andb_false_r. exact Hlast.
  - rewrite Hr. destruct (_mirror st && negb (key =? 0)); exact Hlast.
Qed.

End ParseMore.

Section Delivery.
Context `{MA : Marshal}.

Lemma q_offer_full ms : forall q, q_full q = true -> q_offer ms q = q.
Proof.
  induction ms as [|m ms IH]; intros q Hfull; cbn [q_offer]; [reflexivity|].
  rewrite Hfull. now apply IH.
Qed.

(** A bounded queue takes the messages offered while it has room, in
    order, and none after that. *)
Lemma q_offer_items ms : forall q,
  let room := if 0 <? q_maxsize q
              then Z.to_nat (q_maxsize q - Z.of_nat (length (q_items q)))
              else length ms in
  q_offer ms q = q_with_items (q_items q ++ (Some <$> take room ms)) q.
Proof.
  induction ms as [|m ms IH]; intros q room.
  - cbn. rewrite take_nil. cbn. rewrite app_nil_r. now destruct q.
  - cbn [q_offer]. destruct (q_full q) eqn:Hfull.
    + rewrite q_offer_full by assumption.
      unfold q_full in Hfull. apply andb_true_iff in Hfull as [Hb Hle].
      apply Z.leb_le in Hle. subst room. rewrite Hb.
      replace (Z.to_nat _) with 0%nat by lia.
      cbn. rewrite app_nil_r. now destruct q.
    + rewrite IH. unfold q_with_items, q_push. cbn. f_equal.
      rewrite <- app_assoc. f_equal. subst room.
      unfold q_full in Hfull. rewrite length_app. cbn [length].
      destruct (Z.ltb_spec 0 (q_maxsize q)) as [Hpos|Hneg].
      * cbn in Hfull. apply Z.leb_gt in Hfull.
        replace (Z.to_nat (q_maxsize q - Z.of_nat (length (q_items q))))
          with (S (Z.to_nat (q_maxsize q
                             - Z.of_nat (length (q_items q) + 1)))) by lia.
        reflexivity.
      * reflexivity.
Qed.

Lemma parse_all_offers key ms : forall st q,
  listeners st !! key = Some q ->
  Forall (fun m => exists hdr, header m = Some hdr /\
                               h_sequence_number hdr = key) ms ->
  Forall (fun m => Forall (entry_returns m) (callbacks st)) ms ->
  _mirror st = false ->
  exists st',
    parse_all ms st = Ok tt st' /\
    listeners st' = <[key := q_offer ms q]> (listeners st) /\
    debug st' = debug st.
Proof.
  induction ms as [|m ms IH]; intros st q Hq Hms Hcb Hmirror.
  - eexists. split; [reflexivity|]. cbn. now rewrite insert_id.
  - apply Forall_cons in Hms as [(hdr & Hh & Hseq) Hms].
    apply Forall_cons in Hcb as [Hm Hcb].
    cbn [parse_all].
    pose proof (parse_msg_plain m hdr st Hh Hm (or_introl Hmirror)) as Hp.
    cbv zeta in Hp. rewrite Hseq in Hp.
    rewrite decide_True in Hp by eauto. rewrite Hq in Hp.
    destruct (IH (set_listeners <[key:=q_offer [m] q]>
                    (emits (concat (entry_events m <$> callbacks st)) st))
                 (q_offer [m] q)) as (st' & Hrun & Hl & Hdbg).
    + cbn. apply lookup_insert_eq.
    + exact Hms.
    + exact Hcb.
    + exact Hmirror.
    + exists st'. split; [|split].
      * erewrite bind_Ok by exact Hp. exact Hrun.
      * rewrite Hl. cbn. now rewrite insert_insert_eq.
      * exact Hdbg.
Qed.

(** X5. [parse] puts the messages of one buffer that belong to a listened
    sequence number at the end of that listener's queue, in the order the
    marshal returned them, as long as the queue has room; the messages that
    find the queue full are dropped and [parse] still returns.  No other
    queue changes.  (Callbacks that return, mirror mode off.) *)
Theorem parse_bounded_fifo (st : state) (key : Z) (q : queue)
        (data : list byte) (ms : list nlmsg)
        (Hparse : marshal_parse data = Returns ms)
        (Hq : listeners st !! key = Some q)
        (Hms : Forall (fun m => exists hdr, header m = Some hdr /\
                                            h_sequence_number hdr = key) ms)
        (Hcb : Forall (fun m => Forall (entry_returns m) (callbacks st)) ms)
        (Hmirror : _mirror st = false) :
  let room := if 0 <? q_maxsize q
              then Z.to_nat (q_maxsize q - Z.of_nat (length (q_items q)))
              else length ms in
  exists st',
    parse data st = Ok tt st' /\
    listeners st' =
      <[key := q_with_items (q_items q ++ (Some <$> take room ms)) q]>
        (listeners st).
Proof.
  intros room.
  destruct (parse_all_offers key ms st q Hq Hms Hcb Hmirror)
    as (st' & Hrun & Hl & _).
  exists st'. split.
  - unfold parse. rewrite Hparse. exact Hrun.
  - rewrite Hl. now rewrite q_offer_items.
Qed.

(** X6. A message with a header whose sequence number has no listener, and
    on which no entry of the callback chain raises.  It goes through the
    whole chain, in registration order, and is then put on the default
    queue when that one is registered and has room, and dropped otherwise
    (no default queue, or a full one); [parse] returns in each of these
    cases, also in mirror mode. *)
Theorem parse_unsolicited (st : state) (msg : nlmsg) (hdr : nlhdr)
        (Hheader : header msg = Some hdr)
        (Hnone : listeners st !! h_sequence_number hdr = None)
        (Hcb : Forall (entry_returns msg) (callbacks st)) :
  exists st',
    parse_msg msg st = Ok tt st' /\
    trace st' = trace st ++ concat (entry_events msg <$> callbacks st) /\
    listeners st' =
      match listeners st !! 0 with
      | Some q0 => if q_full q0 then listeners st
                   else <[0 := q_push (Some msg) q0]> (listeners st)
      | None => listeners st
      end.
Proof.
  pose proof (parse_msg_plain msg hdr st Hheader Hcb) as Hp.
  cbv zeta in Hp. rewrite decide_False in Hp
    by (rewrite Hnone; intros [? ?]; discriminate).
  specialize (Hp (or_intror (or_introl eq_refl))).
  eexists. split; [exact Hp|].
  destruct (listeners st !! 0) as [q0|] eqn:H0; cbn [q_offer].
  - split; [reflexivity|]. cbn.
    destruct (q_full q0); [now rewrite insert_id | reflexivity].
  - split; reflexivity.
Qed.

End Delivery.

Lemma parse_bounded_fifo_witness :
  exists st',
    parse (MA := Sample.marshal) (Sample.inner_bytes 16 0 5 [])
          (Sample.waiting 5 []) = Ok tt st' /\
    listeners st' =
      <[5 := q_with_items
               [Some (Sample.inner_decode (Sample.inner_bytes 16 0 5 []))]
               new_queue]> (listeners (Sample.waiting 5 [])).
Proof.
  refine (parse_bounded_fifo (MA := Sample.marshal) (Sample.waiting 5 []) 5
            new_queue (Sample.inner_bytes 16 0 5 [])
            [Sample.inner_decode (Sample.inner_bytes 16 0 5 [])] _ _ _ _ _).
  - reflexivity.
  - vm_compute. reflexivity.
  - repeat constructor. eexists. split; vm_compute; reflexivity.
  - repeat constructor.
  - reflexivity.
Defined.

Lemma parse_unsolicited_witness :
  exists st',
    parse_msg (MA := Sample.marshal) (Sample.reply 20 0 0)
              (set_callbacks (fun _ => [Sample.accepting]) (init_state false))
      = Ok tt st' /\
    trace st' = [EvPredicate 2 (Sample.reply 20 0 0);
                 EvCallback 2 (Sample.reply 20 0 0)] /\
    listeners st' = ∅.
Proof.
  refine (parse_unsolicited (MA := Sample.marshal)
            (set_callbacks (fun _ => [Sample.accepting]) (init_state false))
            (Sample.reply 20 0 0) (mk_nlhdr 20 0 0 None) _ _ _).
  - reflexivity.
  - reflexivity.
  - repeat constructor.
Defined.

Section Mirror.
Context `{MA : Marshal}.


End Mirror.


(** ** [register_callback] and [unregister_callback] *)

Section Unregister.

Lemma remove_first_absent id chain :
  Forall (fun c => cb_id c <> id) chain -> remove_first id chain = chain.
Proof.
  induction 1 as [|c chain Hc _ IH]; cbn [remove_first]; [reflexivity|].
  apply Z.eqb_neq in Hc. now rewrite Hc, IH.
Qed.

Lemma remove_first_split id pre cr post :
  Forall (fun c => cb_id c <> id) pre -> cb_id cr = id ->
  remove_first id (pre ++ cr :: post) = pre ++ post.
Proof.
  intros Hpre Hcr. induction Hpre as [|c pre Hc _ IH]; cbn [remove_first app].
  - apply Z.eqb_eq in Hcr. now rewrite Hcr.
  - apply Z.eqb_neq in Hc. now rewrite Hc, IH.
Qed.

(** X8. [unregister_callback] takes out of the chain the first entry
    registered for that callback and nothing else: the entries before and
    after it, later registrations of the same callback included, keep their
    order.  A callback that is not registered leaves the object unchanged,
    and registering a new callback and unregistering it again gives back the
    object as it was. *)
Theorem unregister_callback_first (st : state) (id : Z) :
  (forall pre cr post,
      callbacks st = pre ++ cr :: post -> cb_id cr = id ->
      Forall (fun c => cb_id c <> id) pre ->
      exists st', unregister_callback id st = Ok tt st' /\
                  callbacks st' = pre ++ post /\
                  listeners st' = listeners st) /\
  (Forall (fun c => cb_id c <> id) (callbacks st) ->
   unregister_callback id st = Ok tt st /\
   forall cr, cb_id cr = id ->
              (register_callback cr ;; unregister_callback id) st = Ok tt st).
Proof.
  split.
  - intros pre cr post Hchain Hcr Hpre. eexists. split; [reflexivity|].
    cbn. rewrite Hchain. split; [now apply remove_first_split | reflexivity].
  - intros Habsent. split.
    + unfold unregister_callback, modify. f_equal. destruct st.
      unfold set_callbacks. cbn in *. f_equal.
      now apply remove_first_absent.
    + intros cr Hcr. unfold bind, register_callback, unregister_callback, modify.
      f_equal. destruct st. unfold set_callbacks. cbn in *. f_equal.
      rewrite remove_first_split by assumption. apply app_nil_r.
Qed.

End Unregister.

Lemma unregister_callback_first_witness :
  exists st',
    unregister_callback 2
      (set_callbacks (fun _ => [Sample.raising; Sample.accepting;
                                Sample.raising; Sample.accepting])
                     (init_state false)) = Ok tt st' /\
    callbacks st' = [Sample.raising] ++ [Sample.raising; Sample.accepting] /\
    listeners st' = ∅.
Proof.
  apply (proj1 (unregister_callback_first
                  (set_callbacks (fun _ => [Sample.raising; Sample.accepting;
                                            Sample.raising; Sample.accepting])
                                 (init_state false)) 2)
               [Sample.raising] Sample.accepting
               [Sample.raising; Sample.accepting]).
  - reflexivity.
  - reflexivity.
  - repeat constructor. cbn. lia.
Defined.

(** ** The reassembler: whole envelopes, fragments, bad packets *)


Section ReassemblerMore.
Context `{MA : Marshal} `{CO : Codec}.

Lemma le_uint_nonneg bs : 0 <= le_uint bs.
Proof.
  induction bs as [|b bs IH]; cbn [le_uint]; [lia|].
  apply Z.lor_nonneg. split.
  - unfold byte_val. lia.
  - now apply Z.shiftl_nonneg.
Qed.

(** The first round of the walk on a buffer that holds the whole of its
    first envelope. *)
Lemma walk_first fuel buffer st :
  (8 <= length buffer)%nat ->
  le_uint (take 4 buffer) <= Z.of_nat (length buffer) ->
  walk (S fuel) (bytesio_of buffer) 0 st =
    (let* envelope :=
       lift (envmsg_decode (take (Z.to_nat (le_uint (take 4 buffer))) buffer)) in
     let* buf :=
       dispatch (le_uint (take 2 (drop 6 (take 8 buffer)))) envelope in
     walk fuel buf (le_uint (take 4 buffer)))
      (emit (EvEnvelope (take (Z.to_nat (le_uint (take 4 buffer))) buffer)) st).
Proof.
  intros H8 Hfit.
  assert (Hread8 : read_at (bytesio_of buffer) 0 8 = take 8 buffer)
    by apply (read_at_start buffer 8).
  rewrite (walk_unfold _ _ (Z.of_nat (length buffer)) 0);
    [ | reflexivity | lia | rewrite Hread8, length_take; lia ].
  cbn zeta. rewrite Hread8, take_take. cbn [Nat.min].
  rewrite Z.add_0_l.
  destruct (Z.gtb_spec (le_uint (take 4 buffer)) (Z.of_nat (length buffer)));
    [lia|].
  reflexivity.
Qed.

(** After the [try] block the walk of the blob is over. *)
Lemma walk_after_dispatch fuel flags envelope data len s1 buf s2 :
  cdata_fits ->
  envmsg_decode data = Returns envelope ->
  Z.of_nat (length data) <= len ->
  dispatch flags envelope s1 = Ok buf s2 ->
  walk (S fuel) buf len s2 = Ok (Walked None) s2 \/
  walk (S fuel) buf len s2 = Err AttributeError s2.
Proof.
  intros Hfits Hdec Hlen Hd.
  apply dispatch_buf in Hd as [Hnone|(cdata & Hc & ->)]; cbn [walk].
  - right. now rewrite Hnone.
  - left. cbn [b_length bytesio_of].
    pose proof (Hfits _ _ _ Hdec Hc).
    destruct (Z.ltb_spec len (Z.of_nat (length cdata))); [lia|reflexivity].
Qed.

(** The walk of a buffer that starts with a whole envelope emits that
    envelope, and only that one, and leaves no carry. *)
Lemma walk_one fuel buffer st :
  cdata_fits ->
  (8 <= length buffer)%nat ->
  le_uint (take 4 buffer) <= Z.of_nat (length buffer) ->
  let first := take (Z.to_nat (le_uint (take 4 buffer))) buffer in
  exists st',
    envelopes (trace st') = envelopes (trace st) ++ [first] /\
    (walk (S (S fuel)) (bytesio_of buffer) 0 st = Ok (Walked None) st' \/
     exists e, walk (S (S fuel)) (bytesio_of buffer) 0 st = Err e st').
Proof.
  intros Hfits H8 Hfit first.
  remember (walk (S (S fuel)) (bytesio_of buffer) 0 st) as o eqn:Ho.
  rewrite walk_first in Ho by assumption. fold first in Ho.
  set (st1 := emit (EvEnvelope first) st) in Ho.
  assert (E1 : envelopes (trace st1) = envelopes (trace st) ++ [first]).
  { subst st1. cbn. now rewrite envelopes_app. }
  unfold bind at 1 in Ho.
  destruct (envmsg_decode first) as [envelope|e] eqn:Hdec; cbn [lift] in Ho.
  - unfold ret at 1 in Ho. unfold bind at 1 in Ho.
    pose proof (quiet_dispatch
                  (le_uint (take 2 (drop 6 (take 8 buffer)))) envelope st1)
      as Hq.
    destruct (dispatch _ envelope st1) as [buf st2|e st2|] eqn:Hd;
      unfold silent in Hq; [| |contradiction].
    + exists st2. split; [congruence|].
      assert (Hlen : Z.of_nat (length first) <= le_uint (take 4 buffer)).
      { subst first. rewrite length_take.
        pose proof (le_uint_nonneg (take 4 buffer)). lia. }
      destruct (walk_after_dispatch fuel _ _ _ _ _ _ _ Hfits Hdec Hlen Hd)
        as [Hw|Hw]; rewrite Hw in Ho.
      * left. exact Ho.
      * right. exists AttributeError. exact Ho.
    + exists st2. split; [congruence|]. right. now exists e.
  - exists st1. split; [exact E1|]. right. now exists e.
Qed.

Lemma feed_empties fuel blobs : forall st,
  Forall (fun blob => blob = []) blobs ->
  _feed_buffers (S fuel) None blobs st = Ok (Walked None) st.
Proof.
  induction blobs as [|blob blobs IH]; intros st Hall; [reflexivity|].
  apply Forall_cons in Hall as [-> Hall]. cbn [_feed_buffers].
  unfold bind. cbn. now apply IH.
Qed.

(** X9. One envelope per blob.  When the buffer (carry and blob) starts
    with a whole envelope, the walk emits that envelope and ends without
    carry: either an exception leaves [_feed_buffers], or the next blob is
    taken with an empty carry.  Bytes that follow the first envelope in the
    same buffer are neither emitted nor kept. *)
Theorem one_envelope_per_blob (fuel : nat) (st : state)
        (save : option (list byte)) (blob : list byte)
        (blobs : list (list byte))
        (Hfits : cdata_fits) :
  let buffer := match save with Some carry => carry ++ blob
                           | None => blob end in
  let first := take (Z.to_nat (le_uint (take 4 buffer))) buffer in
  (8 <= length buffer)%nat ->
  le_uint (take 4 buffer) <= Z.of_nat (length buffer) ->
  exists st',
    envelopes (trace st') = envelopes (trace st) ++ [first] /\
    (_feed_buffers (S (S fuel)) save (blob :: blobs) st
       = _feed_buffers (S (S fuel)) None blobs st' \/
     exists e, _feed_buffers (S (S fuel)) save (blob :: blobs) st = Err e st').
Proof.
  intros buffer first H8 Hfit.
  destruct (walk_one fuel buffer st Hfits H8 Hfit) as (st' & E & Hw).
  exists st'. split; [exact E|].
  assert (Hfeed : _feed_buffers (S (S fuel)) save (blob :: blobs) st
                  = (let* r := walk (S (S fuel)) (bytesio_of buffer) 0 in
                     match r with
                     | Walked save' => _feed_buffers (S (S fuel)) save' blobs
                     | OutOfFuel => ret OutOfFuel
                     end) st)
    by (subst buffer; now destruct save).
  rewrite Hfeed. destruct Hw as [Hw|[e Hw]].
  - left. now rewrite (bind_Ok _ _ _ _ _ Hw).
  - right. exists e. now rewrite (bind_Err _ _ _ _ _ Hw).
Qed.

(** C1. The carry is lost behind a whole envelope.  The buffer (carry and
    blob) holds a whole envelope [env] and behind it a [tail] that starts
    with a whole 8-byte prefix but is shorter than the length that prefix
    declares: at the offset of the tail the buffer holds fewer bytes than
    declared.  The walk emits [env] and then ends without carry, because
    [buf] is by then the payload of [env], which the codec never makes
    longer than the envelope: the tail is not retained, and the next blob
    is taken with an empty carry (unless an exception has left
    [_feed_buffers]). *)
Theorem carry_lost_behind_envelope (fuel : nat) (st : state)
        (save : option (list byte)) (blob : list byte)
        (blobs : list (list byte)) (env tail : list byte)
        (Hfits : cdata_fits)
        (Hbuffer : match save with Some carry => carry ++ blob
                              | None => blob end = env ++ tail)
        (Henv : (8 <= length env)%nat)
        (Hwhole : le_uint (take 4 env) = Z.of_nat (length env))
        (Hprefix : (8 <= length tail)%nat)
        (Hshort : Z.of_nat (length tail) < le_uint (take 4 tail)) :
  let buf := bytesio_of (env ++ tail) in
  let offset := Z.of_nat (length env) in
  (length (read_at buf offset 8) = 8%nat /\
   Z.of_nat (length (b_data buf))
     < offset + le_uint (take 4 (read_at buf offset 8)) /\
   read_from buf offset = tail) /\
  exists st',
    envelopes (trace st') = envelopes (trace st) ++ [env] /\
    (_feed_buffers (S (S fuel)) save (blob :: blobs) st
       = _feed_buffers (S (S fuel)) None blobs st' \/
     exists e, _feed_buffers (S (S fuel)) save (blob :: blobs) st = Err e st').
Proof.
  intros buf offset. split.
  - subst buf offset. unfold read_at, read_from. cbn [b_data bytesio_of].
    rewrite Nat2Z.id, drop_app_length.
    change (Z.to_nat 8) with 8%nat.
    split; [rewrite length_take; lia|].
    split; [|reflexivity].
    rewrite take_take, length_app. cbn [Nat.min]. lia.
  - assert (H8 : (8 <= length (env ++ tail))%nat)
      by (rewrite length_app; lia).
    assert (H4 : take 4 (env ++ tail) = take 4 env)
      by (apply take_app_le; lia).
    assert (Hfit : le_uint (take 4 (env ++ tail))
                   <= Z.of_nat (length (env ++ tail)))
      by (rewrite H4, Hwhole, length_app; lia).
    destruct (walk_one fuel (env ++ tail) st Hfits H8 Hfit)
      as (st' & E & Hw).
    rewrite H4, Hwhole, Nat2Z.id, take_app_length in E.
    exists st'. split; [exact E|].
    assert (Hfeed : _feed_buffers (S (S fuel)) save (blob :: blobs) st
                    = (let* r := walk (S (S fuel)) (bytesio_of (env ++ tail))
                                      0 in
                       match r with
                       | Walked save' =>
                           _feed_buffers (S (S fuel)) save' blobs
                       | OutOfFuel => ret OutOfFuel
                       end) st)
      by (rewrite <- Hbuffer; now destruct save).
    rewrite Hfeed. destruct Hw as [Hw|[e Hw]].
    + left. now rewrite (bind_Ok _ _ _ _ _ Hw).
    + right. exists e. now rewrite (bind_Err _ _ _ _ _ Hw).
Qed.

(** A buffer completed to exactly one envelope, followed by empty blobs
    only. *)
Lemma feed_complete fuel env save blob more st :
  cdata_fits ->
  (8 <= length env)%nat ->
  le_uint (take 4 env) = Z.of_nat (length env) ->
  match save with Some carry => carry ++ blob | None => blob end = env ->
  Forall (fun b => b = []) more ->
  emitted [env] st (_feed_buffers (S (S fuel)) save (blob :: more) st).
Proof.
  intros Hfits H8 Hdecl Hbuf Hmore.
  assert (Hfeed : _feed_buffers (S (S fuel)) save (blob :: more) st
                  = (let* r := walk (S (S fuel)) (bytesio_of env) 0 in
                     match r with
                     | Walked save' => _feed_buffers (S (S fuel)) save' more
                     | OutOfFuel => ret OutOfFuel
                     end) st)
    by (subst env; now destruct save).
  rewrite Hfeed.
  destruct (walk_one fuel env st Hfits H8) as (st' & E & Hw); [lia|].
  rewrite Hdecl, Nat2Z.id, firstn_all in E.
  destruct Hw as [Hw|[e Hw]].
  - rewrite (bind_Ok _ _ _ _ _ Hw). now rewrite feed_empties.
  - now rewrite (bind_Err _ _ _ _ _ Hw).
Qed.

Lemma concat_nil_all (l : list (list byte)) :
  concat l = [] -> Forall (fun b => b = []) l.
Proof.
  induction l as [|b l IH]; cbn; [constructor|].
  intros Hc. apply app_eq_nil in Hc as [-> Hc]. constructor; auto.
Qed.

Lemma feed_pieces fuel env st : forall more carry,
  cdata_fits ->
  le_uint (take 4 env) = Z.of_nat (length env) ->
  (8 <= length carry)%nat ->
  (length carry < length env)%nat ->
  carry ++ concat more = env ->
  emitted [env] st (_feed_buffers (S (S fuel)) (Some carry) more st).
Proof.
  induction more as [|blob more IH]; intros carry Hfits Hdecl H8 Hlt Hcat.
  - cbn in Hcat. rewrite app_nil_r in Hcat. subst. lia.
  - cbn [concat] in Hcat. rewrite app_assoc in Hcat.
    assert (Hlen : (length (carry ++ blob) <= length env)%nat).
    { rewrite <- Hcat. rewrite (length_app (carry ++ blob)). lia. }
    destruct (Nat.eq_dec (length (carry ++ blob)) (length env)) as [Heq|Hne].
    + assert (Hnil : concat more = []).
      { apply length_zero_iff_nil.
        apply (f_equal (@length byte)) in Hcat.
        rewrite (length_app (carry ++ blob)) in Hcat. lia. }
      apply feed_complete; try assumption.
      * lia.
      * rewrite Hnil, app_nil_r in Hcat. exact Hcat.
      * now apply concat_nil_all.
    + rewrite (feed_carry (S fuel) (Some carry)).
      * apply IH; try assumption.
        -- rewrite length_app. lia.
        -- lia.
      * rewrite length_app. lia.
      * assert (Hpre : take 4 (carry ++ blob) = take 4 env).
        { rewrite <- Hcat. rewrite <- app_assoc.
          rewrite !take_app_le by lia. reflexivity. }
        rewrite Hpre, Hdecl. lia.
Qed.

(** While the envelope is not complete, every blob only lengthens the
    carry. *)
Lemma feed_short fuel env st : forall got carry,
  le_uint (take 4 env) = Z.of_nat (length env) ->
  (8 <= length carry)%nat ->
  take 4 carry = take 4 env ->
  (length (carry ++ concat got) < length env)%nat ->
  _feed_buffers (S fuel) (Some carry) got st
    = Ok (Walked (Some (carry ++ concat got))) st.
Proof.
  induction got as [|blob got IH]; intros carry Hdecl H8 Hpre Hshort.
  - cbn. now rewrite app_nil_r.
  - cbn [concat] in Hshort |- *. rewrite app_assoc in Hshort |- *.
    rewrite (feed_carry fuel (Some carry)).
    + apply IH; try assumption.
      * rewrite length_app. lia.
      * rewrite take_app_le by lia. exact Hpre.
    + rewrite length_app. lia.
    + rewrite take_app_le by lia. rewrite Hpre, Hdecl.
      rewrite (length_app (carry ++ blob)) in Hshort. lia.
Qed.

(** X10. Fragments.  An envelope whose first four bytes declare its own
    length, cut into any number of blobs of which the first holds at least
    the 8-byte prefix, is emitted exactly once, when its last byte has
    come in; nothing is emitted before. *)
Theorem fragments_reassembled (fuel : nat) (st : state) (env : list byte)
        (first : list byte) (more : list (list byte))
        (Hfits : cdata_fits)
        (Hdecl : le_uint (take 4 env) = Z.of_nat (length env))
        (Hprefix : (8 <= length first)%nat)
        (Hpieces : first ++ concat more = env) :
  emitted [env] st (_feed_buffers (S (S fuel)) None (first :: more) st) /\
  (forall n, (n < length more)%nat ->
             (length (first ++ concat (take n more)) < length env)%nat ->
             _feed_buffers (S (S fuel)) None (first :: take n more) st
               = Ok (Walked (Some (first ++ concat (take n more)))) st).
Proof.
  assert (Hlen : (length first <= length env)%nat).
  { rewrite <- Hpieces, length_app. lia. }
  split.
  - destruct (Nat.eq_dec (length first) (length env)) as [Heq|Hne].
    + assert (Hnil : concat more = []).
      { apply length_zero_iff_nil.
        apply (f_equal (@length byte)) in Hpieces.
        rewrite length_app in Hpieces. lia. }
      apply feed_complete; try assumption.
      * lia.
      * rewrite Hnil, app_nil_r in Hpieces. exact Hpieces.
      * now apply concat_nil_all.
    + rewrite (feed_carry (S fuel) None).
      * apply feed_pieces; try assumption. lia.
      * exact Hprefix.
      * assert (Hpre : take 4 first = take 4 env).
        { rewrite <- Hpieces. rewrite take_app_le by lia. reflexivity. }
        rewrite Hpre, Hdecl. lia.
  - assert (Hpre4 : take 4 first = take 4 env).
    { rewrite <- Hpieces. now rewrite take_app_le by lia. }
    intros n _ Hshort.
    rewrite (feed_carry (S fuel) None).
    + now apply (feed_short (S fuel) env).
    + exact Hprefix.
    + rewrite Hpre4, Hdecl. rewrite length_app in Hshort. lia.
Qed.

End ReassemblerMore.

Lemma sample_codec_fits : cdata_fits (CO := Sample.codec).
Proof.
  intros data e cdata Hdec Hc.
  change (envmsg_decode data) with (Sample.envelope_decode data) in Hdec.
  unfold Sample.envelope_decode in Hdec.
  destruct (length data <? 16)%nat; [discriminate|].
  injection Hdec as <-. cbn [e_get_cdata] in Hc.
  destruct (length data <? 28)%nat; [discriminate|].
  injection Hc as <-. rewrite length_drop. lia.
Qed.

Lemma one_envelope_per_blob_witness :
  exists st',
    envelopes (trace st') = [Sample.envelope44] /\
    (_feed_buffers (MA := Sample.marshal) (CO := Sample.codec) 2 None
                   [Sample.envelope44 ++ Sample.envelope44] (init_state false)
       = _feed_buffers (MA := Sample.marshal) (CO := Sample.codec) 2 None []
                       st' \/
     exists e,
       _feed_buffers (MA := Sample.marshal) (CO := Sample.codec) 2 None
                     [Sample.envelope44 ++ Sample.envelope44]
                     (init_state false) = Err e st').
Proof.
  apply (one_envelope_per_blob (MA := Sample.marshal) (CO := Sample.codec)
           0 (init_state false) None
           (Sample.envelope44 ++ Sample.envelope44) [] sample_codec_fits).
  - vm_compute. lia.
  - vm_compute. discriminate.
Defined.

Lemma carry_lost_behind_envelope_witness :
  (exists st',
      envelopes (trace st')
      = envelopes (trace (init_state false)) ++ [Sample.envelope40] /\
      (_feed_buffers (MA := Sample.marshal) (CO := Sample.codec) 2 None
                     [Sample.envelope40 ++ take 24 Sample.envelope40;
                      drop 24 Sample.envelope40] (init_state false)
         = _feed_buffers (MA := Sample.marshal) (CO := Sample.codec) 2 None
                         [drop 24 Sample.envelope40] st' \/
       exists e,
         _feed_buffers (MA := Sample.marshal) (CO := Sample.codec) 2 None
                       [Sample.envelope40 ++ take 24 Sample.envelope40;
                        drop 24 Sample.envelope40] (init_state false)
         = Err e st')) /\
  emitted [Sample.envelope40] (init_state false)
          (_feed_buffers (MA := Sample.marshal) (CO := Sample.codec) 2 None
                         [Sample.envelope40 ++ take 24 Sample.envelope40;
                          drop 24 Sample.envelope40] (init_state false)).
Proof.
  split; [|vm_compute; reflexivity].
  refine (proj2 (carry_lost_behind_envelope
                   (MA := Sample.marshal) (CO := Sample.codec)
                   0 (init_state false) None
                   (Sample.envelope40 ++ take 24 Sample.envelope40)
                   [drop 24 Sample.envelope40]
                   Sample.envelope40 (take 24 Sample.envelope40)
                   sample_codec_fits eq_refl _ eq_refl _ _)).
  - vm_compute. lia.
  - vm_compute. lia.
  - vm_compute. reflexivity.
Defined.

Lemma fragments_reassembled_witness :
  emitted [Sample.envelope40] (init_state false)
          (_feed_buffers (MA := Sample.marshal) (CO := Sample.codec) 2 None
                         [take 10 Sample.envelope40;
                          take 15 (drop 10 Sample.envelope40);
                          drop 25 Sample.envelope40]
                         (init_state false)).
Proof.
  apply (fragments_reassembled (MA := Sample.marshal) (CO := Sample.codec)
           0 (init_state false) Sample.envelope40
           (take 10 Sample.envelope40)
           [take 15 (drop 10 Sample.envelope40); drop 25 Sample.envelope40]
           sample_codec_fits).
  - reflexivity.
  - vm_compute. lia.
  - reflexivity.
Defined.

Section Dispatch.
Context `{MA : Marshal} `{CO : Codec}.

(** A blob that is exactly one envelope: the walk hands the decoded
    envelope to the [try] block and then looks at [buf] again. *)
Lemma feed_whole fuel env envelope blobs st :
  (8 <= length env)%nat ->
  le_uint (take 4 env) = Z.of_nat (length env) ->
  envmsg_decode env = Returns envelope ->
  _feed_buffers (S (S fuel)) None (env :: blobs) st
    = (let* buf := dispatch (le_uint (take 2 (drop 6 (take 8 env)))) envelope in
       let* r := walk (S fuel) buf (Z.of_nat (length env)) in
       match r with
       | Walked save => _feed_buffers (S (S fuel)) save blobs
       | OutOfFuel => ret OutOfFuel
       end) (emit (EvEnvelope env) st).
Proof.
  intros H8 Hdecl Hdec. cbn [_feed_buffers]. unfold bind at 1.
  rewrite walk_first by (assumption || lia).
  rewrite Hdecl, Nat2Z.id, firstn_all. rewrite Hdec. cbn [lift].
  unfold bind at 2. unfold ret at 1. unfold bind.
  destruct (dispatch _ envelope _) as [buf s2|e s2|]; reflexivity.
Qed.

(** X11. Bad packets.  An [AttributeError] raised while the payload of an
    envelope is parsed (by the marshal, a callback or a queue) is swallowed:
    the rest of that envelope is skipped and the reassembler goes on with
    the next blob.  An [AttributeError] raised by [get_attr] itself comes
    back at the loop test, where [buf] has no [length], and leaves
    [_feed_buffers]. *)
Theorem bad_packet (fuel : nat) (st : state) (env : list byte)
        (envelope : envelope) (blobs : list (list byte))
        (Hfits : cdata_fits)
        (Hprefix : (8 <= length env)%nat)
        (Hdecl : le_uint (take 4 env) = Z.of_nat (length env))
        (Hdec : envmsg_decode env = Returns envelope) :
  (forall cdata st2,
      le_uint (take 2 (drop 6 (take 8 env))) <> 1 ->
      e_get_cdata envelope = Returns (VBytes cdata) ->
      parse cdata (emit (EvEnvelope env) st) = Err AttributeError st2 ->
      _feed_buffers (S (S fuel)) None (env :: blobs) st
        = _feed_buffers (S (S fuel)) None blobs st2) /\
  (e_get_cdata envelope = Raises AttributeError ->
   _feed_buffers (S (S fuel)) None (env :: blobs) st
     = Err AttributeError (emit (EvEnvelope env) st)).
Proof.
  split.
  - intros cdata st2 Hflags Hc Hp.
    rewrite (feed_whole _ _ envelope) by assumption.
    assert (Hd : dispatch (le_uint (take 2 (drop 6 (take 8 env)))) envelope
                          (emit (EvEnvelope env) st)
                 = Ok (bytesio_of cdata) st2).
    { unfold dispatch. rewrite Hc. apply Z.eqb_neq in Hflags. rewrite Hflags.
      unfold bind at 1, try_except. now rewrite Hp. }
    rewrite (bind_Ok _ _ _ _ _ Hd).
    pose proof (Hfits _ _ _ Hdec Hc) as Hle.
    cbn [walk b_length bytesio_of]. unfold bind at 1.
    destruct (Z.ltb_spec (Z.of_nat (length env))
                         (Z.of_nat (length cdata))); [lia|].
    reflexivity.
  - intros Hc. rewrite (feed_whole _ _ envelope) by assumption.
    assert (Hd : dispatch (le_uint (take 2 (drop 6 (take 8 env)))) envelope
                          (emit (EvEnvelope env) st)
                 = Ok {| b_data := []; b_length := None |}
                      (emit (EvEnvelope env) st)).
    { unfold dispatch. now rewrite Hc. }
    rewrite (bind_Ok _ _ _ _ _ Hd). reflexivity.
Qed.

(** X12. Management replies.  An envelope whose prefix carries flags 1 is
    decoded as a management message and put on the queue registered under
    the envelope's sequence number, without going through the marshal or the
    callbacks.  When no queue is registered there, or when it is full, the
    [KeyError] or [Queue.Full] is not handled and leaves [_feed_buffers]. *)
Theorem management_reply (fuel : nat) (st : state) (env cdata : list byte)
        (envelope : envelope) (m : nlmsg) (blobs : list (list byte))
        (Hfits : cdata_fits)
        (Hprefix : (8 <= length env)%nat)
        (Hdecl : le_uint (take 4 env) = Z.of_nat (length env))
        (Hflags : le_uint (take 2 (drop 6 (take 8 env))) = 1)
        (Hdec : envmsg_decode env = Returns envelope)
        (Hcdata : e_get_cdata envelope = Returns (VBytes cdata))
        (Hmgmt : mgmtmsg_decode cdata = Returns m) :
  let st1 := emit (EvEnvelope env) st in
  let nonce := e_sequence_number envelope in
  _feed_buffers (S (S fuel)) None (env :: blobs) st =
    match listeners st !! nonce with
    | None => Err KeyError st1
    | Some q =>
        if q_full q then Err QueueFull st1
        else _feed_buffers (S (S fuel)) None blobs
               (set_listeners (insert nonce (q_push (Some m) q)) st1)
    end.
Proof.
  intros st1 nonce. rewrite (feed_whole _ _ envelope) by assumption.
  fold st1. unfold bind at 1, dispatch. rewrite Hcdata, Hflags.
  change (1 =? 1) with true. cbv iota.
  unfold bind at 1, try_except. unfold bind at 1. rewrite Hmgmt. cbn [lift].
  unfold ret at 1. unfold put_nowait, bind at 1, listener. fold nonce.
  change (listeners st1) with (listeners st).
  destruct (listeners st !! nonce) as [q|]; [|reflexivity].
  destruct (q_full q); [reflexivity|].
  unfold modify, ret. pose proof (Hfits _ _ _ Hdec Hcdata) as Hle.
  cbn [walk b_length bytesio_of]. unfold bind at 1.
  destruct (Z.ltb_spec (Z.of_nat (length env))
                       (Z.of_nat (length cdata))); [lia|].
  reflexivity.
Qed.

End Dispatch.

Lemma bad_packet_witness :
  _feed_buffers (MA := Doubles.marshal) (CO := Sample.codec) 2 None
                [Sample.envelope44; Sample.envelope44] (init_state false)
    = _feed_buffers (MA := Doubles.marshal) (CO := Sample.codec) 2 None
                    [Sample.envelope44]
                    (emit (EvEnvelope Sample.envelope44) (init_state false)).
Proof.
  refine (proj1 (bad_packet (MA := Doubles.marshal) (CO := Sample.codec)
                   0 (init_state false) Sample.envelope44 _
                   [Sample.envelope44] sample_codec_fits _ _ eq_refl)
                (drop 28 Sample.envelope44) _ _ _ _).
  - vm_compute. lia.
  - reflexivity.
  - vm_compute. discriminate.
  - reflexivity.
  - reflexivity.
Defined.

Lemma management_reply_witness :
  exists st',
    _feed_buffers (MA := Sample.marshal) (CO := Sample.codec) 2 None
                  [Doubles.management48] (Sample.waiting 7 [])
      = Ok (Walked None) st' /\
    (exists m, listeners st' !! 7 = Some (q_with_items [Some m] new_queue) /\
               fields m !! "cmd"%string = Some (VInt 1)).
Proof.
  pose proof (management_reply (MA := Sample.marshal) (CO := Sample.codec)
                0 (Sample.waiting 7 []) Doubles.management48
                (drop 28 Doubles.management48) _ _ [] sample_codec_fits
                ltac:(vm_compute; lia) eq_refl eq_refl eq_refl eq_refl eq_refl)
    as Hrun.
  cbv zeta in Hrun. rewrite Hrun. clear Hrun.
  eexists. split; [vm_compute; reflexivity|].
  eexists. split; vm_compute; reflexivity.
Defined.

(** ** The dispatcher: [nlm_request] and [command] *)

Section Frame.
Context `{NC : NetlinkConstants}.

Lemma set_listeners_id st : st = set_listeners (fun ls => ls) st.
Proof. now destruct st. Qed.

(** The registry operations change the registry and nothing else. *)
Lemma reroute_frame items : forall st st',
  reroute items st = Ok tt st' -> exists f, st' = set_listeners f st.
Proof.
  induction items as [|m items IH]; intros st st' Hr; cbn [reroute] in Hr.
  - injection Hr as <-. eexists. apply set_listeners_id.
  - destruct (listeners st !! 0) as [q0|]; [|eauto].
    destruct (q_full q0); [discriminate|].
    apply IH in Hr as [f ->]. now eexists (fun ls => f (_ ls)).
Qed.

Lemma remove_queue_frame key st st' :
  _remove_queue key st = Ok tt st' -> exists f, st' = set_listeners f st.
Proof.
  intros Hr. unfold _remove_queue in Hr.
  apply bind_Ok_inv in Hr as (q & s1 & Hl & Hr).
  unfold listener in Hl. destruct (listeners st !! key); [|discriminate].
  injection Hl as _ <-.
  destruct (negb (key =? 0)).
  - apply bind_Ok_inv in Hr as ([] & s2 & Hm & Hr). injection Hm as <-.
    apply reroute_frame in Hr as [f ->]. now eexists (fun ls => f (_ ls)).
  - injection Hr as <-. eexists. apply set_listeners_id.
Qed.

Lemma get_loop_frame key raw q items : forall result st r st',
  get_loop key raw q items result st = Ok r st' ->
  exists f, st' = set_listeners f st.
Proof.
  assert (Hno : forall (e : exn) (s : state) r s',
             (_remove_queue key ;; raise e) s = Ok (A := list nlmsg) r s'
             -> False).
  { intros e s r s' Hb. apply bind_Ok_inv in Hb as (? & ? & _ & ?).
    discriminate. }
  induction items as [|item items IH]; intros result st r st' Hl;
    cbn [get_loop] in Hl.
  - destruct ((key =? 0) || q_persist q); [discriminate|].
    now apply Hno in Hl.
  - apply bind_Ok_inv in Hl as ([] & s1 & Hp & Hl). injection Hp as <-.
    destruct item as [msg|]; [|now apply Hno in Hl].
    apply bind_Ok_inv in Hl as (hdr & s2 & Hh & Hl).
    unfold get_header in Hh. destruct (header msg); [|discriminate].
    injection Hh as _ <-.
    assert (Hdone : forall res,
               ret res (popped_state key q items st) = Ok r st' ->
               exists f, st' = set_listeners f st).
    { intros res Hret. injection Hret as _ <-. now eexists. }
    assert (Hnext : forall res,
               (if (h_type hdr =? NLMSG_DONE)
                   || (Z.land (h_flags hdr) NLM_F_MULTI =? 0)
                then ret res
                else if raw then ret res
                     else get_loop key raw q items res)
                 (popped_state key q items st) = Ok r st' ->
               exists f, st' = set_listeners f st).
    { intros res Hn. destruct (_ || _); [eauto|].
      destruct raw; [eauto|].
      apply IH in Hn as [f ->]. now eexists (fun ls => f (_ ls)). }
    destruct (h_error hdr), raw; eauto. now apply Hno in Hl.
Qed.

Lemma get_frame key raw st r st' :
  get key raw st = Ok r st' -> exists f, st' = set_listeners f st.
Proof.
  intros Hget. unfold get in Hget.
  apply bind_Ok_inv in Hget as (q & s0 & Hl & Hget).
  unfold listener in Hl. destruct (listeners st !! key); [|discriminate].
  injection Hl as _ <-.
  apply bind_Ok_inv in Hget as (res & s1 & Hloop & Hget).
  apply bind_Ok_inv in Hget as ([] & s2 & Hrm & Hget).
  injection Hget as _ <-.
  apply get_loop_frame in Hloop as [f ->].
  destruct (negb (q_persist q)).
  - apply remove_queue_frame in Hrm as [g ->]. now eexists (fun ls => g (f ls)).
  - injection Hrm as <-. now eexists.
Qed.

(** [get] on the parts of a reply closed by a message that ends the loop: a
    DONE, or a message without the MULTI flag. *)
Lemma get_collects st key q parts last hdr :
  listeners st !! key = Some q ->
  q_items q = (Some <$> parts) ++ [Some last] ->
  Forall multi_part parts ->
  header last = Some hdr -> h_error hdr = None ->
  h_type hdr = NLMSG_DONE \/ Z.land (h_flags hdr) NLM_F_MULTI = 0 ->
  exists st',
    get key false st
      = Ok (parts ++ if h_type hdr =? NLMSG_DONE then [] else [last]) st' /\
    listeners st' !! key =
      if (key =? 0) || q_persist q then Some (q_with_items [] q) else None.
Proof.
  intros Hq Hitems Hparts Hh He Hend.
  destruct (get_tail key q
              (parts ++ if h_type hdr =? NLMSG_DONE then [] else [last])
              [] st Hq) as (st' & Htail & Hl).
  { intros _ _. unfold reroute_room.
    destruct (listeners st !! 0); [now left | exact I]. }
  exists st'. split; [|exact Hl].
  unfold get. erewrite bind_Ok by (unfold listener; now rewrite Hq).
  rewrite <- (popped_state_id key q st Hq) at 1. rewrite Hitems.
  erewrite bind_Ok; [exact Htail|].
  rewrite get_loop_multi by assumption.
  rewrite (get_loop_step _ _ _ _ _ _ _ Hh He). cbn zeta.
  rewrite popped_state_twice. cbn [app].
  destruct (Z.eqb_spec (h_type hdr) NLMSG_DONE) as [Hd|Hd].
  - now rewrite app_nil_r.
  - destruct Hend as [|Hf]; [contradiction|].
    apply Z.eqb_eq in Hf. now rewrite Hf.
Qed.

(** [get] on a listener that holds nothing. *)
Lemma get_nothing st key q :
  listeners st !! key = Some q -> q_items q = [] ->
  key <> 0 -> q_persist q = false ->
  exists st', get key false st = Err QueueEmpty st' /\
              listeners st' !! key = None.
Proof.
  intros Hq Hitems Hk Hp.
  assert (Hroom : reroute_room st [])
    by (unfold reroute_room; destruct (listeners st !! 0); auto).
  destruct (remove_queue_returns key q st Hk Hq) as (st' & Hrm & Hl).
  { now rewrite Hitems. }
  exists st'. split; [|exact Hl].
  unfold get. erewrite bind_Ok by (unfold listener; now rewrite Hq).
  apply bind_Err. rewrite Hitems. cbn [get_loop].
  apply Z.eqb_neq in Hk. rewrite Hk, Hp. cbn [orb].
  erewrite bind_Ok by exact Hrm. reflexivity.
Qed.

(** The object just before the reassembly thread gets its turn in
    [nlm_request]. *)
Lemma nlm_request_unfold msg hdr msg_type msg_flags env_flags realm
      concurrent st :
  header msg = Some hdr ->
  exists s3,
    listeners s3 = <[nonce_next (_nonce st) := new_queue]> (listeners st) /\
    callbacks s3 = callbacks st /\ _mirror s3 = _mirror st /\
    debug s3 = debug st /\ cid s3 = cid st /\
    nlm_request msg msg_type msg_flags env_flags realm concurrent st
      = (let* result := get (nonce_next (_nonce st)) false in
         let* dbg := gets debug in
         ret (if dbg then result else map del_header result)) (concurrent s3).
Proof.
  intros Hh. eexists.
  split; [|split; [|split; [|split; [|split]]]]; cycle 5.
  { unfold nlm_request.
    unfold bind at 1, gets. unfold bind at 1, nonce.
    unfold bind at 1, modify. unfold bind at 1, gets.
    cbn [_nonce set_nonce].
    unfold bind at 1, modify. unfold bind at 1, nlm_push.
    unfold bind at 1, get_header. rewrite Hh. unfold ret at 1.
    unfold modify at 1. unfold bind at 1, modify. reflexivity. }
  all: reflexivity.
Qed.

End Frame.

Section Requests.
Context `{NC : NetlinkConstants} `{MA : Marshal}.

(** Collecting under another key does not make a default queue appear. *)
Lemma get_absent_default key raw st result st' :
  get key raw st = Ok result st' -> key <> 0 ->
  listeners st !! 0 = None -> listeners st' !! 0 = None.
Proof.
  intros Hget Hk H0. unfold get in Hget.
  apply bind_Ok_inv in Hget as (q & s0 & Hl & Hget).
  unfold listener in Hl.
  destruct (listeners st !! key) as [q0|] eqn:Hq; [|discriminate].
  injection Hl as -> ->.
  apply bind_Ok_inv in Hget as (res & s1 & Hloop & Hget).
  apply bind_Ok_inv in Hget as ([] & s2 & Hrm & Hget).
  injection Hget as _ <-.
  apply get_loop_keeps_default in Hloop; [|assumption].
  rewrite H0 in Hloop.
  destruct (q_persist q); cbn in Hrm.
  - now injection Hrm as <-.
  - unfold _remove_queue in Hrm.
    apply bind_Ok_inv in Hrm as (q1 & s3 & Hl1 & Hrm).
    unfold listener in Hl1. destruct (listeners s1 !! key); [|discriminate].
    injection Hl1 as _ <-.
    destruct (Z.eqb_spec key 0); [contradiction|]. cbn in Hrm.
    rewrite reroute_dropped in Hrm
      by (cbn; now rewrite lookup_delete_ne by congruence).
    injection Hrm as <-. cbn. now rewrite lookup_delete_ne by congruence.
Qed.

(** X13. A request that gets no reply: [nlm_request] raises [Queue.Empty]
    when the pop times out, and no listener is left under the sequence
    number it had allocated. *)
Theorem nlm_request_no_reply (st : state) (msg : nlmsg) (hdr : nlhdr)
        (msg_type msg_flags env_flags realm : value)
        (concurrent : state -> state)
        (Hheader : header msg = Some hdr)
        (Hnonce : nonce_reachable (_nonce st))
        (Hsilent : forall s,
            listeners s !! nonce_next (_nonce st) = Some new_queue ->
            exists q, listeners (concurrent s) !! nonce_next (_nonce st)
                      = Some q /\ q_items q = [] /\ q_persist q = false) :
  exists st',
    nlm_request msg msg_type msg_flags env_flags realm concurrent st
      = Err QueueEmpty st' /\
    listeners st' !! nonce_next (_nonce st) = None.
Proof.
  pose proof (nonce_next_range _ (nonce_reachable_range _ Hnonce)) as Hn.
  destruct (nlm_request_unfold msg hdr msg_type msg_flags env_flags realm
              concurrent st Hheader) as (s3 & Hl3 & _ & _ & _ & _ & Hrun).
  destruct (Hsilent s3) as (q & Hq & Hitems & Hp).
  { rewrite Hl3. apply lookup_insert_eq. }
  destruct (get_nothing _ _ _ Hq Hitems) as (st' & Hget & Hl); [lia|exact Hp|].
  exists st'. split; [|exact Hl].
  rewrite Hrun. now apply bind_Err.
Qed.

(** X14. Request and reply, end to end, with mirror mode off and a callback
    chain of which no entry raises on the messages of the reply.  The
    request message has a header and the counter is in a state that calls
    of [nonce] reach.  While the caller waits, the reassembly thread parses
    a buffer whose messages all carry the sequence number of the request:
    MULTI-flagged parts closed by a DONE, none with an error in its header,
    fewer than the queue holds.  [nlm_request] then returns exactly the
    parts, in the order the marshal gave them, without their header unless
    [debug] is set, and leaves no listener behind. *)
Theorem request_collects_reply (st : state) (msg : nlmsg) (hdr : nlhdr)
        (msg_type msg_flags env_flags realm : value)
        (data : list byte) (parts : list nlmsg) (done : nlmsg)
        (Hheader : header msg = Some hdr)
        (Hnonce : nonce_reachable (_nonce st))
        (Hparse : marshal_parse data = Returns (parts ++ [done]))
        (Hseq : Forall (fun m => exists h, header m = Some h /\
                                   h_sequence_number h
                                   = nonce_next (_nonce st))
                       (parts ++ [done]))
        (Hparts : Forall multi_part parts)
        (Hdone : done_part done)
        (Hcb : Forall (fun m => Forall (entry_returns m) (callbacks st))
                      (parts ++ [done]))
        (Hmirror : _mirror st = false)
        (Hroom : (length parts < 4096)%nat) :
  exists st',
    nlm_request msg msg_type msg_flags env_flags realm
                (run_thread (parse data)) st
      = Ok (if debug st then parts else map del_header parts) st' /\
    listeners st' !! nonce_next (_nonce st) = None.
Proof.
  pose proof (nonce_next_range _ (nonce_reachable_range _ Hnonce)) as Hn.
  set (n := nonce_next (_nonce st)) in *.
  destruct (nlm_request_unfold msg hdr msg_type msg_flags env_flags realm
              (run_thread (parse data)) st Hheader)
    as (s3 & Hl3 & Hc3 & Hm3 & Hd3 & _ & Hrun).
  fold n in Hl3, Hrun.
  destruct (parse_all_offers n (parts ++ [done]) s3 new_queue)
    as (s4 & Hparsed & Hl4 & Hd4).
  { rewrite Hl3. apply lookup_insert_eq. }
  { exact Hseq. }
  { now rewrite Hc3. }
  { now rewrite Hm3. }
  assert (Hthread : run_thread (parse data) s3 = s4).
  { unfold run_thread, parse. rewrite Hparse. cbn [lift].
    change ((let* msgs := ret (parts ++ [done]) in parse_all msgs) s3)
      with (parse_all (parts ++ [done]) s3).
    now rewrite Hparsed. }
  rewrite Hthread in Hrun.
  destruct Hdone as (hd & Hhd & Hed & Htd).
  destruct (get_collects s4 n (q_offer (parts ++ [done]) new_queue)
              parts done hd) as (st' & Hget & Hl); try assumption.
  { rewrite Hl4. apply lookup_insert_eq. }
  { rewrite q_offer_items. cbn [q_with_items q_items new_queue app].
    change (0 <? _QUEUE_MAXSIZE) with true. cbv iota.
    rewrite take_ge by (rewrite length_app; cbn; unfold _QUEUE_MAXSIZE; lia).
    now rewrite fmap_app. }
  { now left. }
  apply Z.eqb_eq in Htd. rewrite Htd, app_nil_r in Hget.
  exists st'. split.
  - rewrite Hrun. erewrite bind_Ok by exact Hget.
    apply get_frame in Hget as [f ->].
    unfold bind, gets, ret. cbn [debug set_listeners]. now rewrite Hd4, Hd3.
  - rewrite Hl, q_offer_items. cbn [q_persist q_with_items new_queue].
    destruct (Z.eqb_spec n 0); [lia|]. reflexivity.
Qed.

End Requests.

Lemma nlm_request_no_reply_witness :
  exists st',
    nlm_request (NC := Sample.constants) new_msg (VInt 18) (VInt 1) (VInt 0)
                VNone (fun s => s) (init_state false) = Err QueueEmpty st' /\
    listeners st' !! 1 = None.
Proof.
  apply (nlm_request_no_reply (NC := Sample.constants) (init_state false)
           new_msg (mk_nlhdr 0 0 0 None) (VInt 18) (VInt 1) (VInt 0) VNone
           (fun s => s) eq_refl nonce_reach_init).
  intros s Hs. exists new_queue. now rewrite Hs.
Defined.

Lemma request_collects_reply_witness :
  exists st',
    nlm_request (NC := Sample.constants) new_msg (VInt 18) (VInt 769) (VInt 0)
                VNone (run_thread (parse (MA := Doubles.dump) []))
                (init_state false)
      = Ok [del_header (Sample.reply 16 2 1)] st' /\
    listeners st' !! 1 = None.
Proof.
  refine (request_collects_reply (NC := Sample.constants)
            (MA := Doubles.dump) (init_state false) new_msg
            (mk_nlhdr 0 0 0 None) (VInt 18) (VInt 769) (VInt 0) VNone []
            [Sample.reply 16 2 1] (Sample.reply 3 2 1)
            eq_refl nonce_reach_init eq_refl _ _ _ _ eq_refl _).
  - repeat constructor; eexists; split; reflexivity.
  - repeat constructor. eexists. repeat split; vm_compute; congruence.
  - eexists. repeat split; vm_compute; congruence.
  - repeat constructor.
  - cbn. lia.
Defined.

Section Control.
Context `{NC : NetlinkConstants}.

(** A request answered by one message that is not part of a multi-part
    reply. *)
Lemma request_single st msg hdr0 msg_type msg_flags env_flags realm
      concurrent rsp hdr :
  header msg = Some hdr0 ->
  nonce_reachable (_nonce st) ->
  (forall s,
      listeners s !! nonce_next (_nonce st) = Some new_queue ->
      listeners (concurrent s) !! nonce_next (_nonce st)
        = Some (q_with_items [Some rsp] new_queue)) ->
  header rsp = Some hdr -> h_error hdr = None ->
  Z.land (h_flags hdr) NLM_F_MULTI = 0 -> h_type hdr <> NLMSG_DONE ->
  exists s3 st',
    listeners s3 = <[nonce_next (_nonce st) := new_queue]> (listeners st) /\
    nlm_request msg msg_type msg_flags env_flags realm concurrent st
      = Ok [if debug (concurrent s3) then rsp else del_header rsp] st' /\
    listeners st' !! nonce_next (_nonce st) = None /\
    (listeners (concurrent s3) !! 0 = None -> listeners st' !! 0 = None) /\
    cid st' = cid (concurrent s3).
Proof.
  intros Hh0 Hnonce Hdeliver Hh He Hf Ht.
  pose proof (nonce_next_range _ (nonce_reachable_range _ Hnonce)) as Hn.
  destruct (nlm_request_unfold msg hdr0 msg_type msg_flags env_flags realm
              concurrent st Hh0) as (s3 & Hl3 & _ & _ & _ & _ & Hrun).
  assert (Hq : listeners (concurrent s3) !! nonce_next (_nonce st)
               = Some (q_with_items [Some rsp] new_queue)).
  { apply Hdeliver. rewrite Hl3. apply lookup_insert_eq. }
  destruct (get_collects (concurrent s3) _ _ [] rsp hdr Hq eq_refl
              (List.Forall_nil _) Hh He (or_intror Hf))
    as (st' & Hget & Hl).
  apply Z.eqb_neq in Ht. rewrite Ht in Hget. cbn [app] in Hget.
  exists s3, st'. split; [exact Hl3|]. split; [|split; [|split]].
  - rewrite Hrun. erewrite bind_Ok by exact Hget.
    apply get_frame in Hget as [f ->].
    unfold bind, gets, ret. cbn [debug set_listeners].
    now destruct (debug (concurrent s3)).
  - rewrite Hl. cbn. destruct (Z.eqb_spec (nonce_next (_nonce st)) 0); [lia|].
    reflexivity.
  - intros H0. eapply get_absent_default; [exact Hget | lia | exact H0].
  - apply get_frame in Hget as [f ->]. reflexivity.
Qed.

(** X15. [command] with one management reply.  When the reply carries the
    code ACK, [command] returns the attribute it was asked for ([None] when
    the reply has no such attribute, or when nothing was asked for); any
    other code is an [AssertionError], and a reply without a code a
    [KeyError].  In each case the listener of the request is gone. *)
Theorem command_reply (st : state) (c : Z) (a : list (string * value))
        (expect : option string) (concurrent : state -> state)
        (rsp : nlmsg) (hdr : nlhdr)
        (Hnonce : nonce_reachable (_nonce st))
        (Hdeliver : forall s,
            listeners s !! nonce_next (_nonce st) = Some new_queue ->
            listeners (concurrent s) !! nonce_next (_nonce st)
              = Some (q_with_items [Some rsp] new_queue))
        (Hheader : header rsp = Some hdr)
        (Herror : h_error hdr = None)
        (Hsingle : Z.land (h_flags hdr) NLM_F_MULTI = 0)
        (Htype : h_type hdr <> NLMSG_DONE) :
  exists st',
    listeners st' !! nonce_next (_nonce st) = None /\
    command c a expect concurrent st =
      match fields rsp !! "cmd"%string with
      | None => Err KeyError st'
      | Some code =>
          if is_int IPRCMD_ACK code
          then Ok (match expect with
                   | Some name => get_attr name (attrs rsp)
                   | None => VNone
                   end) st'
          else Err AssertionError st'
      end.
Proof.
  destruct (request_single st (mgmtmsg_new c a) (mk_nlhdr 0 0 0 None)
              (VInt NLMSG_CONTROL) (VInt 0) (VInt 1) VNone concurrent rsp hdr)
    as (s3 & st' & _ & Hreq & Hl & _); try assumption; [reflexivity|].
  exists st'. split; [exact Hl|].
  unfold command. rewrite (bind_Ok _ _ _ _ _ Hreq).
  assert (Hsame : forall b : bool,
             fields (if b then rsp else del_header rsp) = fields rsp /\
             attrs (if b then rsp else del_header rsp) = attrs rsp)
    by (intros []; split; reflexivity).
  destruct (Hsame (debug (concurrent s3))) as [-> ->].
  destruct (fields rsp !! "cmd"%string) as [code|]; [|reflexivity].
  destruct (is_int IPRCMD_ACK code); [|reflexivity].
  now destruct expect.
Qed.

(** X16. [monitor(False)] on an object that is not monitoring: the
    UNSUBSCRIBE command is sent and acknowledged, [cid] is reset, and then
    [del self.listeners[0]] raises [KeyError]. *)
Theorem monitor_off_when_off (st : state) (concurrent : state -> state)
        (rsp : nlmsg) (hdr : nlhdr)
        (Hoff : listeners st !! 0 = None)
        (Hnonce : nonce_reachable (_nonce st))
        (Hdeliver : forall s,
            listeners s !! nonce_next (_nonce st) = Some new_queue ->
            listeners (concurrent s) !! nonce_next (_nonce st)
              = Some (q_with_items [Some rsp] new_queue))
        (Hkeep : forall s, listeners s !! 0 = None ->
                           listeners (concurrent s) !! 0 = None)
        (Hheader : header rsp = Some hdr)
        (Herror : h_error hdr = None)
        (Hsingle : Z.land (h_flags hdr) NLM_F_MULTI = 0)
        (Htype : h_type hdr <> NLMSG_DONE)
        (Hack : fields rsp !! "cmd"%string = Some (VInt IPRCMD_ACK)) :
  exists st',
    monitor false concurrent st = Err KeyError st' /\
    cid st' = VNone /\ listeners st' !! 0 = None.
Proof.
  pose proof (nonce_next_range _ (nonce_reachable_range _ Hnonce)) as Hn.
  destruct (request_single st
              (mgmtmsg_new IPRCMD_UNSUBSCRIBE
                           [("IPR_ATTR_CID"%string, cid st)])
              (mk_nlhdr 0 0 0 None)
              (VInt NLMSG_CONTROL) (VInt 0) (VInt 1) VNone concurrent rsp hdr)
    as (s3 & st' & Hl3 & Hreq & _ & H0 & _); try assumption; [reflexivity|].
  assert (Hcmd : command IPRCMD_UNSUBSCRIBE
                         [("IPR_ATTR_CID"%string, cid st)] None concurrent st
                 = Ok VNone st').
  { unfold command. rewrite (bind_Ok _ _ _ _ _ Hreq).
    assert (Hsame : forall b : bool,
               fields (if b then rsp else del_header rsp) = fields rsp)
      by (intros []; reflexivity).
    rewrite Hsame, Hack. cbn [is_int]. now rewrite Z.eqb_refl. }
  assert (Hnone : listeners st' !! 0 = None).
  { apply H0, Hkeep. rewrite Hl3. rewrite lookup_insert_ne by lia. exact Hoff. }
  exists (set_cid VNone st'). split; [|split; [reflexivity | exact Hnone]].
  unfold monitor. unfold bind at 1, gets. cbn [andb].
  rewrite (bind_Ok _ _ _ _ _ Hcmd).
  unfold bind at 1, modify. unfold bind at 1, listener.
  cbn [listeners set_cid]. now rewrite Hnone.
Qed.

End Control.

Lemma command_reply_witness :
  exists st',
    listeners st' !! 1 = None /\
    command (NC := Sample.constants) 6 [] (Some "IPR_ATTR_CID"%string)
            (Sample.deliver 1 [Some (Sample.ack 1 7)]) (init_state false)
      = Ok (VInt 7) st'.
Proof.
  destruct (command_reply (NC := Sample.constants) (init_state false) 6 []
              (Some "IPR_ATTR_CID"%string)
              (Sample.deliver 1 [Some (Sample.ack 1 7)])
              (Sample.ack 1 7) (mk_nlhdr 0 0 1 None) nonce_reach_init)
    as (st' & Hl & Hc).
  - intros s Hs. change (nonce_next (_nonce (init_state false))) with 1 in *.
    unfold Sample.deliver. cbn [listeners set_listeners].
    now rewrite lookup_alter_eq, Hs.
  - reflexivity.
  - reflexivity.
  - reflexivity.
  - vm_compute. congruence.
  - exists st'. split; [exact Hl | exact Hc].
Defined.

Lemma monitor_off_when_off_witness :
  exists st',
    monitor (NC := Sample.constants) false
            (Sample.deliver 1 [Some (Sample.ack 1 0)]) (init_state false)
      = Err KeyError st' /\
    cid st' = VNone /\ listeners st' !! 0 = None.
Proof.
  apply (monitor_off_when_off (NC := Sample.constants) (init_state false)
           (Sample.deliver 1 [Some (Sample.ack 1 0)])
           (Sample.ack 1 0) (mk_nlhdr 0 0 1 None)).
  - reflexivity.
  - constructor.
  - intros s Hs. change (nonce_next (_nonce (init_state false))) with 1 in *.
    unfold Sample.deliver. cbn [listeners set_listeners].
    now rewrite lookup_alter_eq, Hs.
  - intros s Hs. unfold Sample.deliver. cbn [listeners set_listeners].
    now rewrite lookup_alter_ne by lia.
  - reflexivity.
  - reflexivity.
  - reflexivity.
  - vm_compute. congruence.
  - reflexivity.
Defined.

(** ** [IPRoute]: shortcuts, [link], [addr], [route], [rule] *)

Section LinkMore.
Import IPRoute.
Context `{NC : NetlinkConstants} `{IF : Ifinfmsg}.

(** X17. [link_up] and [link_down] send one SETLINK request for the
    interface: change mask 1 (IFF_UP) with flags 1 for up and flags 0 for
    down; the only attribute is the index, and there is none when the index
    is [None]. *)
Theorem link_up_down (index : value) (concurrent : state -> state)
        (st : state) :
  let msg flags :=
    set_attrs (if is_None index then []
               else [(name2nla "index", index)])
      (set_field "change" (VInt 1)
         (set_field "flags" (VInt flags)
            (set_field "index" index new_msg))) in
  let msg_flags :=
    Z.lor (Z.lor (Z.lor NLM_F_REQUEST NLM_F_ACK) NLM_F_CREATE) NLM_F_EXCL in
  Shortcuts.link_up index concurrent st
    = (nlm_request (msg 1) (VInt RTM_SETLINK) (VInt msg_flags) (VInt 0) VNone
                   concurrent ;; ret tt) st /\
  Shortcuts.link_down index concurrent st
    = (nlm_request (msg 0) (VInt RTM_SETLINK) (VInt msg_flags) (VInt 0) VNone
                   concurrent ;; ret tt) st.
Proof.
  intros msg msg_flags.
  assert (Hup : link_msg (VStr "set")
                  {[ "index"%string := index; "state"%string := VStr "up" ]}
                = Returns (msg 1, VInt RTM_SETLINK, msg_flags)).
  { subst msg msg_flags. destruct index; vm_compute; reflexivity. }
  assert (Hdown : link_msg (VStr "set")
                    {[ "index"%string := index;
                       "state"%string := VStr "down" ]}
                  = Returns (msg 0, VInt RTM_SETLINK, msg_flags)).
  { subst msg msg_flags. destruct index; vm_compute; reflexivity. }
  unfold Shortcuts.link_up, Shortcuts.link_down, link.
  rewrite Hup, Hdown. split; reflexivity.
Qed.

End LinkMore.

Section LinkAttrs.
Import IPRoute.
Context `{NC : NetlinkConstants} `{IF : Ifinfmsg}.

(** The attribute loop keeps the keywords whose value is not [None]. *)
Lemma link_attrs_elem kwarg nla v :
  (nla, v) ∈ link_attrs kwarg <->
  exists key, nla = name2nla key /\ kwarg !! key = Some v /\ v <> VNone.
Proof.
  unfold link_attrs. rewrite list_elem_of_omap. split.
  - intros ([key v0] & Hin & Hf). apply elem_of_map_to_list in Hin.
    destruct v0; cbn in Hf; try discriminate;
      injection Hf as <- <-; exists key; repeat split; auto; discriminate.
  - intros (key & -> & Hk & Hv). exists (key, v). split.
    + now apply elem_of_map_to_list.
    + destruct v; try reflexivity. contradiction.
Qed.

(** X18. What [link] makes of its keywords, whenever it gets as far as
    building its message.  An attribute of the message always comes from a
    keyword with a value other than [None], and never from [flags], [mask]
    or [state]; every other keyword with a value, [change] apart, does give
    an attribute.  A [state] that is there is a str or a bytes object
    (anything else has no [lower] and raises [AttributeError]); the change
    mask is then 1, and the flags are 1 when [state] is a str that is "up"
    in any letter case; otherwise they are the [flags] keyword, or 0 when
    that is missing or falsy. *)
Theorem link_keywords (command : value) (kwarg : gmap string value)
        (msg : nlmsg) (msg_type : value) (msg_flags : Z)
        (Hmsg : link_msg command kwarg = Returns (msg, msg_type, msg_flags)) :
  (forall nla v,
      (nla, v) ∈ attrs msg ->
      v <> VNone /\
      exists key, nla = name2nla key /\ kwarg !! key = Some v /\
                  key <> "flags"%string /\ key <> "mask"%string /\
                  key <> "state"%string) /\
  (forall key v,
      kwarg !! key = Some v -> v <> VNone ->
      key <> "flags"%string -> key <> "mask"%string ->
      key <> "change"%string -> key <> "state"%string ->
      (name2nla key, v) ∈ attrs msg) /\
  (forall sv,
      kwarg !! "state"%string = Some sv ->
      ((exists s, sv = VStr s) \/ (exists b, sv = VBytes b)) /\
      fields msg !! "change"%string = Some (VInt 1) /\
      fields msg !! "flags"%string
        = Some (match sv with
                | VStr s =>
                    if String.eqb (lower s) "up" then VInt 1
                    else por (default (VInt 0) (kwarg !! "flags"%string))
                             (VInt 0)
                | _ => por (default (VInt 0) (kwarg !! "flags"%string))
                           (VInt 0)
                end)).
Proof.
  unfold link_msg, dict_pop in Hmsg. cbv beta iota zeta in Hmsg.
  set (kw2 := delete "mask"%string (delete "flags"%string kwarg)) in *.
  set (m := default (VInt 0) (delete "flags"%string kwarg !! "mask"%string))
    in *.
  set (given := por (default (VInt 0) (kwarg !! "flags"%string)) (VInt 0))
    in *.
  assert (Hkw2 : forall key v, kw2 !! key = Some v ->
                               kwarg !! key = Some v /\
                               key <> "flags"%string /\ key <> "mask"%string).
  { intros key v Hk. subst kw2.
    apply lookup_delete_Some in Hk as [Hm Hk].
    apply lookup_delete_Some in Hk as [Hf Hk]. auto. }
  (* the keywords [kw] left when the [state] test is reached *)
  assert (Hrest : exists kw mask,
             (forall key v, kw !! key = Some v ->
                            kwarg !! key = Some v /\ key <> "flags"%string /\
                            key <> "mask"%string) /\
             (forall key v, kwarg !! key = Some v ->
                            key <> "flags"%string -> key <> "mask"%string ->
                            key <> "change"%string -> kw !! key = Some v) /\
             match kw !! "state"%string with
             | Some (VStr state) =>
                 Returns (set_attrs
                            (link_attrs (delete "state"%string kw))
                            (set_field "change" (VInt 1)
                               (set_field "flags"
                                  (if String.eqb (lower state) "up"
                                   then VInt 1 else given)
                                  (set_field "index" (dict_get "index" kwarg)
                                             new_msg))),
                          commands_get
                            [("set"%string, RTM_SETLINK);
                             ("add"%string, RTM_NEWLINK);
                             ("delete"%string, RTM_DELLINK)] command,
                          Z.lor (Z.lor (Z.lor NLM_F_REQUEST NLM_F_ACK)
                                       NLM_F_CREATE) NLM_F_EXCL)
                 = Returns (msg, msg_type, msg_flags)
             | Some (VBytes _) =>
                 Returns (set_attrs
                            (link_attrs (delete "state"%string kw))
                            (set_field "change" (VInt 1)
                               (set_field "flags" given
                                  (set_field "index" (dict_get "index" kwarg)
                                             new_msg))),
                          commands_get
                            [("set"%string, RTM_SETLINK);
                             ("add"%string, RTM_NEWLINK);
                             ("delete"%string, RTM_DELLINK)] command,
                          Z.lor (Z.lor (Z.lor NLM_F_REQUEST NLM_F_ACK)
                                       NLM_F_CREATE) NLM_F_EXCL)
                 = Returns (msg, msg_type, msg_flags)
             | Some _ => False
             | None =>
                 Returns (set_attrs
                            (link_attrs kw)
                            (set_field "change" mask
                               (set_field "flags" given
                                  (set_field "index" (dict_get "index" kwarg)
                                             new_msg))),
                          commands_get
                            [("set"%string, RTM_SETLINK);
                             ("add"%string, RTM_NEWLINK);
                             ("delete"%string, RTM_DELLINK)] command,
                          Z.lor (Z.lor (Z.lor NLM_F_REQUEST NLM_F_ACK)
                                       NLM_F_CREATE) NLM_F_EXCL)
                 = Returns (msg, msg_type, msg_flags)
             end).
  { destruct (truthy m).
    - exists kw2, m. split; [exact Hkw2|]. split.
      + intros key v Hk ? ? ?. subst kw2.
        now rewrite !lookup_delete_ne by congruence.
      + destruct (kw2 !! "state"%string) as [[]|];
          try discriminate; exact Hmsg.
    - exists (delete "change"%string kw2),
             (por (default (VInt 0) (kw2 !! "change"%string)) (VInt 0)).
      split; [|split].
      + intros key v Hk. apply lookup_delete_Some in Hk as [_ Hk].
        now apply Hkw2.
      + intros key v Hk ? ? ?. subst kw2.
        now rewrite !lookup_delete_ne by congruence.
      + destruct (delete "change"%string kw2 !! "state"%string) as [[]|];
          try discriminate; exact Hmsg. }
  destruct Hrest as (kw & mask & Hin & Hout & Hbuilt).
  assert (Hstate : kw !! "state"%string = kwarg !! "state"%string).
  { destruct (kwarg !! "state"%string) as [sv|] eqn:Hs.
    - apply Hout; [exact Hs|discriminate..].
    - destruct (kw !! "state"%string) as [sv|] eqn:Hk; [|reflexivity].
      apply Hin in Hk as [Hk _]. congruence. }
  (* the keywords the attribute loop goes through *)
  assert (Hloop : exists kw',
             attrs msg = link_attrs kw' /\
             (forall key v, kw' !! key = Some v <->
                            kw !! key = Some v /\ key <> "state"%string)).
  { destruct (kw !! "state"%string) as [sv|] eqn:Hk.
    - exists (delete "state"%string kw). split.
      + destruct sv; try contradiction; now injection Hbuilt as <- _ _.
      + intros key v. rewrite lookup_delete_Some. intuition congruence.
    - exists kw. split; [now injection Hbuilt as <- _ _|].
      intros key v. split; [|tauto].
      intros Hkv. split; [exact Hkv|]. intros ->. congruence. }
  destruct Hloop as (kw' & Hattrs & Hkw').
  split; [|split].
  - intros nla v Hel. rewrite Hattrs in Hel.
    apply link_attrs_elem in Hel as (key & -> & Hk & Hv).
    split; [exact Hv|]. exists key.
    apply Hkw' in Hk as [Hk Hs]. apply Hin in Hk as (? & ? & ?). auto.
  - intros key v Hk Hv ? ? ? ?. rewrite Hattrs.
    apply link_attrs_elem. exists key. repeat split; auto.
    apply Hkw'. split; [|assumption]. now apply Hout.
  - intros sv Hs. rewrite Hs in Hstate. rewrite Hstate in Hbuilt.
    destruct sv as [|n|s|b|d]; try contradiction;
      injection Hbuilt as <- _ _.
    + split; [left; eauto|]. cbn [fields set_attrs set_field].
      split; [apply lookup_insert_eq|].
      rewrite lookup_insert_ne by discriminate. apply lookup_insert_eq.
    + split; [right; eauto|]. cbn [fields set_attrs set_field].
      split; [apply lookup_insert_eq|].
      rewrite lookup_insert_ne by discriminate. apply lookup_insert_eq.
Qed.

End LinkAttrs.

Lemma link_keywords_witness :
  exists msg msg_type msg_flags,
    IPRoute.link_msg (NC := Sample.constants) (IF := Sample.ifinfmsg)
                     (VStr "set")
                     {[ "state"%string := VStr "Up"; "flags"%string := VInt 0;
                        "ifname"%string := VStr "eth0" ]}
      = Returns (msg, msg_type, msg_flags) /\
    fields msg !! "change"%string = Some (VInt 1) /\
    fields msg !! "flags"%string = Some (VInt 1).
Proof.
  destruct (IPRoute.link_msg (NC := Sample.constants) (IF := Sample.ifinfmsg)
              (VStr "set")
              {[ "state"%string := VStr "Up"; "flags"%string := VInt 0;
                 "ifname"%string := VStr "eth0" ]})
    as [[[msg msg_type] msg_flags]|e] eqn:Hmsg; [|vm_compute in Hmsg; discriminate].
  exists msg, msg_type, msg_flags. split; [reflexivity|].
  exact (proj2 (proj2 (proj2 (link_keywords (NC := Sample.constants)
                                (IF := Sample.ifinfmsg) _ _ _ _ _ Hmsg))
                      (VStr "Up") eq_refl)).
Defined.

(** ** Addresses, routes and rules *)

Section AddrMore.
Import IPRoute.
Context `{NC : NetlinkConstants}.


End AddrMore.

Section RoutingMore.
Import Routing.
Context `{NC : NetlinkConstants} `{MA : Marshal} `{RT : Rtmsg}.

(** A lookup in one of the tables raises nothing but [KeyError]. *)
Lemma table_get_raises table name e :
  table_get table name = Raises e -> e = KeyError.
Proof.
  induction table as [|[k v] table IH]; cbn [table_get].
  - congruence.
  - destruct (String.eqb k name); [discriminate|exact IH].
Qed.

(** A request that raises while the message is built leaves the object as
    it was. *)
Lemma lift_raises {A B} (r : result A) (k : A -> M B) e st :
  r = Raises e -> (let* x := lift r in k x) st = Err e st.
Proof. intros ->. reflexivity. Qed.

(** X20. [rule] refuses a table number below 0 or above 254 with the
    [TypeError] of its string [raise], before anything is allocated or
    sent: the object is left as it was. *)
Theorem rule_table_bounds (command : value) (table : Z) (priority : value)
        (rtype rtscope : string) (family src : value)
        (concurrent : state -> state) (st : state)
        (Hout : table < 0 \/ 254 < table) :
  rule command table priority rtype rtscope family src concurrent st
  = Err TypeError st.
Proof.
  unfold rule. apply lift_raises. unfold rule_msg.
  replace ((table <? 0) || (table >? 254)) with true; [reflexivity|].
  symmetry. apply orb_true_iff. destruct Hout; [left|right]; lia.
Qed.

(** X21. A message [rule] builds has a table number from 0 to 254, the
    attributes RTA_TABLE and RTA_PRIORITY in this order, and a zero
    [dst_len].  Without [src] the [src_len] is 0 and there is no third
    attribute; with [src] the family is AF_INET6 or AF_INET, RTA_SRC is the
    third attribute and [src_len] is 128 or 32. *)
Theorem rule_source (command : value) (table : Z) (priority : value)
        (rtype rtscope : string) (family src : value)
        (msg : nlmsg) (msg_type : value) (msg_flags : Z)
        (Hmsg : rule_msg command table priority rtype rtscope family src
                = Returns (msg, msg_type, msg_flags)) :
  0 <= table <= 254 /\
  fields msg !! "table"%string = Some (VInt table) /\
  fields msg !! "dst_len"%string = Some (VInt 0) /\
  ((src = VNone /\
    fields msg !! "src_len"%string = Some (VInt 0) /\
    attrs msg = [("RTA_TABLE"%string, VInt table);
                 ("RTA_PRIORITY"%string, priority)]) \/
   (src <> VNone /\
    (family = VInt IPRoute.AF_INET6 /\
     fields msg !! "src_len"%string = Some (VInt 128) \/
     family = VInt IPRoute.AF_INET /\
     fields msg !! "src_len"%string = Some (VInt 32)) /\
    attrs msg = [("RTA_TABLE"%string, VInt table);
                 ("RTA_PRIORITY"%string, priority);
                 ("RTA_SRC"%string, src)])).
Proof.
  unfold rule_msg in Hmsg.
  destruct ((table <? 0) || (table >? 254)) eqn:Hb; [discriminate|].
  apply orb_false_iff in Hb as [Hlo Hhi].
  split; [lia|].
  destruct (table_get rtypes rtype) as [type|]; [|discriminate].
  destruct (table_get rtscopes rtscope) as [scope|]; [|discriminate].
  destruct (is_None src) eqn:Hsrc.
  - injection Hmsg as <- _ _.
    split; [reflexivity|]. split; [reflexivity|]. left.
    split; [now destruct src|]. split; reflexivity.
  - unfold addr_len in Hmsg.
    assert (Hne : src <> VNone) by (intros ->; discriminate).
    destruct family as [|f| | |]; try discriminate.
    destruct (Z.eqb_spec f IPRoute.AF_INET6) as [->|H6].
    + injection Hmsg as <- _ _.
      split; [reflexivity|]. split; [reflexivity|]. right.
      split; [exact Hne|]. split; [left; split; reflexivity|reflexivity].
    + destruct (Z.eqb_spec f IPRoute.AF_INET) as [->|H4]; [|discriminate].
      injection Hmsg as <- _ _.
      split; [reflexivity|]. split; [reflexivity|]. right.
      split; [exact Hne|]. split; [right; split; reflexivity|reflexivity].
Qed.

(** The attribute loop of [route] keeps the keywords whose value is not
    [None]. *)
Lemma route_attrs_elem kwarg nla v :
  (nla, v) ∈ route_attrs kwarg <->
  exists key, nla = name2nla key /\ kwarg !! key = Some v /\ v <> VNone.
Proof.
  unfold route_attrs. rewrite list_elem_of_omap. split.
  - intros ([key v0] & Hin & Hf). apply elem_of_map_to_list in Hin.
    destruct v0; cbn in Hf; try discriminate;
      injection Hf as <- <-; exists key; repeat split; auto; discriminate.
  - intros (key & -> & Hk & Hv). exists (key, v). split.
    + now apply elem_of_map_to_list.
    + destruct v; try reflexivity. contradiction.
Qed.

(** X22. A message [route] builds has RTA_DST with the prefix as its first
    attribute, whatever the prefix is, and after it one attribute for each
    keyword whose value is not [None].  The table is the [table] keyword
    and 254 when there is none: then the field is 254 and the table
    attribute is sent with 254 as well, whereas [table=None] gives the
    field [None] and no table attribute.  The [index] argument plays no
    part in the message. *)
Theorem route_table (command prefix mask : value)
        (rtype rtproto rtscope : string) (index family : value)
        (kwarg : gmap string value)
        (msg : nlmsg) (msg_type : value) (msg_flags : Z)
        (Hmsg : route_msg command prefix mask rtype rtproto rtscope index
                          family kwarg
                = Returns (msg, msg_type, msg_flags)) :
  let table := default (VInt 254) (kwarg !! "table"%string) in
  fields msg !! "table"%string = Some table /\
  (exists rest,
      attrs msg = ("RTA_DST"%string, prefix) :: rest /\
      forall nla v,
        (nla, v) ∈ rest <->
        v <> VNone /\
        exists key, nla = name2nla key /\
                    (kwarg !! key = Some v \/
                     key = "table"%string /\ v = table)) /\
  (kwarg !! "table"%string = None ->
   (name2nla "table", VInt 254) ∈ attrs msg) /\
  (forall index',
      route_msg command prefix mask rtype rtproto rtscope index' family kwarg
      = Returns (msg, msg_type, msg_flags)).
Proof.
  intros table. unfold route_msg in Hmsg |- *.
  destruct (table_get rtprotos rtproto) as [proto|]; [|discriminate].
  destruct (table_get rtypes rtype) as [type|]; [|discriminate].
  destruct (table_get rtscopes rtscope) as [scope|]; [|discriminate].
  injection Hmsg as <- <- <-. fold table.
  assert (Hrest : forall nla v,
             (nla, v) ∈ route_attrs (<["table"%string := table]> kwarg) <->
             v <> VNone /\
             exists key, nla = name2nla key /\
                         (kwarg !! key = Some v \/
                          key = "table"%string /\ v = table)).
  { intros nla v. rewrite route_attrs_elem. split.
    - intros (key & -> & Hk & Hv). split; [exact Hv|]. exists key.
      split; [reflexivity|].
      destruct (decide (key = "table"%string)) as [->|Hne].
      + rewrite lookup_insert_eq in Hk. injection Hk as <-. now right.
      + rewrite lookup_insert_ne in Hk by congruence. now left.
    - intros (Hv & key & -> & Hk). exists key. split; [reflexivity|].
      split; [|exact Hv].
      destruct (decide (key = "table"%string)) as [->|Hne].
      + rewrite lookup_insert_eq. f_equal.
        destruct Hk as [Hk|[_ ->]]; [|reflexivity].
        subst table. now rewrite Hk.
      + rewrite lookup_insert_ne by congruence.
        destruct Hk as [Hk|[-> _]]; [exact Hk|contradiction]. }
  split; [|split; [|split]].
  - cbn. repeat (rewrite lookup_insert_ne by discriminate).
    now rewrite lookup_insert_eq.
  - eexists. split; [reflexivity|]. exact Hrest.
  - intros Hnone. cbn [attrs set_attrs set_field app].
    apply elem_of_cons. right. apply Hrest. split; [discriminate|].
    exists "table"%string. split; [reflexivity|]. right.
    split; [reflexivity|]. subst table. now rewrite Hnone.
  - reflexivity.
Qed.

End RoutingMore.

Lemma rule_table_bounds_witness :
  (255 < 0 \/ 254 < 255) /\
  Routing.rule (NC := Sample.constants) (VStr "add") 255 (VInt 32000)
               "RTN_UNICAST" "RT_SCOPE_UNIVERSE" (VInt IPRoute.AF_INET) VNone
               id (init_state false)
  = Err TypeError (init_state false).
Proof.
  split; [right; lia|].
  apply (rule_table_bounds (NC := Sample.constants)). right. lia.
Defined.

Lemma rule_source_witness :
  exists msg msg_type msg_flags,
    Routing.rule_msg (NC := Sample.constants) (VStr "add") 14 (VInt 32004)
                     "RTN_UNICAST" "RT_SCOPE_UNIVERSE" (VInt IPRoute.AF_INET)
                     (VStr "10.64.75.141")
      = Returns (msg, msg_type, msg_flags) /\
    0 <= 14 <= 254 /\
    fields msg !! "table"%string = Some (VInt 14).
Proof.
  destruct (Routing.rule_msg (NC := Sample.constants) (VStr "add") 14
              (VInt 32004) "RTN_UNICAST" "RT_SCOPE_UNIVERSE"
              (VInt IPRoute.AF_INET) (VStr "10.64.75.141"))
    as [[[msg msg_type] msg_flags]|e] eqn:Hmsg;
    [|vm_compute in Hmsg; discriminate].
  exists msg, msg_type, msg_flags. split; [reflexivity|].
  pose proof (rule_source (NC := Sample.constants) _ _ _ _ _ _ _ _ _ _ Hmsg)
    as (Hr & Ht & _).
  split; [exact Hr|exact Ht].
Defined.

Lemma route_table_witness :
  exists msg msg_type msg_flags,
    Routing.route_msg (NC := Sample.constants) (RT := Doubles.rtmsg)
                      (VStr "add") (VStr "10.0.0.0") (VInt 24)
                      "RTN_UNICAST" "RTPROT_STATIC" "RT_SCOPE_UNIVERSE"
                      VNone (VInt IPRoute.AF_INET)
                      {[ "gateway"%string := VStr "192.168.0.1" ]}
      = Returns (msg, msg_type, msg_flags) /\
    fields msg !! "table"%string = Some (VInt 254) /\
    ("RTA_table"%string, VInt 254) ∈ attrs msg.
Proof.
  destruct (Routing.route_msg (NC := Sample.constants) (RT := Doubles.rtmsg)
              (VStr "add") (VStr "10.0.0.0") (VInt 24)
              "RTN_UNICAST" "RTPROT_STATIC" "RT_SCOPE_UNIVERSE"
              VNone (VInt IPRoute.AF_INET)
              {[ "gateway"%string := VStr "192.168.0.1" ]})
    as [[[msg msg_type] msg_flags]|e] eqn:Hmsg;
    [|vm_compute in Hmsg; discriminate].
  exists msg, msg_type, msg_flags. split; [reflexivity|].
  pose proof (route_table (NC := Sample.constants) (RT := Doubles.rtmsg)
                _ _ _ _ _ _ _ _ _ _ _ _ Hmsg) as (Ht & _ & Ha & _).
  split; [exact Ht|]. apply Ha. reflexivity.
Defined.

(** ** What the request path leaves alone *)

Section Touches.
Context `{NC : NetlinkConstants}.

Lemma frame_of_refl keys st : frame_of keys st st.
Proof. unfold frame_of. repeat split. Qed.

Lemma frame_of_trans keys st s1 s2 :
  frame_of keys st s1 -> frame_of keys s1 s2 -> frame_of keys st s2.
Proof.
  unfold frame_of.
  intros (? & ? & ? & ? & ? & ? & ? & Hl1) (? & ? & ? & ? & ? & ? & ? & Hl2).
  repeat split; try congruence.
  intros k Hk. rewrite Hl2, Hl1; auto.
Qed.

Lemma touches_ret {A} keys (a : A) : touches keys (ret a).
Proof. intros st. apply frame_of_refl. Qed.

Lemma touches_raise {A} keys e : touches keys (raise (A := A) e).
Proof. intros st. apply frame_of_refl. Qed.

Lemma touches_listener keys key : touches keys (listener key).
Proof.
  intros st. unfold listener.
  destruct (listeners st !! key); apply frame_of_refl.
Qed.

Lemma touches_get_header keys m : touches keys (get_header m).
Proof.
  unfold get_header. destruct (header m);
    [apply touches_ret | apply touches_raise].
Qed.

Lemma touches_bind {A B} keys (c : M A) (k : A -> M B) :
  touches keys c -> (forall a, touches keys (k a)) -> touches keys (bind c k).
Proof.
  intros Hc Hk st. unfold bind. specialize (Hc st).
  destruct (c st) as [a s1|e s1|]; [|exact Hc|exact I].
  specialize (Hk a s1).
  destruct (k a s1) as [b s2|e s2|]; [| |exact I];
    eapply frame_of_trans; eassumption.
Qed.

(** A change of the registry that keeps every key outside [keys]. *)
Lemma touches_set_listeners keys f :
  (forall ls k, k ∉ keys -> f ls !! k = ls !! k) ->
  touches keys (modify (set_listeners f)).
Proof.
  intros Hf st. unfold modify, frame_of. cbn. repeat split. apply Hf.
Qed.

Lemma touches_reroute items : touches [0] (reroute items).
Proof.
  induction items as [|m items IH]; intros st; cbn [reroute].
  - apply frame_of_refl.
  - destruct (listeners st !! 0) as [q0|]; [|apply IH].
    destruct (q_full q0); [exact I|].
    specialize (IH (set_listeners (insert 0 (q_push m q0)) st)).
    assert (Hstep : frame_of [0] st
                      (set_listeners (insert 0 (q_push m q0)) st)).
    { unfold frame_of. cbn. repeat split. intros k Hk.
      apply lookup_insert_ne. intros <-. apply Hk. now left. }
    destruct (reroute items _) as [a s|e s|]; [| |exact I];
      eapply frame_of_trans; eassumption.
Qed.

Lemma touches_weaken {A} keys keys' (c : M A) :
  (forall k, k ∈ keys -> k ∈ keys') -> touches keys c -> touches keys' c.
Proof.
  intros Hsub Hc st. specialize (Hc st).
  assert (Hw : forall s, frame_of keys st s -> frame_of keys' st s).
  { unfold frame_of. intros s (? & ? & ? & ? & ? & ? & ? & Hl).
    repeat split; auto. }
  destruct (c st); auto.
Qed.

Lemma touches_remove_queue key : touches [key; 0] (_remove_queue key).
Proof.
  unfold _remove_queue.
  apply touches_bind; [apply touches_listener|]. intros q.
  destruct (negb (key =? 0)); [|apply touches_ret].
  apply touches_bind.
  - apply touches_set_listeners. intros ls k Hk.
    apply lookup_delete_ne. intros <-. apply Hk. now left.
  - intros _. eapply touches_weaken; [|apply touches_reroute].
    intros k Hk. apply list_elem_of_singleton in Hk as ->. right. now left.
Qed.

Lemma touches_popped key q rest : touches [key; 0] (popped key q rest).
Proof.
  unfold popped, popped_state. apply touches_set_listeners.
  intros ls k Hk. apply lookup_alter_ne. intros <-. apply Hk. now left.
Qed.

Lemma touches_get_loop key raw q items :
  forall result, touches [key; 0] (get_loop key raw q items result).
Proof.
  assert (Hrm : forall e, touches [key; 0]
                            (_remove_queue key ;; raise (A := list nlmsg) e)).
  { intros e. apply touches_bind; [apply touches_remove_queue|].
    intros _. apply touches_raise. }
  induction items as [|item items IH]; intros result; cbn [get_loop].
  - destruct ((key =? 0) || q_persist q); [intros st; exact I|apply Hrm].
  - apply touches_bind; [apply touches_popped|]. intros _.
    destruct item as [msg|]; [|apply Hrm].
    apply touches_bind; [apply touches_get_header|]. intros hdr.
    assert (Hgo : touches [key; 0]
              (if (h_type hdr =? NLMSG_DONE)
                  || (Z.land (h_flags hdr) NLM_F_MULTI =? 0)
               then ret (if negb (h_type hdr =? NLMSG_DONE) || raw
                         then result ++ [msg] else result)
               else if raw
                    then ret (if negb (h_type hdr =? NLMSG_DONE) || raw
                              then result ++ [msg] else result)
                    else get_loop key raw q items
                           (if negb (h_type hdr =? NLMSG_DONE) || raw
                            then result ++ [msg] else result))).
    { destruct ((h_type hdr =? NLMSG_DONE)
                || (Z.land (h_flags hdr) NLM_F_MULTI =? 0));
        [apply touches_ret|].
      destruct raw; [apply touches_ret|apply IH]. }
    destruct (h_error hdr) as [e|]; [|exact Hgo].
    destruct raw; [exact Hgo|apply Hrm].
Qed.

Lemma touches_get key raw : touches [key; 0] (get key raw).
Proof.
  unfold get. apply touches_bind; [apply touches_listener|]. intros q.
  apply touches_bind; [apply touches_get_loop|]. intros result.
  apply touches_bind; [|intros _; apply touches_ret].
  destruct (negb (q_persist q));
    [apply touches_remove_queue|apply touches_ret].
Qed.

(** X23. Whatever [get(key)] finds and however it ends, by a return, by
    the error of a reply or by a timeout, it has changed nothing of the
    object but the listeners under [key] and under 0: every other listener,
    the callback chain, the subscription id, the sequence counter and the
    mirror flag are as before, and nothing was sent. *)
Theorem get_touches_two_queues (key : Z) (raw : bool) (st : state) :
  match get key raw st with
  | Ok _ st' | Err _ st' =>
      (forall k, k <> key -> k <> 0 ->
                 listeners st' !! k = listeners st !! k) /\
      callbacks st' = callbacks st /\ cid st' = cid st /\
      _nonce st' = _nonce st /\ _mirror st' = _mirror st /\
      trace st' = trace st
  | Hang => True
  end.
Proof.
  pose proof (touches_get key raw st) as Hget.
  assert (Hw : forall s, frame_of [key; 0] st s ->
             (forall k, k <> key -> k <> 0 ->
                        listeners s !! k = listeners st !! k) /\
             callbacks s = callbacks st /\ cid s = cid st /\
             _nonce s = _nonce st /\ _mirror s = _mirror st /\
             trace s = trace st).
  { unfold frame_of. intros s (? & ? & ? & ? & ? & ? & ? & Hl).
    repeat split; auto. intros k Hk Hz. apply Hl.
    intros Hin. apply elem_of_cons in Hin as [->|Hin]; [congruence|].
    apply list_elem_of_singleton in Hin. congruence. }
  destruct (get key raw st); auto.
Qed.

Lemma keeps_ret {A B} (proj : state -> B) (a : A) : keeps proj (ret a).
Proof. intros st. reflexivity. Qed.

Lemma keeps_raise {A B} (proj : state -> B) e : keeps proj (raise (A := A) e).
Proof. intros st. reflexivity. Qed.

Lemma keeps_gets {A B} (proj : state -> B) (f : state -> A) :
  keeps proj (gets f).
Proof. intros st. reflexivity. Qed.

Lemma keeps_modify {B} (proj : state -> B) f :
  (forall s, proj (f s) = proj s) -> keeps proj (modify f).
Proof. intros Hf st. apply Hf. Qed.

Lemma keeps_bind {A B C} (proj : state -> C) (c : M A) (k : A -> M B) :
  keeps proj c -> (forall a, keeps proj (k a)) -> keeps proj (bind c k).
Proof.
  intros Hc Hk st. unfold bind. specialize (Hc st).
  destruct (c st) as [a s1|e s1|]; [|exact Hc|exact I].
  specialize (Hk a s1).
  destruct (k a s1) as [b s2|e s2|]; [| |exact I]; congruence.
Qed.

Lemma keeps_mirror_touches {A} keys (c : M A) :
  touches keys c -> keeps _mirror c.
Proof.
  intros Hc st. specialize (Hc st).
  destruct (c st) as [a s|e s|]; [| |exact I];
    now destruct Hc as (_ & _ & _ & ? & _).
Qed.

Lemma keeps_mirror_request msg msg_type msg_flags env_flags realm concurrent :
  (forall s, _mirror (concurrent s) = _mirror s) ->
  keeps _mirror
        (nlm_request msg msg_type msg_flags env_flags realm concurrent).
Proof.
  intros Hc. unfold nlm_request.
  apply keeps_bind; [apply keeps_gets|]. intros dflt.
  apply keeps_bind.
  { unfold nonce. apply keeps_bind; [|intros; apply keeps_gets].
    now apply keeps_modify. }
  intros n.
  apply keeps_bind; [now apply keeps_modify|]. intros _.
  apply keeps_bind.
  { unfold nlm_push. apply keeps_bind.
    - eapply keeps_mirror_touches. apply (touches_get_header []).
    - intros hdr. now apply keeps_modify. }
  intros _.
  apply keeps_bind; [now apply keeps_modify|]. intros _.
  apply keeps_bind; [eapply keeps_mirror_touches, touches_get|].
  intros result.
  apply keeps_bind; [apply keeps_gets|]. intros dbg. apply keeps_ret.
Qed.

Lemma keeps_mirror_command c a expect concurrent :
  (forall s, _mirror (concurrent s) = _mirror s) ->
  keeps _mirror (command c a expect concurrent).
Proof.
  intros Hc. unfold command.
  apply keeps_bind; [now apply keeps_mirror_request|]. intros rsps.
  destruct rsps as [|rsp rsps]; [apply keeps_raise|].
  destruct (fields rsp !! "cmd"%string) as [code|]; [|apply keeps_raise].
  destruct (is_int IPRCMD_ACK code); [|apply keeps_raise].
  destruct expect; apply keeps_ret.
Qed.

Lemma keeps_mirror_monitor operate concurrent :
  (forall s, _mirror (concurrent s) = _mirror s) ->
  keeps _mirror (monitor operate concurrent).
Proof.
  intros Hc. unfold monitor.
  apply keeps_bind; [apply keeps_gets|]. intros c.
  destruct (operate && is_None c).
  - apply keeps_bind; [now apply keeps_modify|]. intros _.
    apply keeps_bind; [now apply keeps_mirror_command|]. intros v.
    now apply keeps_modify.
  - apply keeps_bind; [now apply keeps_mirror_command|]. intros _.
    apply keeps_bind; [now apply keeps_modify|]. intros _.
    apply keeps_bind;
      [eapply keeps_mirror_touches; apply (touches_listener [])|].
    intros _. now apply keeps_modify.
Qed.

(** X24. [mirror(operate)] writes the mirror flag last: when it returns the
    flag is [operate], and when the [monitor] call inside it raises, be it
    the [KeyError] of a missing default queue, a refused command or a
    timeout, the flag keeps the value it had. *)
Theorem mirror_flag (operate : bool) (concurrent : state -> state)
        (st : state)
        (Hthread : forall s, _mirror (concurrent s) = _mirror s) :
  match mirror operate concurrent st with
  | Ok _ st' => _mirror st' = operate
  | Err _ st' => _mirror st' = _mirror st
  | Hang => True
  end.
Proof.
  pose proof (keeps_mirror_monitor operate concurrent Hthread st) as Hm.
  unfold mirror, bind.
  destruct (monitor operate concurrent st) as [[] s|e s|];
    [reflexivity|exact Hm|exact I].
Qed.

End Touches.

Lemma mirror_flag_witness :
  (forall s, _mirror (Sample.deliver 1 [Some (Sample.ack 1 7)] s) = _mirror s)
  /\ exists st',
      mirror (NC := Sample.constants) false
             (Sample.deliver 1 [Some (Sample.ack 1 7)]) (init_state false)
        = Err KeyError st' /\
      _mirror st' = _mirror (init_state false).
Proof.
  split; [reflexivity|].
  pose proof (mirror_flag (NC := Sample.constants) false
                (Sample.deliver 1 [Some (Sample.ack 1 7)]) (init_state false)
                (fun s => eq_refl)) as Hflag.
  destruct (mirror (NC := Sample.constants) false
              (Sample.deliver 1 [Some (Sample.ack 1 7)]) (init_state false))
    as [a st'|e st'|] eqn:Hrun; [vm_compute in Hrun; discriminate| |
                                  vm_compute in Hrun; discriminate].
  exists st'. split; [|exact Hflag].
  vm_compute in Hrun. now injection Hrun as <- <-.
Defined.

(** ** What a request sends *)

Section ThreadSends.
Context `{MA : Marshal} `{CO : Codec}.

Lemma sends_app tr tr' : sends (tr ++ tr') = sends tr ++ sends tr'.
Proof. unfold sends. apply omap_app. Qed.

Lemma keeps_lift {A B} (proj : state -> B) (r : result A) :
  keeps proj (lift r).
Proof. destruct r; [apply keeps_ret | apply keeps_raise]. Qed.

Lemma keeps_try_except {A B} (proj : state -> B) (c h : M A) handles :
  keeps proj c -> keeps proj h -> keeps proj (try_except c handles h).
Proof.
  intros Hc Hh st. unfold try_except. specialize (Hc st).
  destruct (c st) as [a s1|e s1|]; [exact Hc| |exact I].
  destruct (handles e); [|exact Hc].
  specialize (Hh s1). destruct (h s1); [| |exact I]; congruence.
Qed.

Lemma keeps_listener {B} (proj : state -> B) key : keeps proj (listener key).
Proof.
  intros st. unfold listener. now destruct (listeners st !! key).
Qed.

(** What the reassembly thread cannot change: the messages sent and the
    sequence counter. *)
Lemma keeps_sent_put_nowait key m :
  keeps (fun s => (sends (trace s), _nonce s)) (put_nowait key m).
Proof.
  unfold put_nowait. apply keeps_bind; [apply keeps_listener|]. intros q.
  destruct (q_full q); [apply keeps_raise|]. now apply keeps_modify.
Qed.

Lemma keeps_sent_event ev :
  sends [ev] = [] ->
  keeps (fun s => (sends (trace s), _nonce s)) (modify (emit ev)).
Proof.
  intros Hev. apply keeps_modify. intros s. cbn [emit trace _nonce].
  now rewrite sends_app, Hev, app_nil_r.
Qed.

Lemma keeps_sent_run_callbacks msg chain :
  keeps (fun s => (sends (trace s), _nonce s)) (run_callbacks msg chain).
Proof.
  induction chain as [|cr chain IH]; cbn [run_callbacks];
    [apply keeps_ret|].
  apply keeps_bind; [now apply keeps_sent_event|]. intros _.
  apply keeps_bind; [apply keeps_lift|]. intros hit.
  apply keeps_bind; [|intros _; exact IH].
  destruct hit; [|apply keeps_ret].
  apply keeps_bind; [now apply keeps_sent_event|]. intros _.
  apply keeps_lift.
Qed.

Lemma keeps_sent_parse_msg msg :
  keeps (fun s => (sends (trace s), _nonce s)) (parse_msg msg).
Proof.
  unfold parse_msg.
  apply keeps_bind.
  { unfold get_header. destruct (header msg);
      [apply keeps_ret|apply keeps_raise]. }
  intros hdr.
  apply keeps_bind; [apply keeps_gets|]. intros chain.
  apply keeps_bind; [apply keeps_sent_run_callbacks|]. intros _.
  apply keeps_bind; [apply keeps_gets|]. intros ls.
  apply keeps_bind; [apply keeps_gets|]. intros mirror_on.
  apply keeps_bind.
  { destruct (mirror_on && _); [|apply keeps_ret].
    destruct (raw msg) as [bytes|]; [|apply keeps_ret].
    apply keeps_try_except; [|apply keeps_ret].
    apply keeps_bind; [apply keeps_listener|]. intros _.
    apply keeps_bind; [apply keeps_lift|]. intros again.
    destruct again; [apply keeps_raise|apply keeps_sent_put_nowait]. }
  intros _.
  apply keeps_bind; [apply keeps_gets|]. intros ls'.
  destruct (decide _); [|apply keeps_ret].
  apply keeps_try_except; [apply keeps_sent_put_nowait|apply keeps_ret].
Qed.

Lemma keeps_sent_parse data :
  keeps (fun s => (sends (trace s), _nonce s)) (parse data).
Proof.
  unfold parse. apply keeps_bind; [apply keeps_lift|]. intros msgs.
  induction msgs as [|msg msgs IH]; cbn [parse_all]; [apply keeps_ret|].
  apply keeps_bind; [apply keeps_sent_parse_msg|]. intros _. exact IH.
Qed.

Lemma keeps_sent_dispatch flags envelope :
  keeps (fun s => (sends (trace s), _nonce s)) (dispatch flags envelope).
Proof.
  unfold dispatch.
  destruct (e_get_cdata envelope) as [[| | |cdata|]|e];
    try apply keeps_raise.
  - apply keeps_bind; [|intros _; apply keeps_ret].
    apply keeps_try_except; [|apply keeps_ret].
    destruct (flags =? 1); [|apply keeps_sent_parse].
    apply keeps_bind; [apply keeps_lift|]. intros msg.
    apply keeps_sent_put_nowait.
  - destruct (is_AttributeError e); [apply keeps_ret|apply keeps_raise].
Qed.

Lemma keeps_sent_walk fuel : forall buf offset,
  keeps (fun s => (sends (trace s), _nonce s)) (walk fuel buf offset).
Proof.
  induction fuel as [|fuel IH]; intros buf offset; cbn [walk];
    [apply keeps_ret|].
  destruct (b_length buf) as [n|]; [|apply keeps_raise].
  destruct (offset <? n); [|apply keeps_ret].
  apply keeps_bind; [apply keeps_lift|]. intros [[len mtype] flags].
  destruct (offset + len >? n); [apply keeps_ret|].
  apply keeps_bind; [now apply keeps_sent_event|]. intros _.
  apply keeps_bind; [apply keeps_lift|]. intros envelope.
  apply keeps_bind; [apply keeps_sent_dispatch|]. intros buf'. apply IH.
Qed.

(** The reassembly thread: [_feed_buffers] on any blobs. *)
Lemma keeps_sent_feed fuel blobs : forall save,
  keeps (fun s => (sends (trace s), _nonce s))
        (_feed_buffers fuel save blobs).
Proof.
  induction blobs as [|blob blobs IH]; intros save; cbn [_feed_buffers];
    [apply keeps_ret|].
  apply keeps_bind; [apply keeps_sent_walk|]. intros [save'|];
    [apply IH|apply keeps_ret].
Qed.

(** Seen from a caller, a thread that runs such a computation has sent
    nothing and has left the counter alone. *)
Lemma thread_sends_nothing (c : M unit) :
  keeps (fun s => (sends (trace s), _nonce s)) c ->
  forall s, sends (trace (run_thread c s)) = sends (trace s) /\
            _nonce (run_thread c s) = _nonce s.
Proof.
  intros Hc s. specialize (Hc s). unfold run_thread.
  destruct (c s) as [a s'|e s'|]; [| |split; reflexivity];
    now injection Hc as -> ->.
Qed.

End ThreadSends.

Section Sends.
Context `{NC : NetlinkConstants}.

(** X25. One request, one message.  The request message has a header, and
    the reassembly thread, whatever it does meanwhile, sends nothing itself
    and leaves the sequence counter alone (as [parse] and [_feed_buffers]
    do).  Then whenever [nlm_request] comes back, with a result, with the
    error of a reply or with a timeout, exactly one message has been handed
    to the bridge: the caller's message under the freshly allocated
    sequence number, with the type and the flags of the call, whatever
    values these are, or those of the message's header when the call gives
    [None], to the realm of the call or to the default realm when that one
    is falsy.  The sequence counter has moved by one step. *)
Theorem request_sends_once (msg : nlmsg) (hdr : nlhdr)
        (msg_type msg_flags env_flags realm : value)
        (concurrent : state -> state) (st : state)
        (Hheader : header msg = Some hdr)
        (Hthread : forall s, sends (trace (concurrent s)) = sends (trace s) /\
                             _nonce (concurrent s) = _nonce s) :
  let n := nonce_next (_nonce st) in
  let sent :=
    EvSend n env_flags (por realm (VInt (default_realm st)))
           (if is_None msg_type then VInt (h_type hdr) else msg_type)
           (if is_None msg_flags then VInt (h_flags hdr) else msg_flags)
           msg in
  match nlm_request msg msg_type msg_flags env_flags realm concurrent st with
  | Ok _ st' | Err _ st' =>
      _nonce st' = n /\ sends (trace st') = sends (trace st) ++ [sent]
  | Hang => True
  end.
Proof.
  intros n sent.
  set (s3 := emit sent
                  (set_listeners (insert n new_queue) (set_nonce n st))).
  assert (Hrun : nlm_request msg msg_type msg_flags env_flags realm
                             concurrent st
                 = (let* result := get n false in
                    let* dbg := gets debug in
                    ret (if dbg then result else map del_header result))
                     (concurrent s3)).
  { unfold nlm_request.
    unfold bind at 1, gets. unfold bind at 1, nonce.
    unfold bind at 1, modify. unfold bind at 1, gets.
    cbn [_nonce set_nonce].
    unfold bind at 1, modify. unfold bind at 1, nlm_push.
    unfold bind at 1, get_header. rewrite Hheader. unfold ret at 1.
    unfold modify at 1. unfold bind at 1, modify. reflexivity. }
  rewrite Hrun. unfold bind at 1.
  pose proof (touches_get n false (concurrent s3)) as Hget.
  destruct (Hthread s3) as [Htr Hno].
  assert (Hw : forall s, frame_of [n; 0] (concurrent s3) s ->
                         _nonce s = n /\
                         sends (trace s) = sends (trace st) ++ [sent]).
  { unfold frame_of. intros s (_ & _ & Hn & _ & _ & _ & Ht & _).
    rewrite Hn, Ht, Hno, Htr. split; [reflexivity|].
    subst s3. cbn [emit trace set_listeners set_nonce].
    now rewrite sends_app. }
  destruct (get n false (concurrent s3)) as [result s|e s|];
    [|now apply Hw|exact I].
  cbn. now apply Hw.
Qed.

(** X26. A message without a header, as [nlm_request] itself returns them
    when the object is not in debug mode, cannot be sent again: [nlm_push]
    raises [KeyError] on [msg['header']] before anything is sent, after the
    sequence number was allocated and its queue registered.  Nothing
    removes that queue: the listener stays in the registry. *)
Theorem request_without_header (msg : nlmsg)
        (msg_type msg_flags env_flags realm : value)
        (concurrent : state -> state) (st : state)
        (Hheader : header msg = None) :
  let n := nonce_next (_nonce st) in
  exists st',
    nlm_request msg msg_type msg_flags env_flags realm concurrent st
    = Err KeyError st' /\
    listeners st' = <[n := new_queue]> (listeners st) /\
    _nonce st' = n /\ trace st' = trace st.
Proof.
  intros n. eexists. split; [|split; [|split]]; cycle 1.
  all: cycle 3.
  { unfold nlm_request.
    unfold bind at 1, gets. unfold bind at 1, nonce.
    unfold bind at 1, modify. unfold bind at 1, gets.
    cbn [_nonce set_nonce].
    unfold bind at 1, modify. unfold bind at 1, nlm_push.
    unfold bind at 1, get_header. rewrite Hheader. reflexivity. }
  all: reflexivity.
Qed.

End Sends.

Lemma request_sends_once_witness :
  (forall s,
      sends (trace (run_thread (parse (MA := Doubles.dump) []) s))
      = sends (trace s) /\
      _nonce (run_thread (parse (MA := Doubles.dump) []) s) = _nonce s)
  /\ exists result st',
      nlm_request (NC := Sample.constants) new_msg
                  (VStr "dump") VNone (VInt 0) VNone
                  (run_thread (parse (MA := Doubles.dump) []))
                  (init_state false)
        = Ok result st' /\
      _nonce st' = 1 /\
      sends (trace st')
      = [EvSend 1 (VInt 0) (VInt 0) (VStr "dump") (VInt 0) new_msg].
Proof.
  split; [apply thread_sends_nothing, keeps_sent_parse|].
  pose proof (request_sends_once (NC := Sample.constants) new_msg
                (mk_nlhdr 0 0 0 None) (VStr "dump") VNone (VInt 0) VNone
                (run_thread (parse (MA := Doubles.dump) []))
                (init_state false) eq_refl
                (thread_sends_nothing _ (keeps_sent_parse [])))
    as Honce.
  cbv zeta in Honce.
  destruct (nlm_request (NC := Sample.constants) new_msg
              (VStr "dump") VNone (VInt 0) VNone
              (run_thread (parse (MA := Doubles.dump) []))
              (init_state false))
    as [result st'|e st'|] eqn:Hrun;
    [|vm_compute in Hrun; discriminate|vm_compute in Hrun; discriminate].
  exists result, st'. split; [reflexivity|]. exact Honce.
Defined.

Lemma request_without_header_witness :
  exists st',
    nlm_request (NC := Sample.constants) (del_header new_msg)
                (VInt 18) (VInt 5) (VInt 0) VNone id (init_state false)
    = Err KeyError st' /\
    listeners st' = <[1 := new_queue]> (listeners (init_state false)) /\
    _nonce st' = 1 /\ trace st' = trace (init_state false).
Proof.
  exact (request_without_header (NC := Sample.constants)
           (del_header new_msg) (VInt 18) (VInt 5) (VInt 0) VNone id
           (init_state false) eq_refl).
Defined.
